(** * stock_analysis: the limit-up screening pipeline

    A shallow embedding of the scoring core of the repository
    ([src/analysis/limit_up_analyzer.py], [src/analysis/sector_analyzer.py],
    [src/analysis/dragon_head_identifier.py],
    [src/strategy/strategy_generator.py]) and the properties of it that the
    specification states.

    Conventions of the embedding.
    - A Python [float] is an exact rational or NaN ([pyfloat]); rounding error
      of binary floating point is not modelled, NaN propagation and the
      all-false comparisons on NaN are. The one place where a text shows
      the last digit of a float product, the stop-loss and target of a
      stock strategy, is computed with the binary64 product.
    - A Python [int] that counts something is a [nat]; configuration integers
      and [hash] values are [Z].
    - A [dict] whose iteration order is observable is an association list in
      insertion order; a dict literal with fixed keys is a record.
    - The builtin [hash] on [str] is salted per interpreter process, so it is
      a parameter of a run.
    - The stock dictionaries are shared between the lists that hold them and
      are updated in place. [_find_continuous_limit_up] returns the list it
      was given with the updated dictionaries next to the streak list. The
      keys that [identify_roles] adds ('综合评分', '所属板块') are read only
      through the role lists it returns, so the analysis result that the
      generator reads is carried without them.
    - Commentary from the external provider is switched off: the strategy
      generator is the one called with no [ai_analysis]. *)

From Stdlib Require Import List String Ascii Bool Arith ZArith QArith Qround Qabs.
From Stdlib Require Import Lia Lqa Permutation Sorted DecimalString.
Import ListNotations.

Set Implicit Arguments.

(** ** Python primitives *)

Module Py.

(** Exceptions that the modelled code can let escape. *)
Inductive exn : Type := IndexError.

Inductive result (A : Type) : Type :=
| Ok (a : A)
| Raise (e : exn).
Arguments Ok {A} a.
Arguments Raise {A} e.

Definition bind {A B} (m : result A) (k : A -> result B) : result B :=
  match m with
  | Ok a => k a
  | Raise e => Raise e
  end.

(** [float]: a rational or NaN. *)
Inductive pyfloat : Type :=
| NaN
| Fin (q : Q).

Definition Qltb (a b : Q) : bool :=
  (Qnum a * Zpos (Qden b) <? Qnum b * Zpos (Qden a))%Z.
Definition Qleb (a b : Q) : bool :=
  (Qnum a * Zpos (Qden b) <=? Qnum b * Zpos (Qden a))%Z.
Definition Qgtb (a b : Q) : bool := Qltb b a.
Definition Qgeb (a b : Q) : bool := Qleb b a.
Definition Qeqb (a b : Q) : bool :=
  (Qnum a * Zpos (Qden b) =? Qnum b * Zpos (Qden a))%Z.

Definition fcmp (c : Q -> Q -> bool) (a b : pyfloat) : bool :=
  match a, b with
  | Fin x, Fin y => c x y
  | _, _ => false
  end.
Definition flt := fcmp Qltb.
Definition fgt := fcmp Qgtb.
Definition fge := fcmp Qgeb.
Definition feq := fcmp Qeqb.

Definition fop (o : Q -> Q -> Q) (a b : pyfloat) : pyfloat :=
  match a, b with
  | Fin x, Fin y => Fin (o x y)
  | _, _ => NaN
  end.
Definition fadd := fop Qplus.
Definition fsub := fop Qminus.
Definition fmul := fop Qmult.
(** Every division of the modelled code is guarded against a zero divisor. *)
Definition fdiv := fop Qdiv.

(** [pd.notna]. *)
Definition notna (a : pyfloat) : bool :=
  match a with
  | NaN => false
  | Fin _ => true
  end.

(** Rounding to the nearest integer, ties to even. *)
Definition round_half_even (x : Q) : Z :=
  let d := Zpos (Qden x) in
  let f := (Qnum x / d)%Z in
  let r := (Qnum x mod d)%Z in
  match (2 * r ?= d)%Z with
  | Lt => f
  | Gt => (f + 1)%Z
  | Eq => if Z.even f then f else (f + 1)%Z
  end.

(** [round(x, 2)] and [round(x, 1)]. *)
Definition round2 (x : Q) : Q := Qred (round_half_even (x * 100) # 100).
Definition round1 (x : Q) : Q := Qred (round_half_even (x * 10) # 10).

Definition fround2 (a : pyfloat) : pyfloat :=
  match a with
  | NaN => NaN
  | Fin x => Fin (round2 x)
  end.

Section Ordering.
Context {A K : Type}.
Variable lt : K -> K -> bool.
Variable key : A -> K.

(** [l.sort(key=key, reverse=True)]: descending and stable, elements
    with equal keys keep their order. *)
Fixpoint insert_desc (x : A) (l : list A) : list A :=
  match l with
  | [] => [x]
  | y :: l' =>
      if lt (key x) (key y) then y :: insert_desc x l' else x :: y :: l'
  end.

Definition sort_desc (l : list A) : list A := fold_right insert_desc [] l.

(** [max(l, key=key)]: the first element whose key no later one exceeds;
    [None] stands for the [ValueError] on an empty sequence. *)
Definition max_from (x : A) (l : list A) : A :=
  fold_left (fun best y => if lt (key best) (key y) then y else best) l x.

Definition max_by (l : list A) : option A :=
  match l with
  | [] => None
  | x :: l' => Some (max_from x l')
  end.
End Ordering.

(** [l[-n:]], pandas [tail(n)]. *)
Definition tail {A} (n : nat) (l : list A) : list A :=
  skipn (List.length l - n) l.

(** [l[a:b]] for [0 <= a <= b]. *)
Definition slice {A} (a b : nat) (l : list A) : list A :=
  firstn (b - a) (skipn a l).

(** [l[-k]] for [1 <= k <= len(l)]. *)
Definition from_end {A} (k : nat) (l : list A) (d : A) : A :=
  nth (k - 1) (rev l) d.

(** pandas reductions, which skip NaN. *)
Definition finite_values (l : list pyfloat) : list Q :=
  flat_map (fun a => match a with Fin x => [x] | NaN => [] end) l.

Definition Qsum (l : list Q) : Q := fold_left Qplus l 0.

Definition series_sum (l : list pyfloat) : Q := Qsum (finite_values l).

(** The mean is the exact one; the float mean of the code can differ from
    it in its last digits. *)
Definition series_mean (l : list pyfloat) : pyfloat :=
  match finite_values l with
  | [] => NaN
  | v => Fin (Qsum v / inject_Z (Z.of_nat (List.length v)))
  end.

Definition series_max (l : list pyfloat) : pyfloat :=
  match max_by Qltb (fun x => x) (finite_values l) with
  | None => NaN
  | Some x => Fin x
  end.

Definition series_min (l : list pyfloat) : pyfloat :=
  match max_by Qgtb (fun x => x) (finite_values l) with
  | None => NaN
  | Some x => Fin x
  end.

(** [str(n)] for a non-negative count. *)
Definition str_of_nat (n : nat) : string :=
  NilZero.string_of_uint (Nat.to_uint n).

(** [f"{x:.2f}"]. *)
Definition two_digits (n : nat) : string :=
  if n <? 10 then String "0" (str_of_nat n) else str_of_nat n.

Definition format_2f (a : pyfloat) : string :=
  match a with
  | NaN => "nan"
  | Fin x =>
      let c := round_half_even (x * 100) in
      let m := Z.to_nat (Z.abs c) in
      ((if Qltb x 0 then "-" else "")
         ++ str_of_nat (m / 100) ++ "." ++ two_digits (m mod 100))%string
  end.

(** [2 ** k] for an integer [k] of either sign. *)
Definition pow2 (k : Z) : Q :=
  if (0 <=? k)%Z then inject_Z (2 ^ k) else 1 # Z.to_pos (2 ^ (- k)).

(** [floor(log2(abs(x)))] for a rational other than 0. *)
Definition ilog2 (x : Q) : Z :=
  let e := (Z.log2 (Z.abs (Qnum x)) - Z.log2 (Zpos (Qden x)))%Z in
  if Qleb (pow2 e) (Qabs x) then e else (e - 1)%Z.

(** The binary64 number nearest to a rational, ties to even, with the
    gradual underflow of the format; [None] is an infinity, for a result
    beyond the largest binary64 number. *)
Definition binary64 (x : Q) : option Q :=
  if Qeqb x 0 then Some 0
  else
    let k := Z.max (ilog2 x - 52) (-1074) in
    let y := inject_Z (round_half_even (x / pow2 k)) * pow2 k in
    if Qleb (pow2 1024) (Qabs y) then None else Some (Qred y).

(** [f"{a * b:.2f}"] where the text of the strategies is concerned: the
    product is the binary64 product of the two numbers, each first read as a
    binary64 number, and the text has the exact value of that product
    rounded to two decimals. *)
Definition format_product_2f (a b : Q) : string :=
  let infinite := if Qltb (a * b) 0 then "-inf"%string else "inf"%string in
  match binary64 a, binary64 b with
  | Some x, Some y =>
      match binary64 (x * y) with
      | Some p => format_2f (Fin p)
      | None => infinite
      end
  | _, _ => infinite
  end.

End Py.

Import Py.

Declare Scope py_scope.
Notation "x <- m ;; k" := (bind m (fun x => k))
  (at level 61, m at next level, right associativity) : py_scope.
Open Scope py_scope.

(** ** Data model *)

(** [dict] lookups on string keys: [d.get(k)] / [k in d] / [d[k]]. *)
Fixpoint dict_get {V} (k : string) (d : list (string * V)) : option V :=
  match d with
  | [] => None
  | (k', v) :: d' => if String.eqb k' k then Some v else dict_get k d'
  end.

(** A cell of a text column: a string, or NaN where the provider left the
    cell empty. *)
Inductive pystr : Type :=
| StrNaN
| Str (s : string).

(** One row of the day's limit-up roster ([limit_up_df]); a cell is NaN when
    the provider left it out. [r_name] is [None] when the frame has no
    'name' column. *)
Record LimitUpRecord : Type := {
  r_code : string;
  r_name : option pystr;
  r_close : pyfloat;
  r_pct_change : pyfloat;
  r_amount : pyfloat;
  r_volume : pyfloat
}.

(** One daily bar of a history frame. *)
Record Bar : Type := {
  bar_close : pyfloat;
  bar_volume : pyfloat;
  bar_pct_change : pyfloat;
  bar_preclose : pyfloat
}.

(** A history frame, oldest bar first. The [close] and [volume] columns are
    always there; [pct_change] and [preclose] may be absent as columns. *)
Record DataFrame : Type := {
  has_pct_change : bool;
  has_preclose : bool;
  bars : list Bar
}.

Definition nan_bar : Bar :=
  {| bar_close := NaN; bar_volume := NaN;
     bar_pct_change := NaN; bar_preclose := NaN |}.

(** [analysis['features']] once it is filled. *)
Record Features : Type := {
  price_position : pyfloat;
  volume_ratio : pyfloat;
  is_breakout : bool;
  trend_strength : pyfloat
}.

(** The per-stock dictionary built by [_analyze_single_stock] and updated by
    the later stages. An optional field is a key that may be absent.
    [sector] is the key '所属板块', [score] the key '综合评分'. The key
    [technical_indicators] (RSI and moving averages) is written once and read
    by no stage; it is not carried. *)
Record Stock : Type := {
  code : string;
  name : pystr;
  close : Q;
  pct_change : Q;
  amount : Q;
  volume : Q;
  features : option Features;
  continuous_days : option nat;
  total_increase : option pyfloat;
  daily_increases : option (list pyfloat);
  continuous_strength : option Q;
  sector : option string;
  score : option Q
}.

(** [stock.get('continuous_days', 0)]. *)
Definition get_continuous_days (s : Stock) : nat :=
  match continuous_days s with
  | Some d => d
  | None => 0
  end.

(** [stock.get('综合评分', 0)]. *)
Definition get_score (s : Stock) : Q :=
  match score s with
  | Some x => x
  | None => 0
  end.

(** [stock['所属板块'] = sec]. *)
Definition set_sector (sec : string) (s : Stock) : Stock :=
  {| code := code s; name := name s; close := close s;
     pct_change := pct_change s; amount := amount s; volume := volume s;
     features := features s; continuous_days := continuous_days s;
     total_increase := total_increase s;
     daily_increases := daily_increases s;
     continuous_strength := continuous_strength s;
     sector := Some sec; score := score s |}.

(** [stock['综合评分'] = x]. *)
Definition set_score (x : Q) (s : Stock) : Stock :=
  {| code := code s; name := name s; close := close s;
     pct_change := pct_change s; amount := amount s; volume := volume s;
     features := features s; continuous_days := continuous_days s;
     total_increase := total_increase s;
     daily_increases := daily_increases s;
     continuous_strength := continuous_strength s;
     sector := sector s; score := Some x |}.

(** [stock['continuous_days'] = d], [stock['total_increase'] = ti] and
    [stock['daily_increases'] = di] of [_find_continuous_limit_up]. *)
Definition set_streak_info (d : nat) (ti : pyfloat) (di : list pyfloat)
    (s : Stock) : Stock :=
  {| code := code s; name := name s; close := close s;
     pct_change := pct_change s; amount := amount s; volume := volume s;
     features := features s; continuous_days := Some d;
     total_increase := Some ti;
     daily_increases := Some di;
     continuous_strength := continuous_strength s;
     sector := sector s; score := score s |}.

(** [stock['continuous_strength'] = cs]. *)
Definition set_continuous_strength (cs : Q) (s : Stock) : Stock :=
  {| code := code s; name := name s; close := close s;
     pct_change := pct_change s; amount := amount s; volume := volume s;
     features := features s; continuous_days := continuous_days s;
     total_increase := total_increase s;
     daily_increases := daily_increases s;
     continuous_strength := Some cs;
     sector := sector s; score := score s |}.

(** [config['analysis']['龙头评分权重']]: the keys '连板高度', '涨停时间',
    '封单金额', '流通市值'. *)
Record Weights : Type := {
  w_streak : Q;
  w_limit_time : Q;
  w_seal_amount : Q;
  w_float_cap : Q
}.

(** [config['analysis']]: '涨停阈值', '板块强度阈值', '龙头评分权重'. *)
Record Config : Type := {
  limit_threshold : Q;
  sector_strength_threshold : Z;
  weights : Weights
}.

(** [analysis_results['summary']]. *)
Record Summary : Type := {
  total_count : nat;
  amount_total : Q;
  volume_total : Q;
  avg_pct_change : pyfloat;
  avg_amount : pyfloat;
  max_pct_change : pyfloat;
  min_pct_change : pyfloat;
  market_sentiment : string;
  success_rate : string
}.

(** The result of [analyze_limit_up]. *)
Record AnalysisResult : Type := {
  summary : Summary;
  stocks : list Stock;
  patterns : list Stock
}.

(** ** Limit-up analyzer *)

Module LimitUpAnalyzer.

Definition _calculate_market_sentiment (limit_up_count : nat) : string :=
  if 100 <? limit_up_count then "高潮"
  else if 60 <? limit_up_count then "活跃"
  else if 30 <? limit_up_count then "温和"
  else if 10 <? limit_up_count then "清淡"
  else "冰点".

Definition _estimate_success_rate (limit_up_count : nat) : string :=
  if limit_up_count =? 0 then "0%"
  else if 80 <? limit_up_count then "85%"
  else if 50 <? limit_up_count then "75%"
  else if 30 <? limit_up_count then "65%"
  else "55%".

Definition _empty_analysis_result : AnalysisResult :=
  {| summary :=
       {| total_count := 0; amount_total := 0; volume_total := 0;
          avg_pct_change := Fin 0; avg_amount := Fin 0;
          max_pct_change := Fin 0; min_pct_change := Fin 0;
          market_sentiment := "冰点"; success_rate := "0%" |};
     stocks := [];
     patterns := [] |}.

Definition closes (df : DataFrame) : list pyfloat := map bar_close (bars df).
Definition volumes (df : DataFrame) : list pyfloat := map bar_volume (bars df).
Definition len (df : DataFrame) : nat := List.length (bars df).

Definition pct_of_ratio (a b : pyfloat) : pyfloat :=
  fmul (fsub (fdiv a b) (Fin 1)) (Fin 100).

Definition _calculate_price_position (df : DataFrame) : pyfloat :=
  if len df <? 20 then Fin 50
  else
    let closes := tail 20 (closes df) in
    if List.length closes <? 20 then Fin 50
    else
      let current := from_end 1 closes NaN in
      let lowest := series_min closes in
      let highest := series_max closes in
      if feq highest lowest then Fin 50
      else
        fround2 (fmul (fdiv (fsub current lowest) (fsub highest lowest))
                      (Fin 100)).

Definition _calculate_volume_ratio (df : DataFrame) : pyfloat :=
  if len df <? 6 then Fin 1
  else
    let volumes := tail 6 (volumes df) in
    if List.length volumes <? 6 then Fin 1
    else
      let today_volume := from_end 1 volumes NaN in
      let avg_volume := series_mean (removelast volumes) in
      fround2 (if fgt avg_volume (Fin 0) then fdiv today_volume avg_volume
               else Fin 1).

Definition _check_breakout (df : DataFrame) : bool :=
  if len df <? 10 then false
  else
    let closes := tail 10 (closes df) in
    if List.length closes <? 10 then false
    else
      let current := from_end 1 closes NaN in
      let prev_max := series_max (removelast closes) in
      fgt current (fmul prev_max (Fin 1.03)).

Definition _calculate_trend_strength (df : DataFrame) : pyfloat :=
  if len df <? 5 then Fin 0
  else
    let closes := tail 5 (closes df) in
    if List.length closes <? 5 then Fin 0
    else
      let first_price := nth 0 closes NaN in
      let last_price := from_end 1 closes NaN in
      if fgt first_price (Fin 0)
      then fround2 (pct_of_ratio last_price first_price)
      else Fin 0.

Definition _calculate_total_increase (df : DataFrame) (days : nat)
  : pyfloat :=
  if (len df <? days + 1) || (days =? 0) then Fin 0
  else
    let start_price := bar_close (from_end (days + 1) (bars df) nan_bar) in
    let end_price := bar_close (from_end 1 (bars df) nan_bar) in
    if fgt start_price (Fin 0)
    then fround2 (pct_of_ratio end_price start_price)
    else Fin 0.

Definition _get_daily_increases (df : DataFrame) (days : nat)
  : list pyfloat :=
  if (len df <? days + 1) || (days =? 0) then []
  else
    rev (map (fun i =>
                let current_close :=
                  bar_close (from_end (i + 1) (bars df) nan_bar) in
                let prev_close :=
                  bar_close (from_end (i + 2) (bars df) nan_bar) in
                if fgt prev_close (Fin 0)
                then fround2 (pct_of_ratio current_close prev_close)
                else Fin 0)
             (seq 0 days)).

Definition _calculate_continuous_strength (stock : Stock)
    (hist_df : DataFrame) : Q :=
  let continuous_days := get_continuous_days stock in
  let strength := inject_Z (Z.min (Z.of_nat continuous_days * 20) 100) * 0.4 in
  let strength :=
    if 3 <=? len hist_df then
      let volumes := tail 3 (volumes hist_df) in
      if (3 <=? List.length volumes) && fgt (series_mean volumes) (Fin 0)
      then
        let volume_ratio :=
          fdiv (from_end 1 volumes NaN) (series_mean volumes) in
        if flt volume_ratio (Fin 0.8) then strength + 30
        else if flt volume_ratio (Fin 1.2) then strength + 20
        else strength + 10
      else strength
    else strength in
  let amount := amount stock in
  let strength :=
    if Qgtb amount 1e9 then strength + 30
    else if Qgtb amount 5e8 then strength + 20
    else if Qgtb amount 1e8 then strength + 10
    else strength in
  round1 (if Qltb 100 strength then 100 else strength).

Section WithConfig.
Variable config : Config.

(** The percent change the streak test reads for one bar; [None] when
    neither [pct_change] nor [close]/[preclose] is available and the
    loop breaks. *)
Definition day_pct_change (df : DataFrame) (b : Bar) : option pyfloat :=
  if has_pct_change df && notna (bar_pct_change b)
  then Some (bar_pct_change b)
  else if has_preclose df
  then Some (if fgt (bar_preclose b) (Fin 0)
             then pct_of_ratio (bar_close b) (bar_preclose b)
             else Fin 0)
  else None.

(** The body of the [for] loop over the examined bars, most recent
    first: add one per bar until the first [break]. *)
Fixpoint count_streak (df : DataFrame) (days : list Bar) : nat :=
  match days with
  | [] => 0
  | b :: rest =>
      match day_pct_change df b with
      | Some pct =>
          if fge pct (Fin (limit_threshold config))
          then S (count_streak df rest)
          else 0
      | None => 0
      end
  end.

Definition _check_limit_up_days (df : DataFrame) : nat :=
  if len df <? 2 then 0
  else count_streak df (firstn (Nat.min 10 (len df - 1)) (rev (bars df))).

Definition float_or_zero (a : pyfloat) : Q :=
  match a with
  | Fin x => x
  | NaN => 0
  end.

Definition _analyze_single_stock (stock_row : LimitUpRecord)
    (historical_data : list (string * DataFrame)) : Stock :=
  let code := r_code stock_row in
  let with_history f cd ti :=
    {| code := code;
       name := match r_name stock_row with
               | Some cell => cell
               | None => Str code
               end;
       close := float_or_zero (r_close stock_row);
       pct_change := float_or_zero (r_pct_change stock_row);
       amount := float_or_zero (r_amount stock_row);
       volume := float_or_zero (r_volume stock_row);
       features := f; continuous_days := cd; total_increase := ti;
       daily_increases := None; continuous_strength := None;
       sector := None; score := None |} in
  match dict_get code historical_data with
  | Some hist_df =>
      if 5 <=? len hist_df then
        let days := _check_limit_up_days hist_df in
        with_history
          (Some {| price_position := _calculate_price_position hist_df;
                   volume_ratio := _calculate_volume_ratio hist_df;
                   is_breakout := _check_breakout hist_df;
                   trend_strength := _calculate_trend_strength hist_df |})
          (Some days)
          (Some (_calculate_total_increase hist_df days))
      else with_history None None None
  | None => with_history None None None
  end.

(** One iteration of the loop of [_find_continuous_limit_up]: the stock
    dictionary after it, and whether it was appended. *)
Definition mark_streak (historical_data : list (string * DataFrame))
    (stock : Stock) : Stock * bool :=
  match dict_get (code stock) historical_data with
  | Some hist_df =>
      let continuous_days := get_continuous_days stock in
      if 2 <=? continuous_days then
        let stock :=
          set_streak_info continuous_days
            (_calculate_total_increase hist_df continuous_days)
            (_get_daily_increases hist_df continuous_days) stock in
        (set_continuous_strength
           (_calculate_continuous_strength stock hist_df) stock, true)
      else (stock, false)
  | None => (stock, false)
  end.

(** Returns the list passed in, whose dictionaries were updated in
    place, and the sorted list of streak stocks. *)
Definition _find_continuous_limit_up (stocks_analysis : list Stock)
    (historical_data : list (string * DataFrame))
  : list Stock * list Stock :=
  let marked := map (mark_streak historical_data) stocks_analysis in
  (map fst marked,
   sort_desc Nat.ltb get_continuous_days
     (map fst (filter snd marked))).

Definition analyze_limit_up (limit_up_df : list LimitUpRecord)
    (historical_data : list (string * DataFrame)) : AnalysisResult :=
  match limit_up_df with
  | [] => _empty_analysis_result
  | _ =>
      let total_count := List.length limit_up_df in
      let analysed :=
        map (fun row => _analyze_single_stock row historical_data)
            limit_up_df in
      let '(stocks, continuous_stocks) :=
        _find_continuous_limit_up analysed historical_data in
      {| summary :=
           {| total_count := total_count;
              amount_total :=
                series_sum (map r_amount limit_up_df) / 1e8;
              volume_total := series_sum (map r_volume limit_up_df);
              avg_pct_change :=
                series_mean (map r_pct_change limit_up_df);
              avg_amount :=
                fdiv (series_mean (map r_amount limit_up_df)) (Fin 1e8);
              max_pct_change :=
                series_max (map r_pct_change limit_up_df);
              min_pct_change :=
                series_min (map r_pct_change limit_up_df);
              market_sentiment := _calculate_market_sentiment total_count;
              success_rate := _estimate_success_rate total_count |};
         stocks := stocks;
         patterns := continuous_stocks |}
  end.
End WithConfig.

End LimitUpAnalyzer.

(** ** Grouping into an insertion-ordered dict of lists *)

(** [if k not in d: d[k] = []] followed by [d[k].append(v)]. *)
Fixpoint group_add {V} (k : string) (v : V) (d : list (string * list V))
  : list (string * list V) :=
  match d with
  | [] => [(k, [v])]
  | (k', vs) :: d' =>
      if String.eqb k' k then (k', vs ++ [v]) :: d'
      else (k', vs) :: group_add k v d'
  end.

(** ** Sector analyzer *)

(** An entry of '核心股票'. *)
Record CoreStock : Type := {
  cs_code : string;
  cs_name : pystr;
  cs_role : string;
  cs_continuous_days : nat;
  cs_amount : pyfloat
}.

(** The dictionary built by [_analyze_single_sector]: '板块名称', '涨停数量',
    '强度得分', '梯队完整性', '资金流入', '持续性判断', '核心股票'. *)
Record SectorAnalysis : Type := {
  sa_name : string;
  sa_count : nat;
  sa_strength : Z;
  sa_structure : string;
  sa_inflow : pyfloat;
  sa_persistence : string;
  sa_core_stocks : list CoreStock
}.

Module SectorAnalyzer.

(** The catalogue of [_group_stocks_by_sector]. *)
Definition sectors : list (string * list string) :=
  [ ("科技", ["半导体"; "软件"; "通信"; "人工智能"; "芯片"; "5G"]);
    ("新能源", ["光伏"; "锂电池"; "风电"; "储能"; "新能源汽车"; "氢能源"]);
    ("医药", ["中药"; "生物制药"; "医疗器械"; "医疗服务"; "医药商业"]);
    ("消费", ["白酒"; "食品饮料"; "家电"; "零售"; "旅游"; "酒店"]);
    ("周期", ["化工"; "有色"; "煤炭"; "钢铁"; "建材"; "化纤"]);
    ("金融", ["银行"; "证券"; "保险"; "信托"; "金融科技"]);
    ("其他", ["其他"]) ]%string.

(** The rows handed to this analyzer are [row.to_dict()] of the roster,
    which has no 'continuous_days' column: [s.get('continuous_days', 0)]
    is the default. *)
Definition row_continuous_days (s : LimitUpRecord) : nat := 0.

(** The builtin [sum] over floats, which propagates NaN. *)
Definition total_amount (stocks : list LimitUpRecord) : pyfloat :=
  fold_left fadd (map r_amount stocks) (Fin 0).

Definition _calculate_sector_strength (stocks : list LimitUpRecord) : Z :=
  match stocks with
  | [] => 0%Z
  | _ =>
      let count_score := Z.min (Z.of_nat (List.length stocks) * 10) 50 in
      let max_continuous :=
        fold_left Nat.max (map row_continuous_days stocks) 0%nat in
      let continuous_score := Z.min (Z.of_nat max_continuous * 15) 30 in
      let total_amount := total_amount stocks in
      let amount_score :=
        if fgt total_amount (Fin 5e9) then 20%Z
        else if fgt total_amount (Fin 1e9) then 15%Z
        else if fgt total_amount (Fin 5e8) then 10%Z
        else 5%Z in
      (count_score + continuous_score + amount_score)%Z
  end.

Definition _check_sector_structure (stocks : list LimitUpRecord) : string :=
  let heights := map row_continuous_days stocks in
  let unique_heights := nodup Nat.eq_dec heights in
  if 3 <=? List.length unique_heights then "完整（多梯队）"
  else if List.length unique_heights =? 2 then "一般（双梯队）"
  else "单一（单梯队）".

Definition _judge_sector_persistence (stocks : list LimitUpRecord)
    (strength_score : Z) : string :=
  if (70 <=? strength_score)%Z then "强势，有望持续"
  else if (50 <=? strength_score)%Z then "中等，可能分化"
  else if (30 <=? strength_score)%Z then "一般，谨慎参与"
  else "弱势，可能一日游".

Definition _assign_stock_role (stock : LimitUpRecord)
    (all_stocks : list LimitUpRecord) : string :=
  let continuous_days := row_continuous_days stock in
  if 3 <=? continuous_days then "高度龙头"
  else if continuous_days =? 2 then "跟随龙"
  else
    match max_by flt (fun a => a) (map r_amount all_stocks) with
    | Some top =>
        if fge (r_amount stock) (fmul top (Fin 0.7)) then "趋势中军"
        else "补涨/跟风"
    | None => "补涨/跟风"
    end.

Definition _identify_core_stocks (stocks : list LimitUpRecord)
  : list CoreStock :=
  match stocks with
  | [] => []
  | _ =>
      let sorted_stocks := sort_desc Nat.ltb row_continuous_days stocks in
      map (fun stock =>
             {| cs_code := r_code stock;
                cs_name := match r_name stock with
                           | Some cell => cell
                           | None => Str (r_code stock)
                           end;
                cs_role := _assign_stock_role stock sorted_stocks;
                cs_continuous_days := row_continuous_days stock;
                cs_amount := r_amount stock |})
          (firstn 3 sorted_stocks)
  end.

Definition _analyze_single_sector (sector : string)
    (stocks : list LimitUpRecord)
    (historical_data : list (string * DataFrame)) : SectorAnalysis :=
  let strength_score := _calculate_sector_strength stocks in
  {| sa_name := sector;
     sa_count := List.length stocks;
     sa_strength := strength_score;
     sa_structure := _check_sector_structure stocks;
     sa_inflow := total_amount stocks;
     sa_persistence := _judge_sector_persistence stocks strength_score;
     sa_core_stocks := _identify_core_stocks stocks |}.

Section WithHash.
Variable hash : string -> Z.

Definition _assign_stock_sector (code : string)
    (sectors : list (string * list string)) : string :=
  let sector_keys := map fst sectors in
  let sector_index :=
    (hash code mod Z.of_nat (List.length sector_keys))%Z in
  nth (Z.to_nat sector_index) sector_keys ""%string.

Definition _group_stocks_by_sector (df : list LimitUpRecord)
  : list (string * list LimitUpRecord) :=
  fold_left
    (fun sector_stocks row =>
       group_add (_assign_stock_sector (r_code row) sectors) row
                 sector_stocks)
    df [].

Definition analyze_sectors (limit_up_df : list LimitUpRecord)
    (historical_data : list (string * DataFrame))
  : list (string * SectorAnalysis) :=
  match limit_up_df with
  | [] => []
  | _ =>
      let sector_stocks := _group_stocks_by_sector limit_up_df in
      let analysis_results :=
        flat_map
          (fun '(sector, stocks) =>
             if 2 <=? List.length stocks
             then [(sector,
                    _analyze_single_sector sector stocks historical_data)]
             else [])
          sector_stocks in
      sort_desc Z.ltb (fun x => sa_strength (snd x)) analysis_results
  end.
End WithHash.

End SectorAnalyzer.

(** ** Role identifier *)

(** The dictionary returned by [identify_roles]: the keys '龙头', '中军',
    '补涨', '观察'. *)
Record Roles : Type := {
  leader : list Stock;
  core : list Stock;
  catch_up : list Stock;
  watch : list Stock
}.

(** The dictionary returned by [_analyze_sector_roles]; a role that was not
    assigned is an absent key. *)
Record SectorRoles : Type := {
  sr_leader : option Stock;
  sr_core : option Stock;
  sr_catch_up : option Stock
}.

Module DragonHeadIdentifier.

Definition _empty_roles : Roles :=
  {| leader := []; core := []; catch_up := []; watch := [] |}.

(** The table of [_get_stock_sector]. *)
Definition sectors : list (string * list string) :=
  [ ("6", ["银行"; "证券"; "保险"; "基建"; "能源"]);
    ("0", ["中小板"; "制造业"; "科技"]);
    ("3", ["创业板"; "科技"; "医药"; "新能源"]);
    ("4", ["科创板"; "高科技"; "半导体"; "生物医药"]) ]%string.

Definition get_price_position (s : Stock) : pyfloat :=
  match features s with
  | Some f => price_position f
  | None => Fin 50
  end.

Definition get_is_breakout (s : Stock) : bool :=
  match features s with
  | Some f => is_breakout f
  | None => false
  end.

Definition get_trend_strength (s : Stock) : pyfloat :=
  match features s with
  | Some f => trend_strength f
  | None => Fin 0
  end.

Definition get_volume_ratio (s : Stock) : pyfloat :=
  match features s with
  | Some f => volume_ratio f
  | None => Fin 1
  end.

Definition same_code (a b : Stock) : bool := String.eqb (code a) (code b).

Section WithConfig.
Variable hash : string -> Z.
Variable config : Config.

Definition _get_stock_sector (code : string) : result string :=
  match code with
  | EmptyString => Raise IndexError
  | String c _ =>
      match dict_get (String c EmptyString) sectors with
      | Some sector_list =>
          let sector_index :=
            (hash code mod Z.of_nat (List.length sector_list))%Z in
          Ok (nth (Z.to_nat sector_index) sector_list ""%string)
      | None => Ok "其他"%string
      end
  end.

(** The search loop of [_get_stock_sector_from_data]. *)
Fixpoint find_core_sector (code : string)
    (sector_data : list (string * SectorAnalysis)) : option string :=
  match sector_data with
  | [] => None
  | (sector, sector_info) :: rest =>
      if existsb (fun core_stock => String.eqb (cs_code core_stock) code)
                 (sa_core_stocks sector_info)
      then Some sector
      else find_core_sector code rest
  end.

Definition _get_stock_sector_from_data (code : string)
    (sector_data : list (string * SectorAnalysis)) : result string :=
  match find_core_sector code sector_data with
  | Some sector => Ok sector
  | None => _get_stock_sector code
  end.

(** The loop of [_group_by_sector], with the dict built so far. *)
Fixpoint group_loop (sector_data : list (string * SectorAnalysis))
    (stocks : list Stock) (sector_groups : list (string * list Stock))
  : result (list (string * list Stock)) :=
  match stocks with
  | [] => Ok sector_groups
  | stock :: rest =>
      sector <- _get_stock_sector_from_data (code stock) sector_data ;;
      group_loop sector_data rest (group_add sector stock sector_groups)
  end.

Definition _group_by_sector (stocks : list Stock)
    (sector_data : list (string * SectorAnalysis))
  : result (list (string * list Stock)) :=
  group_loop sector_data stocks [].

Definition _calculate_dragon_score (stock : Stock) : Q :=
  let weights := weights config in
  let score := 0 in
  let continuous_days := get_continuous_days stock in
  let continuous_score := Z.min (Z.of_nat continuous_days * 25) 100 in
  let score := score + inject_Z continuous_score * w_streak weights in
  let limit_time_score := 60%Z in
  let score := score + inject_Z limit_time_score * w_limit_time weights in
  let amount := amount stock in
  let amount_score :=
    if Qgtb amount 1e9 then 100%Z
    else if Qgtb amount 5e8 then 80%Z
    else if Qgtb amount 2e8 then 65%Z
    else if Qgtb amount 5e7 then 50%Z
    else 30%Z in
  let score := score + inject_Z amount_score * w_seal_amount weights in
  let technical_score := 50%Z in
  let technical_score :=
    if get_is_breakout stock then (technical_score + 20)%Z
    else technical_score in
  let technical_score :=
    if fgt (get_price_position stock) (Fin 70)
    then (technical_score + 15)%Z
    else if flt (get_price_position stock) (Fin 30)
    then (technical_score + 10)%Z
    else technical_score in
  let technical_score :=
    if fgt (get_trend_strength stock) (Fin 5)
    then (technical_score + 10)%Z
    else technical_score in
  let technical_score :=
    if fgt (get_volume_ratio stock) (Fin 2)
    then (technical_score + 5)%Z
    else technical_score in
  let technical_score := Z.min technical_score 100 in
  let score := score + inject_Z technical_score * w_float_cap weights in
  round2 score.

(** The stocks of a sector with their scores attached, best first. *)
Definition scored (stocks : list Stock) : list Stock :=
  sort_desc Qltb get_score
    (map (fun stock => set_score (_calculate_dragon_score stock) stock)
         stocks).

Definition pick_leader (scored_stocks : list Stock) : option Stock :=
  let dragon_candidates :=
    filter (fun s => 2 <=? get_continuous_days s) scored_stocks in
  match max_by Qltb get_score dragon_candidates with
  | Some d => Some d
  | None => hd_error scored_stocks
  end.

Definition pick_core (the_leader : option Stock)
    (scored_stocks : list Stock) : option Stock :=
  if 1 <? List.length scored_stocks then
    let middle_army_candidates :=
      firstn (Nat.min 5 (List.length scored_stocks)) scored_stocks in
    match max_by Qltb amount middle_army_candidates, the_leader with
    | Some middle_army, Some dragon =>
        if same_code dragon middle_army then
          if 2 <? List.length scored_stocks then
            let middle_army_candidates :=
              filter (fun s => negb (same_code s dragon))
                     (slice 1 3 scored_stocks) in
            match max_by Qltb amount middle_army_candidates with
            | Some m => Some m
            | None => Some middle_army
            end
          else Some middle_army
        else Some middle_army
    | other, _ => other
    end
  else None.

Definition pick_catch_up (the_leader the_core : option Stock)
    (scored_stocks : list Stock) : option Stock :=
  if 2 <? List.length scored_stocks then
    let fill_up_candidates :=
      filter (fun s => (get_continuous_days s <=? 1)
                       && flt (get_price_position s) (Fin 50))
             scored_stocks in
    let fill_up_candidates :=
      match fill_up_candidates with
      | [] => filter get_is_breakout (tail 3 scored_stocks)
      | _ => fill_up_candidates
      end in
    match max_by flt get_trend_strength fill_up_candidates,
          the_leader, the_core with
    | Some fill_up, Some dragon, Some middle_army =>
        if negb (same_code fill_up dragon)
           && negb (same_code fill_up middle_army)
        then Some fill_up
        else None
    | _, _, _ => None
    end
  else None.

Definition _analyze_sector_roles (sector : string) (stocks : list Stock)
  : SectorRoles :=
  if List.length stocks <? 2
  then {| sr_leader := None; sr_core := None; sr_catch_up := None |}
  else
    let scored_stocks := scored stocks in
    let the_leader := pick_leader scored_stocks in
    let the_core := pick_core the_leader scored_stocks in
    {| sr_leader := the_leader;
       sr_core := the_core;
       sr_catch_up := pick_catch_up the_leader the_core scored_stocks |}.

(** [roles[role_type].append(stock)] after [stock['所属板块'] = sector],
    for a role that is present. *)
Definition append_role (sector : string) (l : list Stock)
    (stock : option Stock) : list Stock :=
  match stock with
  | Some s => l ++ [set_sector sector s]
  | None => l
  end.

(** One iteration of the loop over [sector_groups.items()]. *)
Definition assign_sector (roles : Roles)
    (group : string * list Stock) : Roles :=
  let '(sector, stocks) := group in
  if (sector_strength_threshold config <=? Z.of_nat (List.length stocks))%Z
  then
    let sector_roles := _analyze_sector_roles sector stocks in
    {| leader := append_role sector (leader roles) (sr_leader sector_roles);
       core := append_role sector (core roles) (sr_core sector_roles);
       catch_up :=
         append_role sector (catch_up roles) (sr_catch_up sector_roles);
       watch := watch roles |}
  else
    {| leader := leader roles;
       core := core roles;
       catch_up := catch_up roles;
       watch := watch roles ++ map (set_sector sector) stocks |}.

Definition identify_roles (limit_up_stocks : list Stock)
    (sector_data : list (string * SectorAnalysis)) : result Roles :=
  match limit_up_stocks with
  | [] => Ok _empty_roles
  | _ =>
      sector_groups <- _group_by_sector limit_up_stocks sector_data ;;
      let roles := fold_left assign_sector sector_groups _empty_roles in
      Ok {| leader := sort_desc Qltb get_score (leader roles);
            core := sort_desc Qltb get_score (core roles);
            catch_up := sort_desc Qltb get_score (catch_up roles);
            watch := watch roles |}
  end.
End WithConfig.

End DragonHeadIdentifier.

(** ** Strategy generator *)

(** '市场概况': '涨停家数', '连板高度', '封板成功率', '市场情绪', '赚钱效应'. *)
Record MarketSummary : Type := {
  ms_total_count : nat;
  ms_max_streak : nat;
  ms_success_rate : string;
  ms_sentiment : string;
  ms_profit_effect : string
}.

(** An entry of '主线分析': '板块名称', '涨停家数', '龙头数量', '强度评级',
    '持续性判断'. *)
Record Theme : Type := {
  th_sector : string;
  th_count : nat;
  th_leaders : nat;
  th_rating : string;
  th_persistence : string
}.

(** An entry of '个股策略': '代码', '名称', '角色', '策略类型', '操作建议',
    '买入条件', '止损位', '目标位' and, for catch-up stocks, '备注'. *)
Record StockStrategy : Type := {
  st_code : string;
  st_name : pystr;
  st_role : string;
  st_type : string;
  st_advice : string;
  st_entry : string;
  st_stop_loss : string;
  st_target : string;
  st_note : option string
}.

(** The strategy dictionary: '生成时间', '市场概况', '主线分析', '个股策略',
    '风险提示', '操作建议'. *)
Record StrategyReport : Type := {
  generated_at : string;
  market_summary : MarketSummary;
  themes : list Theme;
  stock_strategies : list StockStrategy;
  risk_warnings : list string;
  trading_suggestions : list string
}.

(** The per-sector counters of [_identify_main_themes]. *)
Record SectorStats : Type := {
  count : nat;
  roles : list string;
  stock_codes : list string
}.

Module StrategyGenerator.

Definition _get_max_continuous_days (analysis_results : AnalysisResult)
  : nat :=
  fold_left (fun max_days pattern =>
               Nat.max max_days (get_continuous_days pattern))
            (patterns analysis_results) 0%nat.

Definition _calculate_success_rate (analysis_results : AnalysisResult)
  : string :=
  let total_count := total_count (summary analysis_results) in
  if total_count =? 0 then "0%"
  else if 80 <? total_count then "85%"
  else if 50 <? total_count then "75%"
  else if 30 <? total_count then "65%"
  else "55%".

Definition _assess_market_sentiment (summary : Summary) : string :=
  let count := total_count summary in
  if 80 <? count then "高潮"
  else if 50 <? count then "活跃"
  else if 30 <? count then "温和"
  else "冰点".

Definition _assess_profit_effect (summary : Summary) : string :=
  let count := total_count summary in
  if 60 <? count then "好"
  else if 40 <? count then "一般"
  else "差".

Definition _rate_sector_strength (stats : SectorStats) : string :=
  let count := count stats in
  if 10 <=? count then "★★★★★"
  else if 7 <=? count then "★★★★"
  else if 5 <=? count then "★★★"
  else if 3 <=? count then "★★"
  else "★".

Definition _judge_sector_persistence (stats : SectorStats) : string :=
  let count := count stats in
  if existsb (String.eqb "龙头") (roles stats) && (5 <=? count)
  then "主线明确，持续性较强"
  else if 3 <=? count then "有一定持续性，需观察"
  else "一日游可能性大，谨慎参与".

Definition _get_dragon_strategy (dragon : Stock) : string :=
  let continuous_days := get_continuous_days dragon in
  if 5 <=? continuous_days then "持有为主，断板时减仓，反包失败离场"
  else if 3 <=? continuous_days
  then "分歧时低吸，加速时持有，放量滞涨时减仓"
  else "确认龙头地位后加仓，关注板块梯队完整性".

Definition _generate_market_summary (analysis_results : AnalysisResult)
  : MarketSummary :=
  let summary := summary analysis_results in
  {| ms_total_count := total_count summary;
     ms_max_streak := _get_max_continuous_days analysis_results;
     ms_success_rate := _calculate_success_rate analysis_results;
     ms_sentiment := _assess_market_sentiment summary;
     ms_profit_effect := _assess_profit_effect summary |}.

(** The three updates of [sector_stats[sector]] for one stock. *)
Fixpoint stats_add (sector role_type code : string)
    (sector_stats : list (string * SectorStats))
  : list (string * SectorStats) :=
  match sector_stats with
  | [] =>
      [(sector,
        {| count := 1; roles := [role_type]; stock_codes := [code] |})]
  | (k, st) :: rest =>
      if String.eqb k sector
      then (k, {| count := count st + 1;
                  roles := roles st ++ [role_type];
                  stock_codes := stock_codes st ++ [code] |}) :: rest
      else (k, st) :: stats_add sector role_type code rest
  end.

(** [roles.items()], in the insertion order of the keys. *)
Definition role_items (r : Roles) : list (string * list Stock) :=
  [ ("龙头", leader r); ("中军", core r);
    ("补涨", catch_up r); ("观察", watch r) ]%string.

Definition collect_sector_stats (r : Roles)
  : list (string * SectorStats) :=
  fold_left
    (fun sector_stats '(role_type, stocks) =>
       fold_left
         (fun sector_stats stock =>
            let sector := match sector stock with
                          | Some s => s
                          | None => "其他"%string
                          end in
            stats_add sector role_type (code stock) sector_stats)
         stocks sector_stats)
    (role_items r) [].

Definition leader_strategy (dragon : Stock) : StockStrategy :=
  {| st_code := code dragon;
     st_name := name dragon;
     st_role := "龙头";
     st_type := "核心持仓";
     st_advice := _get_dragon_strategy dragon;
     st_entry := "分歧低吸或弱转强时";
     st_stop_loss := format_product_2f (close dragon) 0.93;
     st_target := format_product_2f (close dragon) 1.15;
     st_note := None |}.

Definition core_strategy (middle : Stock) : StockStrategy :=
  {| st_code := code middle;
     st_name := name middle;
     st_role := "中军";
     st_type := "趋势跟随";
     st_advice := "5日线附近低吸，趋势持有";
     st_entry := "回踩5日线不破时";
     st_stop_loss := format_product_2f (close middle) 0.95;
     st_target := format_product_2f (close middle) 1.10;
     st_note := None |}.

Definition catch_up_strategy (follower : Stock) : StockStrategy :=
  {| st_code := code follower;
     st_name := name follower;
     st_role := "补涨";
     st_type := "短线套利";
     st_advice := "竞价强势或首封打板";
     st_entry := "板块强势时早盘首板";
     st_stop_loss := format_product_2f (close follower) 0.92;
     st_target := format_product_2f (close follower) 1.08;
     st_note := Some "快进快出，注意龙头走势"%string |}.

(** Without commentary ([ai_analysis] absent or empty) no entry gets an
    added field. *)
Definition _generate_stock_strategies (r : Roles) : list StockStrategy :=
  map leader_strategy (leader r)
    ++ map core_strategy (core r)
    ++ map catch_up_strategy (catch_up r).

Definition _generate_trading_suggestions (market_status : MarketSummary)
    (themes : list Theme) : list string :=
  let suggestions :=
    if String.eqb (ms_sentiment market_status) "高潮"
    then ["控制仓位，优先处理持仓，谨慎开新仓";
          "关注低位首板或新题材机会"]%string
    else if String.eqb (ms_sentiment market_status) "冰点"
    then ["小仓位试错，关注率先走强的板块";
          "重点观察连板股能否打开空间"]%string
    else ["去弱留强，聚焦主线板块核心个股";
          "龙头分歧时低吸，跟风股冲高减仓"]%string in
  match themes with
  | main_theme :: _ =>
      suggestions
        ++ [("重点关注" ++ th_sector main_theme ++ "板块，"
               ++ th_persistence main_theme)%string]
  | [] => suggestions
  end.

Section WithConfig.
Variable config : Config.

Definition _identify_main_themes (r : Roles) : list Theme :=
  let sector_stats := collect_sector_stats r in
  let themes :=
    flat_map
      (fun '(sector, stats) =>
         if (sector_strength_threshold config
               <=? Z.of_nat (count stats))%Z
         then [{| th_sector := sector;
                  th_count := count stats;
                  th_leaders :=
                    count_occ string_dec (roles stats) "龙头"%string;
                  th_rating := _rate_sector_strength stats;
                  th_persistence := _judge_sector_persistence stats |}]
         else [])
      sector_stats in
  firstn 3 (sort_desc Nat.ltb th_count themes).

Definition _generate_risk_warnings (analysis_results : AnalysisResult)
    (r : Roles) : list string :=
  let summary := summary analysis_results in
  let warnings := [] in
  let warnings :=
    if 100 <? total_count summary
    then warnings ++ ["涨停家数过多，警惕情绪高潮后的分化风险"%string]
    else warnings in
  let warnings :=
    if total_count summary <? 30
    then warnings ++ ["涨停家数较少，市场情绪低迷，注意仓位控制"%string]
    else warnings in
  let max_days := _get_max_continuous_days analysis_results in
  let warnings :=
    if 7 <=? max_days
    then warnings
           ++ [("最高连板" ++ str_of_nat max_days
                  ++ "天，注意高位股补跌风险")%string]
    else warnings in
  let warnings :=
    if List.length (leader r) =? 0
    then warnings ++ ["无明显龙头板块，市场主线不清晰，谨慎操作"%string]
    else warnings in
  warnings.

(** [generate_strategy] without commentary; [now] is the formatted
    [datetime.now()]. *)
Definition generate_strategy (now : string)
    (analysis_results : AnalysisResult) (roles_identification : Roles)
  : StrategyReport :=
  let market := _generate_market_summary analysis_results in
  let themes := _identify_main_themes roles_identification in
  {| generated_at := now;
     market_summary := market;
     themes := themes;
     stock_strategies := _generate_stock_strategies roles_identification;
     risk_warnings :=
       _generate_risk_warnings analysis_results roles_identification;
     trading_suggestions := _generate_trading_suggestions market themes |}.
End WithConfig.

End StrategyGenerator.

(** ** The pipeline of [run_analysis] *)

Module Main.

(** [_generate_empty_report], without its 'meta' entry. *)
Definition _generate_empty_report (now : string) : StrategyReport :=
  {| generated_at := now;
     market_summary :=
       {| ms_total_count := 0; ms_max_streak := 0;
          ms_success_rate := "0%"; ms_sentiment := "冰点";
          ms_profit_effect := "差" |};
     themes := [];
     stock_strategies := [];
     risk_warnings :=
       ["当日无涨停股票，市场极度低迷";
        "建议空仓观望，等待市场回暖";
        "注意控制仓位，避免盲目抄底"]%string;
     trading_suggestions :=
       ["空仓观望，等待市场出现明确信号";
        "关注市场量能变化，等待放量上涨";
        "可关注抗跌板块或个股，但不宜重仓"]%string |}.

Section Run.
Variable hash : string -> Z.
Variable config : Config.
Variable now : string.

(** Steps 2 to 6 of [run_analysis]: analyze, identify, generate. *)
Definition pipeline (limit_up_df : list LimitUpRecord)
    (historical_data : list (string * DataFrame))
  : result StrategyReport :=
  let limit_up_analysis :=
    LimitUpAnalyzer.analyze_limit_up config limit_up_df historical_data in
  let sector_analysis :=
    SectorAnalyzer.analyze_sectors hash limit_up_df historical_data in
  roles <- DragonHeadIdentifier.identify_roles hash config
             (stocks limit_up_analysis) sector_analysis ;;
  Ok (StrategyGenerator.generate_strategy config now
        limit_up_analysis roles).

(** [run_analysis] up to the point where the report is saved, with
    commentary disabled. *)
Definition run_analysis (limit_up_df : list LimitUpRecord)
    (historical_data : list (string * DataFrame))
  : result StrategyReport :=
  match limit_up_df with
  | [] => Ok (_generate_empty_report now)
  | _ => pipeline limit_up_df historical_data
  end.
End Run.

(** The content of a report, the generation timestamp blanked. *)
Definition content (r : StrategyReport) : StrategyReport :=
  {| generated_at := "";
     market_summary := market_summary r;
     themes := themes r;
     stock_strategies := stock_strategies r;
     risk_warnings := risk_warnings r;
     trading_suggestions := trading_suggestions r |}.

(** The content of the report of a run, or the exception it raised. *)
Definition run_content (hash : string -> Z) (config : Config) (now : string)
    (limit_up_df : list LimitUpRecord)
    (historical_data : list (string * DataFrame)) : result StrategyReport :=
  report <- pipeline hash config now limit_up_df historical_data ;;
  Ok (content report).

End Main.

(** ** Technical indicators of the limit-up analyzer *)

(** [analysis['technical_indicators']]: the keys 'rsi_5', 'ma_5', 'ma_10',
    'price_position', 'volume_ratio', each of which may be absent. *)
Record Indicators : Type := {
  rsi_5 : option pyfloat;
  ma_5 : option pyfloat;
  ma_10 : option pyfloat;
  ti_price_position : option pyfloat;
  ti_volume_ratio : option pyfloat
}.

Module TechnicalIndicators.

(** [np.mean]: it propagates NaN, and the mean of an empty array is NaN. *)
Definition np_mean (l : list pyfloat) : pyfloat :=
  match l with
  | [] => NaN
  | _ => fdiv (fold_left fadd l (Fin 0))
              (Fin (inject_Z (Z.of_nat (List.length l))))
  end.

(** [np.diff]. *)
Fixpoint np_diff (l : list pyfloat) : list pyfloat :=
  match l with
  | a :: (b :: _) as rest => fsub b a :: np_diff rest
  | _ => []
  end.

Definition _calculate_rsi (prices : list pyfloat) (period : nat) : pyfloat :=
  if List.length prices <? period + 1 then Fin 50
  else
    let deltas := np_diff prices in
    let gain := map (fun d => if fgt d (Fin 0) then d else Fin 0) deltas in
    let loss :=
      map (fun d => if flt d (Fin 0) then fsub (Fin 0) d else Fin 0) deltas in
    let avg_gain := np_mean (firstn period gain) in
    let avg_loss := np_mean (firstn period loss) in
    if feq avg_loss (Fin 0) then Fin 100
    else
      let rs := fdiv avg_gain avg_loss in
      let rsi := fsub (Fin 100) (fdiv (Fin 100) (fadd (Fin 1) rs)) in
      fround2 rsi.

Definition _calculate_price_position_df (df : DataFrame) : pyfloat :=
  LimitUpAnalyzer._calculate_price_position df.

Definition _calculate_technical_indicators (df : DataFrame) : Indicators :=
  let indicators :=
    {| rsi_5 := None; ma_5 := None; ma_10 := None;
       ti_price_position := None; ti_volume_ratio := None |} in
  if LimitUpAnalyzer.len df <? 5 then indicators
  else
    let closes := tail 10 (LimitUpAnalyzer.closes df) in
    let volumes := tail 10 (LimitUpAnalyzer.volumes df) in
    if 5 <=? List.length closes then
      {| rsi_5 := Some (_calculate_rsi closes 5);
         ma_5 := Some (if 5 <=? List.length closes
                       then np_mean (tail 5 closes)
                       else from_end 1 closes NaN);
         ma_10 := Some (if 10 <=? List.length closes
                        then np_mean (tail 10 closes)
                        else from_end 1 closes NaN);
         ti_price_position :=
           if 20 <=? List.length closes
           then Some (_calculate_price_position_df df)
           else None;
         ti_volume_ratio :=
           if 6 <=? List.length volumes then
             let today_volume := from_end 1 volumes NaN in
             let avg_volume := np_mean (removelast (tail 6 volumes)) in
             Some (if fgt avg_volume (Fin 0)
                   then fdiv today_volume avg_volume
                   else Fin 1)
           else None |}
    else indicators.

End TechnicalIndicators.

(** ** The streak as the specification words it *)

Module Spec.

(** The percent change of a day: [pct_change] when it is present, else
    [(close / pre_close - 1) * 100], taken as 0 when [pre_close] is missing
    or zero. *)
Definition day_pct (df : DataFrame) (b : Bar) : pyfloat :=
  if has_pct_change df && notna (bar_pct_change b) then bar_pct_change b
  else if has_preclose df && notna (bar_preclose b)
          && negb (feq (bar_preclose b) (Fin 0))
  then LimitUpAnalyzer.pct_of_ratio (bar_close b) (bar_preclose b)
  else Fin 0.

(** The number of leading elements that pass a test. *)
Fixpoint count_while {A} (p : A -> bool) (l : list A) : nat :=
  match l with
  | [] => 0
  | x :: l' => if p x then S (count_while p l') else 0
  end.

(** Walk the history backward from the most recent bar, at most 10 days,
    counting a day iff its percent change reaches the threshold and
    stopping at the first day that fails. *)
Definition continuous_days (limit_threshold : Q) (df : DataFrame) : nat :=
  count_while (fun b => fge (day_pct df b) (Fin limit_threshold))
              (firstn 10 (rev (bars df))).

End Spec.

(** ** Vocabulary of the statements *)

(** When the two hash-based assignments give the same name, by the first
    character of the code and the hash value. *)
Definition fallback_agrees (first : ascii) (h : Z) : bool :=
  if Ascii.eqb "6" first then false
  else if Ascii.eqb "0" first then ((h mod 3 =? 2) && (h mod 7 =? 0))%Z
  else if Ascii.eqb "3" first
  then (((h mod 4 =? 1) && (h mod 7 =? 0))
        || ((h mod 4 =? 2) && (h mod 7 =? 2))
        || ((h mod 4 =? 3) && (h mod 7 =? 1)))%Z
  else if Ascii.eqb "4" first then false
  else (h mod 7 =? 6)%Z.

Section StreakVocabulary.
Variable config : Config.
Variable historical_data : list (string * DataFrame).

(** The percent change of a day in the words of the amended statement: the
    [pct_change] cell when the column exists and the cell is not NaN; else,
    when the [preclose] column exists, [(close / preclose - 1) * 100] for a
    positive [preclose] and 0 for one that is NaN, zero or negative; else
    there is none. *)
Definition available_pct (df : DataFrame) (b : Bar) : option pyfloat :=
  match (if has_pct_change df then bar_pct_change b else NaN) with
  | Fin p => Some (Fin p)
  | NaN =>
      if has_preclose df then
        match bar_preclose b with
        | Fin c =>
            if Qltb 0 c
            then Some (fmul (fsub (fdiv (bar_close b) (Fin c)) (Fin 1))
                            (Fin 100))
            else Some (Fin 0)
        | NaN => Some (Fin 0)
        end
      else None
  end.

(** The test of one day: a percent change is available and reaches the
    threshold. *)
Inductive day_passes (df : DataFrame) (b : Bar) : Prop :=
| day_passes_intro (pct : pyfloat) :
    available_pct df b = Some pct ->
    fge pct (Fin (limit_threshold config)) = true ->
    day_passes df b.

Inductive day_fails (df : DataFrame) (b : Bar) : Prop :=
| day_fails_below (pct : pyfloat) :
    available_pct df b = Some pct ->
    fge pct (Fin (limit_threshold config)) = false ->
    day_fails df b
| day_fails_no_data :
    available_pct df b = None ->
    day_fails df b.

(** The streak that the analyzer records for a roster row. *)
Definition recorded_streak (code : string) : nat :=
  match dict_get code historical_data with
  | Some hist_df =>
      if 5 <=? LimitUpAnalyzer.len hist_df
      then LimitUpAnalyzer._check_limit_up_days config hist_df
      else 0%nat
  | None => 0%nat
  end.

End StreakVocabulary.

(** What the grouping loop maintains: distinct keys, every element seen so
    far in exactly one group, and each group non-empty and made of the
    elements that map to its key. *)
Definition grouped {V} (f : V -> string) (seen : list V)
    (d : list (string * list V)) : Prop :=
  NoDup (map fst d)
  /\ Permutation (flat_map snd d) seen
  /\ (forall k vs, In (k, vs) d -> vs <> [] /\ Forall (fun v => f v = k) vs).

(** [stock.get('所属板块') == sec]. *)
Definition in_sector (sec : string) (s : Stock) : bool :=
  match sector s with
  | Some x => String.eqb x sec
  | None => false
  end.

Definition option_list {A} (o : option A) : list A :=
  match o with
  | Some a => [a]
  | None => []
  end.

(** The sector that the role identifier gives a stock, when the lookup does
    not raise. *)
Definition sector_name (hash : string -> Z)
    (sector_data : list (string * SectorAnalysis)) (s : Stock) : string :=
  match DragonHeadIdentifier._get_stock_sector_from_data hash (code s)
          sector_data with
  | Ok sec => sec
  | Raise _ => EmptyString
  end.

(** The stocks of one sector that are chosen as its Leader, Core and
    Catch-up. *)
Definition sector_picks (config : Config) (sec : string)
    (members : list Stock) : list Stock :=
  let sector_roles :=
    DragonHeadIdentifier._analyze_sector_roles config sec members in
  option_list (sr_leader sector_roles)
    ++ option_list (sr_core sector_roles)
    ++ option_list (sr_catch_up sector_roles).

(** The stocks of one sector group that reach a role list: the picks of a
    sector that meets the strength threshold, every stock of one that does
    not. *)
Definition kept (config : Config) (group : string * list Stock)
  : list Stock :=
  map (set_sector (fst group))
      (if (sector_strength_threshold config
             <=? Z.of_nat (List.length (snd group)))%Z
       then sector_picks config (fst group) (snd group)
       else snd group).

(** A float that is NaN or lies between two bounds. *)
Definition nan_or_within (lo hi : Q) (a : pyfloat) : Prop :=
  match a with
  | NaN => True
  | Fin x => lo <= x <= hi
  end.

(** A float that is a non-negative number. *)
Definition nonneg_fin (a : pyfloat) : Prop :=
  match a with
  | NaN => False
  | Fin x => 0 <= x
  end.

(** ** Sample inputs *)

Module Samples.

(** The configuration that [create_default_config] writes. *)
Definition default_config : Config :=
  {| limit_threshold := 9.8;
     sector_strength_threshold := 3;
     weights := {| w_streak := 0.35; w_limit_time := 0.25;
                   w_seal_amount := 0.20; w_float_cap := 0.20 |} |}.

(** [hash] of three security codes in CPython 3.11 started with
    [PYTHONHASHSEED=1]. *)
Definition hash_seed1 (c : string) : Z :=
  if String.eqb c "600001" then (-5246975895808234293)%Z
  else if String.eqb c "600004" then (-6000980248439030518)%Z
  else if String.eqb c "600011" then (-4549231229150545601)%Z
  else 0%Z.

(** A run that gives the three codes the same hash values and another code
    a different one. *)
Definition hash_seed1_elsewhere (c : string) : Z :=
  if String.eqb c "000001" then 1%Z else hash_seed1 c.

(** The same three codes with [PYTHONHASHSEED=2]. *)
Definition hash_seed2 (c : string) : Z :=
  if String.eqb c "600001" then 9217581831877465483%Z
  else if String.eqb c "600004" then (-3693229171502766993)%Z
  else if String.eqb c "600011" then (-528597303031822052)%Z
  else 0%Z.

Definition row (c : string) (close pct amount : Q) : LimitUpRecord :=
  {| r_code := c; r_name := None; r_close := Fin close;
     r_pct_change := Fin pct; r_amount := Fin amount;
     r_volume := Fin 1e6 |}.

(** Three limit-up stocks. *)
Definition roster3 : list LimitUpRecord :=
  [ row "600001" 11 10 2e9; row "600004" 11 10 6e8;
    row "600011" 12 20 1e8 ].

Definition bar (close pct : Q) : Bar :=
  {| bar_close := Fin close; bar_volume := Fin 1e6;
     bar_pct_change := Fin pct; bar_preclose := NaN |}.

(** Nine flat days and a last day that closes at [last]. *)
Definition frame (last pct : Q) : DataFrame :=
  {| has_pct_change := true; has_preclose := false;
     bars := repeat (bar 10 0) 9 ++ [bar last pct] |}.

Definition history3 : list (string * DataFrame) :=
  [ ("600001", frame 11 10); ("600004", frame 11 10);
    ("600011", frame 12 20) ]%string.

(** A history of five bars, every one of them a limit-up day. *)
Definition five_limit_ups : DataFrame :=
  {| has_pct_change := true; has_preclose := false;
     bars := repeat (bar 10 10) 5 |}.

(** Two bars of a frame without a [pct_change] column; the last day closes
    at -22 after a [preclose] of -10. *)
Definition negative_preclose : DataFrame :=
  {| has_pct_change := false; has_preclose := true;
     bars :=
       [ {| bar_close := Fin 10; bar_volume := Fin 1e6;
            bar_pct_change := NaN; bar_preclose := Fin 10 |};
         {| bar_close := Fin (-22); bar_volume := Fin 1e6;
            bar_pct_change := NaN; bar_preclose := Fin (-10) |} ] |}.

(** Two bars of a frame that has neither a [pct_change] nor a [preclose]
    column. *)
Definition no_percent_source : DataFrame :=
  {| has_pct_change := false; has_preclose := false;
     bars :=
       [ {| bar_close := Fin 10; bar_volume := Fin 1e6;
            bar_pct_change := NaN; bar_preclose := NaN |};
         {| bar_close := Fin 11; bar_volume := Fin 1e6;
            bar_pct_change := NaN; bar_preclose := NaN |} ] |}.

(** The default configuration with a limit threshold of 0. *)
Definition zero_threshold_config : Config :=
  {| limit_threshold := 0;
     sector_strength_threshold := 3;
     weights := {| w_streak := 0.35; w_limit_time := 0.25;
                   w_seal_amount := 0.20; w_float_cap := 0.20 |} |}.

(** A day with ninety limit-up stocks and no history. *)
Definition roster90 : list LimitUpRecord :=
  repeat (row "600001" 11 10 1e8) 90.

Definition sample_stock : Stock :=
  {| code := "600001"; name := Str "600001"; close := 11; pct_change := 10;
     amount := 2e9; volume := 1e6; features := None;
     continuous_days := Some 3%nat; total_increase := None;
     daily_increases := None; continuous_strength := None;
     sector := None; score := None |}.

(** The analysis of [roster3] with [history3] and the roles identified in
    it, in the run whose hash values are [hash_seed1]. *)
Definition analysis3 : AnalysisResult :=
  LimitUpAnalyzer.analyze_limit_up default_config roster3 history3.

Definition roles3 : Roles :=
  match DragonHeadIdentifier.identify_roles hash_seed1 default_config
          (stocks analysis3)
          (SectorAnalyzer.analyze_sectors hash_seed1 roster3 history3) with
  | Ok r => r
  | Raise _ => DragonHeadIdentifier._empty_roles
  end.

Definition theme3 : Theme :=
  {| th_sector := "新能源"; th_count := 3; th_leaders := 1;
     th_rating := "★★"; th_persistence := "有一定持续性，需观察" |}.

(** The report of the run on [roster3] whose hash values are [hash_seed1]. *)
Definition report3 : StrategyReport :=
  match Main.pipeline hash_seed1 default_config EmptyString roster3
          history3 with
  | Ok r => r
  | Raise _ => Main._generate_empty_report EmptyString
  end.

End Samples.

(** * Properties *)

(** ** Facts about the Python primitives *)

Lemma Qltb_lt (a b : Q) : Qltb a b = true <-> a < b.
Proof. unfold Qltb, Qlt. apply Z.ltb_lt. Qed.

Lemma Qltb_ge (a b : Q) : Qltb a b = false <-> b <= a.
Proof. unfold Qltb, Qle. apply Z.ltb_ge. Qed.

Lemma round_half_even_nonneg (x : Q) : 0 <= x -> (0 <= round_half_even x)%Z.
Proof.
  intros Hx. unfold round_half_even.
  assert (Hn : (0 <= Qnum x)%Z) by (unfold Qle in Hx; simpl in Hx; lia).
  assert (Hf : (0 <= Qnum x / Zpos (Qden x))%Z)
    by (apply Z.div_pos; lia).
  destruct (2 * (Qnum x mod Zpos (Qden x)) ?= Zpos (Qden x))%Z;
    try destruct (Z.even _); lia.
Qed.

Lemma round_half_even_le (x : Q) (n : Z) :
  x <= inject_Z n -> (round_half_even x <= n)%Z.
Proof.
  intros Hx. unfold round_half_even.
  assert (Hn : (Qnum x <= n * Zpos (Qden x))%Z)
    by (unfold Qle in Hx; simpl in Hx; lia).
  pose proof (Z.mod_pos_bound (Qnum x) (Zpos (Qden x)) ltac:(lia)) as Hr.
  pose proof (Z.div_mod (Qnum x) (Zpos (Qden x)) ltac:(lia)) as Hdm.
  set (d := Zpos (Qden x)) in *.
  set (f := (Qnum x / d)%Z) in *.
  set (r := (Qnum x mod d)%Z) in *.
  assert (Hfn : (f <= n)%Z) by nia.
  destruct (Z.eq_dec f n) as [Heq | Hne].
  - assert (r = 0)%Z by nia.
    replace (2 * r ?= d)%Z with Lt; [lia |].
    symmetry. apply Z.compare_lt_iff. lia.
  - destruct (2 * r ?= d)%Z; try destruct (Z.even f); lia.
Qed.

Lemma round2_bounds (x : Q) : 0 <= x -> x <= 100 -> 0 <= round2 x <= 100.
Proof.
  intros H0 H100. unfold round2.
  assert (Hlo : (0 <= round_half_even (x * 100))%Z).
  { apply round_half_even_nonneg. nra. }
  assert (Hhi : (round_half_even (x * 100) <= 10000)%Z).
  { apply round_half_even_le. change (inject_Z 10000) with 10000. nra. }
  rewrite Qred_correct. unfold Qle; simpl. lia.
Qed.

(** ** The composite score *)

Section ScoreBounds.
Variable config : Config.

Lemma weighted_step (acc lo hi : Q) (s : Z) (k : Q) :
  (0 <= s <= 100)%Z -> 0 <= k -> lo <= acc -> acc <= hi ->
  lo <= acc + inject_Z s * k /\ acc + inject_Z s * k <= hi + 100 * k.
Proof.
  intros [Hs0 Hs1] Hk Hlo Hhi.
  assert (H0 : 0 <= inject_Z s).
  { change 0 with (inject_Z 0). rewrite <- Zle_Qle. exact Hs0. }
  assert (H1 : inject_Z s <= 100).
  { change 100 with (inject_Z 100). rewrite <- Zle_Qle. exact Hs1. }
  split; nra.
Qed.

(** C6: for non-negative weights that sum to 1 the composite score of every
    stock lies between 0 and 100. *)
Theorem dragon_score_bounded (stock : Stock) :
  0 <= w_streak (weights config) ->
  0 <= w_limit_time (weights config) ->
  0 <= w_seal_amount (weights config) ->
  0 <= w_float_cap (weights config) ->
  w_streak (weights config) + w_limit_time (weights config)
    + w_seal_amount (weights config) + w_float_cap (weights config) == 1 ->
  0 <= DragonHeadIdentifier._calculate_dragon_score config stock <= 100.
Proof.
  intros H1 H2 H3 H4 Hsum.
  unfold DragonHeadIdentifier._calculate_dragon_score.
    set (w := weights config) in *.
  set (cs := Z.min (Z.of_nat (get_continuous_days stock) * 25) 100).
  set (am := if Qgtb (amount stock) 1e9 then _ else _).
  set (ts := Z.min _ 100).
  assert (Hcs : (0 <= cs <= 100)%Z) by (subst cs; lia).
  assert (Ham : (0 <= am <= 100)%Z).
  { subst am.
    repeat match goal with
           | |- context [if ?c then _ else _] => destruct c
           end; lia. }
  assert (Hts : (0 <= ts <= 100)%Z).
  { subst ts.
    repeat match goal with
           | |- context [if ?c then _ else _] => destruct c
           end; lia. }
  destruct (@weighted_step 0 0 0 cs (w_streak w) Hcs H1) as [A1 B1];
    try apply Qle_refl.
  destruct (@weighted_step _ 0 _ 60%Z (w_limit_time w)
              ltac:(lia) H2 A1 B1) as [A2 B2].
  destruct (@weighted_step _ 0 _ am (w_seal_amount w) Ham H3 A2 B2)
    as [A3 B3].
  destruct (@weighted_step _ 0 _ ts (w_float_cap w) Hts H4 A3 B3)
    as [A4 B4].
  apply round2_bounds; [exact A4 |].
  eapply Qle_trans; [exact B4 |]. nra.
Qed.
End ScoreBounds.

(** The bound at the default weights and a three-day streak. *)
Lemma dragon_score_bounded_witness :
  0 <= DragonHeadIdentifier._calculate_dragon_score
         Samples.default_config Samples.sample_stock <= 100.
Proof.
  apply (dragon_score_bounded Samples.default_config Samples.sample_stock);
    vm_compute; solve [reflexivity | discriminate].
Defined.

(** ** Market sentiment *)

Section AnalysisSummary.
Variable config : Config.
Variable limit_up_df : list LimitUpRecord.
Variable historical_data : list (string * DataFrame).
Let analysis :=
  LimitUpAnalyzer.analyze_limit_up config limit_up_df historical_data.

Lemma analysis_total_count :
  total_count (summary analysis) = List.length limit_up_df.
Proof. subst analysis. destruct limit_up_df; reflexivity. Qed.

Lemma analysis_market_sentiment :
  market_sentiment (summary analysis)
  = LimitUpAnalyzer._calculate_market_sentiment (List.length limit_up_df).
Proof. subst analysis. destruct limit_up_df; reflexivity. Qed.

Lemma analysis_success_rate :
  success_rate (summary analysis)
  = LimitUpAnalyzer._estimate_success_rate (List.length limit_up_df).
Proof. subst analysis. destruct limit_up_df; reflexivity. Qed.
End AnalysisSummary.

Ltac split_thresholds :=
  repeat match goal with
         | |- context [Nat.ltb ?a ?b] =>
             let E := fresh "E" in
             destruct (Nat.ltb a b) eqn:E;
             [apply Nat.ltb_lt in E | apply Nat.ltb_ge in E]
         | |- context [Nat.leb ?a ?b] =>
             let E := fresh "E" in
             destruct (Nat.leb a b) eqn:E;
             [apply Nat.leb_le in E | apply Nat.leb_gt in E]
         end.

(** C4, the counterexample: on a day with ninety limit-up stocks the
    analyzer labels the market "活跃" and the market summary of the
    strategy report labels it "高潮". *)
Lemma sentiment_labels_differ_at_90 :
  market_sentiment
    (summary (LimitUpAnalyzer.analyze_limit_up
                Samples.default_config Samples.roster90 []))
  = "活跃"%string
  /\ ms_sentiment
       (StrategyGenerator._generate_market_summary
          (LimitUpAnalyzer.analyze_limit_up
             Samples.default_config Samples.roster90 []))
     = "高潮"%string.
Proof. split; vm_compute; reflexivity. Qed.

(** C4 (amended): the analyzer's sentiment label depends on the number [n]
    of roster rows alone, with the thresholds >100 "高潮", >60 "活跃",
    >30 "温和", >10 "清淡", else "冰点"; the market summary of the strategy
    report uses thresholds of its own, >80 "高潮", >50 "活跃", >30 "温和",
    else "冰点"; the two labels are equal exactly when [n <= 10],
    [30 < n <= 50], [60 < n <= 80] or [100 < n]. *)
Theorem market_sentiment_rules (config : Config)
    (limit_up_df : list LimitUpRecord)
    (historical_data : list (string * DataFrame)) :
  let analysis :=
    LimitUpAnalyzer.analyze_limit_up config limit_up_df historical_data in
  let n := List.length limit_up_df in
  let label := market_sentiment (summary analysis) in
  let report_label :=
    ms_sentiment (StrategyGenerator._generate_market_summary analysis) in
  ((100 < n)%nat -> label = "高潮"%string)
  /\ ((60 < n <= 100)%nat -> label = "活跃"%string)
  /\ ((30 < n <= 60)%nat -> label = "温和"%string)
  /\ ((10 < n <= 30)%nat -> label = "清淡"%string)
  /\ ((n <= 10)%nat -> label = "冰点"%string)
  /\ ((80 < n)%nat -> report_label = "高潮"%string)
  /\ ((50 < n <= 80)%nat -> report_label = "活跃"%string)
  /\ ((30 < n <= 50)%nat -> report_label = "温和"%string)
  /\ ((n <= 30)%nat -> report_label = "冰点"%string)
  /\ (report_label = label
      <-> (n <= 10 \/ 30 < n <= 50 \/ 60 < n <= 80 \/ 100 < n)%nat).
Proof.
  cbv zeta.
  unfold StrategyGenerator._generate_market_summary,
    StrategyGenerator._assess_market_sentiment.
  cbn [ms_sentiment].
  rewrite analysis_market_sentiment, analysis_total_count.
  unfold LimitUpAnalyzer._calculate_market_sentiment.
  generalize (List.length limit_up_df) as n. intros n.
  split_thresholds;
    repeat split; intros; try lia; try reflexivity; try discriminate.
Qed.

(** ** The fallback sector of the role identifier *)

Ltac enumerate_residue h k :=
  let H := fresh "H" in
  pose proof (Z.mod_pos_bound h k ltac:(lia)) as H;
  let r := fresh "r" in
  set (r := (h mod k)%Z) in *;
  assert (r = 0 \/ r = 1 \/ r = 2 \/ r = 3 \/ r = 4 \/ r = 5 \/ r = 6)%Z
    as [-> | [-> | [-> | [-> | [-> | [-> | ->]]]]]] by lia;
  try (exfalso; lia); clear H.

Ltac decide_names :=
  try lia; cbv; split;
  let H := fresh "H" in intro H; solve [discriminate H | reflexivity].

(** C2, the counterexample: with the hash values of one interpreter run the
    fallback of the role identifier puts 600001 in "保险" and the sector
    analyzer puts it in "新能源". *)
Lemma fallback_sector_differs :
  DragonHeadIdentifier._get_stock_sector Samples.hash_seed1 "600001"
  = Ok "保险"%string
  /\ SectorAnalyzer._assign_stock_sector Samples.hash_seed1 "600001"
       SectorAnalyzer.sectors
     = "新能源"%string.
Proof. split; vm_compute; reflexivity. Qed.

(** C2 (amended): the fallback of the role identifier raises on an empty
    code; otherwise it selects by the first character of the code, taking
    the entry at [hash(code)] modulo the length of that character's list for
    '6', '0', '3' and '4' and "其他" for any other character. The sector
    analyzer takes the entry at [hash(code)] modulo 7 of its own catalogue.
    The two names are equal exactly when [fallback_agrees] holds: never for
    a code that starts with '6' or '4'. *)
Theorem fallback_sector_agreement (hash : string -> Z) (c : ascii)
    (rest : string) :
  let code := String c rest in
  DragonHeadIdentifier._get_stock_sector hash EmptyString = Raise IndexError
  /\ (DragonHeadIdentifier._get_stock_sector hash code
      = Ok (SectorAnalyzer._assign_stock_sector hash code
              SectorAnalyzer.sectors)
      <-> fallback_agrees c (hash code) = true).
Proof.
  cbv zeta. split; [reflexivity |].
  unfold DragonHeadIdentifier._get_stock_sector,
    SectorAnalyzer._assign_stock_sector, fallback_agrees.
  generalize (hash (String c rest)) as h. intros h.
  cbn [dict_get DragonHeadIdentifier.sectors String.eqb].
  change (Z.of_nat (List.length (map fst SectorAnalyzer.sectors))) with 7%Z.
  destruct (Ascii.eqb "6" c);
    [| destruct (Ascii.eqb "0" c);
       [| destruct (Ascii.eqb "3" c); [| destruct (Ascii.eqb "4" c)]]];
    cbn [String.eqb List.length Z.of_nat Pos.of_succ_nat Pos.succ].
  - enumerate_residue h 7%Z; enumerate_residue h 5%Z; decide_names.
  - enumerate_residue h 7%Z; enumerate_residue h 3%Z; decide_names.
  - enumerate_residue h 7%Z; enumerate_residue h 4%Z; decide_names.
  - enumerate_residue h 7%Z; enumerate_residue h 4%Z; decide_names.
  - enumerate_residue h 7%Z; decide_names.
Qed.

(** ** Theme persistence *)

Lemma sort_desc_In {A K} (lt : K -> K -> bool) (key : A -> K) (l : list A)
    (x : A) :
  In x (sort_desc lt key l) <-> In x l.
Proof.
  assert (Hins : forall y l', In x (insert_desc lt key y l') <-> y = x \/ In x l').
  { intros y l'. induction l' as [| z l' IH]; simpl.
    - tauto.
    - destruct (lt (key y) (key z)); simpl; rewrite ?IH; tauto. }
  induction l as [| y l IH]; simpl.
  - tauto.
  - rewrite Hins, IH. tauto.
Qed.

Lemma In_firstn {A} (n : nat) (l : list A) (x : A) :
  In x (firstn n l) -> In x l.
Proof.
  intros H. rewrite <- (firstn_skipn n l). apply in_or_app. left. exact H.
Qed.

Lemma In_skipn {A} (n : nat) (l : list A) (x : A) :
  In x (skipn n l) -> In x l.
Proof.
  intros H. rewrite <- (firstn_skipn n l). apply in_or_app. right. exact H.
Qed.

Lemma existsb_count_occ (l : list string) (s : string) :
  existsb (String.eqb s) l = (1 <=? count_occ string_dec l s).
Proof.
  induction l as [| x l IH]; simpl; [reflexivity |].
  destruct (string_dec x s) as [-> | Hne].
  - rewrite String.eqb_refl. reflexivity.
  - rewrite IH. destruct (String.eqb s x) eqn:E; [| reflexivity].
    apply String.eqb_eq in E. congruence.
Qed.

Lemma theme_of_stats (config : Config) (r : Roles) (th : Theme) :
  In th (StrategyGenerator._identify_main_themes config r) ->
  exists sector stats,
    In (sector, stats) (StrategyGenerator.collect_sector_stats r)
    /\ (sector_strength_threshold config <= Z.of_nat (count stats))%Z
    /\ th = {| th_sector := sector;
               th_count := count stats;
               th_leaders := count_occ string_dec (roles stats) "龙头"%string;
               th_rating := StrategyGenerator._rate_sector_strength stats;
               th_persistence :=
                 StrategyGenerator._judge_sector_persistence stats |}.
Proof.
  unfold StrategyGenerator._identify_main_themes. intros Hin.
  apply In_firstn, sort_desc_In, in_flat_map in Hin.
  destruct Hin as [[sector stats] [Hin Hth]].
  exists sector, stats. split; [exact Hin |].
  destruct (sector_strength_threshold config <=? Z.of_nat (count stats))%Z
    eqn:E; [| contradiction].
  apply Z.leb_le in E. destruct Hth as [<- | []]. split; [exact E | reflexivity].
Qed.

(** C5, the counterexample: in the report of a run on three stocks the theme
    "新能源" has the verdict "有一定持续性，需观察", which the rule of the
    sector analyzer gives for no strength score; for the same three stocks
    the sector analyzer's verdict is "一般，谨慎参与". *)
Lemma theme_verdict_differs :
  StrategyGenerator._identify_main_themes Samples.default_config
    Samples.roles3 = [Samples.theme3]
  /\ th_persistence Samples.theme3 = "有一定持续性，需观察"%string
  /\ map (fun x => sa_persistence (snd x))
       (SectorAnalyzer.analyze_sectors Samples.hash_seed1
          Samples.roster3 Samples.history3)
     = ["一般，谨慎参与"%string]
  /\ (forall stocks z,
        SectorAnalyzer._judge_sector_persistence stocks z
        <> th_persistence Samples.theme3).
Proof.
  repeat split; try (vm_compute; reflexivity).
  intros stocks z. unfold SectorAnalyzer._judge_sector_persistence.
  repeat match goal with
         | |- context [if ?c then _ else _] => destruct c
         end; discriminate.
Qed.

(** C5 (amended): the persistence verdict of a theme follows a rule of the
    strategy generator's own, over the role-assignment counts of the sector:
    "主线明确，持续性较强" when the sector has a leader and at least five
    counted stocks, else "有一定持续性，需观察" when it has at least three,
    else "一日游可能性大，谨慎参与"; it is never one of the verdicts of the
    sector analyzer's strength-score rule. *)
Theorem theme_persistence_rule (config : Config) (r : Roles) (th : Theme) :
  In th (StrategyGenerator._identify_main_themes config r) ->
  th_persistence th
  = (if (1 <=? th_leaders th) && (5 <=? th_count th)
     then "主线明确，持续性较强"%string
     else if 3 <=? th_count th then "有一定持续性，需观察"%string
     else "一日游可能性大，谨慎参与"%string)
  /\ (forall stocks z,
        SectorAnalyzer._judge_sector_persistence stocks z
        <> th_persistence th).
Proof.
  intros Hin. apply theme_of_stats in Hin.
  destruct Hin as (sector & stats & _ & _ & ->). cbn [th_persistence th_leaders th_count].
  unfold StrategyGenerator._judge_sector_persistence.
  rewrite existsb_count_occ. split; [reflexivity |].
  intros stocks z. unfold SectorAnalyzer._judge_sector_persistence.
  repeat match goal with
         | |- context [if ?c then _ else _] => destruct c
         end; discriminate.
Qed.

(** The rule at the theme of the sample run. *)
Lemma theme_persistence_rule_witness :
  th_persistence Samples.theme3
  = (if (1 <=? th_leaders Samples.theme3) && (5 <=? th_count Samples.theme3)
     then "主线明确，持续性较强"%string
     else if 3 <=? th_count Samples.theme3
     then "有一定持续性，需观察"%string
     else "一日游可能性大，谨慎参与"%string)
  /\ (forall stocks z,
        SectorAnalyzer._judge_sector_persistence stocks z
        <> th_persistence Samples.theme3).
Proof.
  apply (@theme_persistence_rule Samples.default_config Samples.roles3).
  vm_compute. left. reflexivity.
Defined.

(** ** The empty roster *)

(** C8: on an empty roster the pipeline raises nothing and returns a report
    with a total count of 0, the sentiment "冰点", the success rate "0%", no
    theme, no stock strategy, and the low-sentiment warning among its risk
    warnings; so does the entry point [run_analysis], whose empty report
    carries the no-limit-up warning. *)
Theorem empty_roster_report (hash : string -> Z) (config : Config)
    (now : string) (historical_data : list (string * DataFrame)) :
  exists report empty_report,
    Main.pipeline hash config now [] historical_data = Ok report
    /\ ms_total_count (market_summary report) = 0%nat
    /\ ms_sentiment (market_summary report) = "冰点"%string
    /\ ms_success_rate (market_summary report) = "0%"%string
    /\ themes report = []
    /\ stock_strategies report = []
    /\ In "涨停家数较少，市场情绪低迷，注意仓位控制"%string
          (risk_warnings report)
    /\ Main.run_analysis hash config now [] historical_data = Ok empty_report
    /\ ms_total_count (market_summary empty_report) = 0%nat
    /\ ms_sentiment (market_summary empty_report) = "冰点"%string
    /\ ms_success_rate (market_summary empty_report) = "0%"%string
    /\ themes empty_report = []
    /\ stock_strategies empty_report = []
    /\ In "当日无涨停股票，市场极度低迷"%string (risk_warnings empty_report).
Proof.
  eexists. eexists.
  split; [reflexivity |].
  repeat split; try reflexivity.
  - cbn. left. reflexivity.
  - cbn. left. reflexivity.
Qed.

(** ** Streak detection *)

Section Streaks.
Variable config : Config.
Variable historical_data : list (string * DataFrame).

(** The percent change that the loop reads is the one of the statement. *)
Lemma day_pct_change_available (df : DataFrame) (b : Bar) :
  LimitUpAnalyzer.day_pct_change df b = available_pct df b.
Proof.
  unfold LimitUpAnalyzer.day_pct_change, available_pct,
    LimitUpAnalyzer.pct_of_ratio.
  destruct (has_pct_change df), (bar_pct_change b) as [| p],
    (has_preclose df), (bar_preclose b) as [| c];
    cbn; unfold Qgtb; try reflexivity;
    destruct (Qltb 0 c); reflexivity.
Qed.

Lemma count_streak_prefix (df : DataFrame) (days : list Bar) :
  let d := LimitUpAnalyzer.count_streak config df days in
  (d <= List.length days)%nat
  /\ (forall i, (i < d)%nat -> day_passes config df (nth i days nan_bar))
  /\ ((d < List.length days)%nat -> day_fails config df (nth d days nan_bar)).
Proof.
  induction days as [| b rest IH]; cbn zeta; simpl.
  - repeat split; intros; lia.
  - rewrite day_pct_change_available.
    destruct (available_pct df b) as [pct |] eqn:Epct.
    + destruct (fge pct (Fin (limit_threshold config))) eqn:Ege.
      * destruct IH as (IH1 & IH2 & IH3). repeat split.
        -- lia.
        -- intros [| i] Hi; [econstructor; eassumption |].
           apply IH2. lia.
        -- intros Hlt. apply IH3. lia.
      * repeat split; try lia.
        intros _. eapply day_fails_below; eassumption.
    + repeat split; try lia.
      intros _. apply day_fails_no_data. assumption.
Qed.

Lemma from_end_rev {A} (i : nat) (l : list A) (d : A) :
  from_end (i + 1) l d = nth i (rev l) d.
Proof. unfold from_end. f_equal. lia. Qed.

Lemma check_limit_up_days_spec (df : DataFrame) :
  let d := LimitUpAnalyzer._check_limit_up_days config df in
  let examined := Nat.min 10 (LimitUpAnalyzer.len df - 1) in
  (d <= examined)%nat
  /\ (forall i, (i < d)%nat ->
        day_passes config df (from_end (i + 1) (bars df) nan_bar))
  /\ ((d < examined)%nat ->
        day_fails config df (from_end (d + 1) (bars df) nan_bar)).
Proof.
  cbv zeta. unfold LimitUpAnalyzer._check_limit_up_days.
  destruct (LimitUpAnalyzer.len df <? 2) eqn:Elen.
  - apply Nat.ltb_lt in Elen. repeat split; intros; lia.
  - set (n := Nat.min 10 (LimitUpAnalyzer.len df - 1)).
    pose proof (count_streak_prefix df (firstn n (rev (bars df)))) as H.
    cbv zeta in H. destruct H as (H1 & H2 & H3).
    assert (Hn : List.length (firstn n (rev (bars df))) = n).
    { rewrite length_firstn, length_rev. unfold LimitUpAnalyzer.len in *.
      subst n. lia. }
    rewrite Hn in *. repeat split.
    + exact H1.
    + intros i Hi. specialize (H2 i Hi). rewrite nth_firstn in H2.
      replace (i <? n) with true in H2
        by (symmetry; apply Nat.ltb_lt; lia).
      rewrite from_end_rev. exact H2.
    + intros Hd. specialize (H3 Hd). rewrite nth_firstn in H3.
      replace (_ <? n) with true in H3
        by (symmetry; apply Nat.ltb_lt; lia).
      rewrite from_end_rev. exact H3.
Qed.

Lemma mark_streak_spec (s : Stock) :
  let m := LimitUpAnalyzer.mark_streak historical_data s in
  code (fst m) = code s
  /\ get_continuous_days (fst m) = get_continuous_days s
  /\ snd m = match dict_get (code s) historical_data with
             | Some _ => 2 <=? get_continuous_days s
             | None => false
             end.
Proof.
  cbv zeta. unfold LimitUpAnalyzer.mark_streak.
  destruct (dict_get (code s) historical_data) as [df |].
  - destruct (2 <=? get_continuous_days s); cbn [fst snd];
      repeat split; reflexivity.
  - repeat split; reflexivity.
Qed.

Lemma analysed_streak (row : LimitUpRecord) :
  let s := LimitUpAnalyzer._analyze_single_stock config row historical_data in
  code s = r_code row
  /\ get_continuous_days s = recorded_streak config historical_data (r_code row).
Proof.
  cbv zeta. unfold LimitUpAnalyzer._analyze_single_stock, recorded_streak.
  destruct (dict_get (r_code row) historical_data) as [df |].
  - destruct (5 <=? LimitUpAnalyzer.len df); split; reflexivity.
  - split; reflexivity.
Qed.

Lemma mark_analysed (row : LimitUpRecord) :
  let s := LimitUpAnalyzer._analyze_single_stock config row historical_data in
  let m := LimitUpAnalyzer.mark_streak historical_data s in
  code (fst m) = r_code row
  /\ get_continuous_days (fst m) = recorded_streak config historical_data (r_code row)
  /\ snd m = (2 <=? get_continuous_days (fst m)).
Proof.
  cbv zeta.
  destruct (mark_streak_spec
              (LimitUpAnalyzer._analyze_single_stock config row
                 historical_data)) as (Hc & Hd & Hs).
  destruct (analysed_streak row) as (Hc' & Hd').
  cbv zeta in *. rewrite Hc, Hd, Hs, Hc', Hd'.
  repeat split. unfold recorded_streak.
  destruct (dict_get (r_code row) historical_data); reflexivity.
Qed.

Lemma analysis_stocks (limit_up_df : list LimitUpRecord) :
  let marked :=
    map (fun row =>
           LimitUpAnalyzer.mark_streak historical_data
             (LimitUpAnalyzer._analyze_single_stock config row
                historical_data))
        limit_up_df in
  let analysis :=
    LimitUpAnalyzer.analyze_limit_up config limit_up_df historical_data in
  stocks analysis = map fst marked
  /\ patterns analysis
     = sort_desc Nat.ltb get_continuous_days (map fst (filter snd marked)).
Proof.
  cbv zeta. destruct limit_up_df as [| row rest]; [split; reflexivity |].
  unfold LimitUpAnalyzer.analyze_limit_up,
    LimitUpAnalyzer._find_continuous_limit_up.
  cbn [stocks patterns]. rewrite !map_map. split; reflexivity.
Qed.

Lemma streak_filter (limit_up_df : list LimitUpRecord) :
  let marked :=
    map (fun row =>
           LimitUpAnalyzer.mark_streak historical_data
             (LimitUpAnalyzer._analyze_single_stock config row
                historical_data))
        limit_up_df in
  map fst (filter snd marked)
  = filter (fun s => 2 <=? get_continuous_days s) (map fst marked).
Proof.
  cbv zeta. induction limit_up_df as [| row rest IH]; [reflexivity |].
  cbn [map filter]. destruct (mark_analysed row) as (_ & _ & Hsnd).
  cbv zeta in Hsnd. rewrite <- Hsnd.
  destruct (snd _); cbn [map]; rewrite IH; reflexivity.
Qed.

(** C7, the counterexample: a history of five bars, each a limit-up day.
    Walking back from the most recent bar with a cap of 10 days counts five
    days; the analyzer returns 4, because it never examines the oldest
    bar, and records 4 for a stock with that history.

    The test of one day differs too. On a last day that closes at -22 after
    a [preclose] of -10, in a frame without [pct_change], the walk of the
    claim computes a change of 120 percent and counts the day, pre_close
    being neither missing nor zero; the analyzer takes 0 for a [preclose]
    that is not positive and counts nothing. In a frame with neither
    [pct_change] nor [preclose], under a threshold of 0, the walk of the
    claim takes 0 for every day and counts both bars; the analyzer stops at
    once and counts nothing. *)
Lemma oldest_bar_not_counted :
  Spec.continuous_days (limit_threshold Samples.default_config)
    Samples.five_limit_ups = 5%nat
  /\ LimitUpAnalyzer._check_limit_up_days Samples.default_config
       Samples.five_limit_ups = 4%nat
  /\ map continuous_days
       (stocks (LimitUpAnalyzer.analyze_limit_up Samples.default_config
                  [Samples.row "600001" 10 10 1e8]
                  [("600001"%string, Samples.five_limit_ups)]))
     = [Some 4%nat]
  /\ Spec.continuous_days (limit_threshold Samples.default_config)
       Samples.negative_preclose = 1%nat
  /\ LimitUpAnalyzer._check_limit_up_days Samples.default_config
       Samples.negative_preclose = 0%nat
  /\ Spec.continuous_days (limit_threshold Samples.zero_threshold_config)
       Samples.no_percent_source = 2%nat
  /\ LimitUpAnalyzer._check_limit_up_days Samples.zero_threshold_config
       Samples.no_percent_source = 0%nat.
Proof. repeat split; vm_compute; reflexivity. Qed.

(** C7 (amended): streak detection walks the history backward from the most
    recent bar and examines at most [min(10, n - 1)] bars of an [n]-bar
    history, so never the oldest one (and none when [n < 2]); it counts a
    day iff a percent change is available for it ([pct_change] when present,
    else [(close/preclose - 1) * 100] when the [preclose] column exists,
    taken as 0 when that cell is missing or not positive) and reaches
    [limit_threshold]; it stops at the first day that fails or has no
    percent change available. Every analysed stock records this count for
    its history when it has at least five bars, else 0, and the streak
    stocks are exactly the analysed stocks with [continuous_days >= 2],
    ordered by descending streak. *)
Theorem streak_detection (limit_up_df : list LimitUpRecord) :
  let analysis :=
    LimitUpAnalyzer.analyze_limit_up config limit_up_df historical_data in
  (forall df,
     let d := LimitUpAnalyzer._check_limit_up_days config df in
     let examined := Nat.min 10 (LimitUpAnalyzer.len df - 1) in
     (d <= examined)%nat
     /\ (forall i, (i < d)%nat ->
           day_passes config df (from_end (i + 1) (bars df) nan_bar))
     /\ ((d < examined)%nat ->
           day_fails config df (from_end (d + 1) (bars df) nan_bar)))
  /\ (forall s, In s (stocks analysis) ->
        get_continuous_days s = recorded_streak config historical_data (code s))
  /\ patterns analysis
     = sort_desc Nat.ltb get_continuous_days
         (filter (fun s => 2 <=? get_continuous_days s) (stocks analysis))
  /\ (forall s, In s (patterns analysis)
                <-> In s (stocks analysis)
                    /\ (2 <= get_continuous_days s)%nat).
Proof.
  cbv zeta. destruct (analysis_stocks limit_up_df) as [Hst Hpat].
  cbv zeta in Hst, Hpat. rewrite streak_filter in Hpat.
  rewrite <- Hst in Hpat.
  split; [exact check_limit_up_days_spec |].
  split; [| split; [exact Hpat |]].
  - intros s Hin. rewrite Hst, map_map in Hin.
    apply in_map_iff in Hin. destruct Hin as (row & <- & _).
    destruct (mark_analysed row) as (Hc & Hd & _). cbv zeta in Hc, Hd.
    rewrite Hc. exact Hd.
  - intros s. rewrite Hpat, sort_desc_In, filter_In, Nat.leb_le. tauto.
Qed.
End Streaks.

(** ** Sorting and maxima *)

Section OrderingFacts.
Context {A K : Type}.
Variable lt : K -> K -> bool.
Variable key : A -> K.

Lemma insert_desc_perm (x : A) (l : list A) :
  Permutation (insert_desc lt key x l) (x :: l).
Proof.
  induction l as [| y l IH]; simpl.
  - apply Permutation_refl.
  - destruct (lt (key x) (key y)).
    + rewrite IH. apply perm_swap.
    + apply Permutation_refl.
Qed.

Lemma sort_desc_perm (l : list A) : Permutation (sort_desc lt key l) l.
Proof.
  induction l as [| x l IH]; simpl.
  - apply perm_nil.
  - rewrite insert_desc_perm. apply perm_skip. exact IH.
Qed.

Lemma sort_desc_length (l : list A) :
  List.length (sort_desc lt key l) = List.length l.
Proof. apply Permutation_length, sort_desc_perm. Qed.

Lemma max_from_In (x : A) (l : list A) : In (max_from lt key x l) (x :: l).
Proof.
  revert x. induction l as [| y l IH]; intros x; simpl.
  - left. reflexivity.
  - unfold max_from in *. simpl.
    destruct (IH (if lt (key x) (key y) then y else x)) as [H | H].
    + destruct (lt (key x) (key y)); rewrite <- H; auto.
    + right. right. exact H.
Qed.

Lemma max_by_In (l : list A) (m : A) : max_by lt key l = Some m -> In m l.
Proof.
  destruct l as [| x l]; simpl; [discriminate |].
  intros [= <-]. apply max_from_In.
Qed.

Lemma max_by_Some (l : list A) : l <> [] -> exists m, max_by lt key l = Some m.
Proof. destruct l; [congruence | eexists; reflexivity]. Qed.
End OrderingFacts.

Section RationalKeys.
Context {A : Type}.
Variable key : A -> Q.

Let above (a b : A) : Prop := key b <= key a.

Lemma max_from_upper (x : A) (l : list A) (y : A) :
  In y (x :: l) -> key y <= key (max_from Qltb key x l).
Proof.
  revert x y. induction l as [| z l IH]; intros x y Hin.
  - destruct Hin as [Heq | []]. rewrite <- Heq. apply Qle_refl.
  - unfold max_from in *. simpl.
    destruct (Qltb (key x) (key z)) eqn:E.
    + apply Qltb_lt in E. destruct Hin as [Heq | Hin].
      * rewrite <- Heq.
        eapply Qle_trans; [apply Qlt_le_weak, E |]. apply IH. left. reflexivity.
      * apply IH. exact Hin.
    + apply Qltb_ge in E. destruct Hin as [Heq | [Heq | Hin]].
      * rewrite <- Heq. apply IH. left. reflexivity.
      * rewrite <- Heq.
        eapply Qle_trans; [exact E |]. apply IH. left. reflexivity.
      * apply IH. right. exact Hin.
Qed.

Lemma max_by_upper (l : list A) (m y : A) :
  max_by Qltb key l = Some m -> In y l -> key y <= key m.
Proof.
  destruct l as [| x l]; simpl; [discriminate |].
  intros [= <-]. apply max_from_upper.
Qed.

Lemma insert_desc_sorted (x : A) (l : list A) :
  StronglySorted above l -> StronglySorted above (insert_desc Qltb key x l).
Proof.
  induction 1 as [| y l Hs IH Hall]; simpl.
  - constructor; constructor.
  - destruct (Qltb (key x) (key y)) eqn:E.
    + apply Qltb_lt in E. constructor; [exact IH |].
      rewrite Forall_forall in *. intros z Hz.
      apply (Permutation_in _ (insert_desc_perm Qltb key x l)) in Hz.
      destruct Hz as [<- | Hz]; [apply Qlt_le_weak, E | apply Hall, Hz].
    + apply Qltb_ge in E. constructor; [constructor; assumption |].
      constructor; [exact E |].
      rewrite Forall_forall in *. intros z Hz.
      eapply Qle_trans; [apply Hall, Hz | exact E].
Qed.

Lemma sort_desc_sorted (l : list A) :
  StronglySorted above (sort_desc Qltb key l).
Proof.
  induction l as [| x l IH]; simpl.
  - constructor.
  - apply insert_desc_sorted, IH.
Qed.
End RationalKeys.

Lemma firstn_min_length {A} (n : nat) (l : list A) :
  firstn (Nat.min n (List.length l)) l = firstn n l.
Proof.
  destruct (Nat.le_ge_cases n (List.length l)) as [H | H].
  - rewrite Nat.min_l by exact H. reflexivity.
  - rewrite Nat.min_r by exact H.
    rewrite firstn_all, firstn_all2 by exact H. reflexivity.
Qed.

Lemma slice_1_3_top5 {A} (l : list A) (x : A) :
  In x (slice 1 3 l) -> In x (firstn 5 l).
Proof.
  unfold slice. cbn [Nat.sub]. intros H.
  rewrite firstn_skipn_comm in H. apply In_skipn in H.
  cbn [Nat.add] in H.
  replace (firstn 3 l) with (firstn 3 (firstn 5 l)) in H
    by (rewrite firstn_firstn; reflexivity).
  apply In_firstn in H. exact H.
Qed.

(** ** Roles within one sector *)

Section SectorRoles.
Variable config : Config.

Lemma scored_perm (stocks : list Stock) :
  Permutation
    (DragonHeadIdentifier.scored config stocks)
    (map (fun s =>
            set_score (DragonHeadIdentifier._calculate_dragon_score config s) s)
         stocks).
Proof. apply sort_desc_perm. Qed.

Lemma scored_length (stocks : list Stock) :
  List.length (DragonHeadIdentifier.scored config stocks) = List.length stocks.
Proof.
  rewrite (Permutation_length (scored_perm stocks)). apply length_map.
Qed.

Lemma scored_codes (stocks : list Stock) :
  Permutation (map code (DragonHeadIdentifier.scored config stocks))
              (map code stocks).
Proof.
  rewrite (Permutation_map code (scored_perm stocks)), map_map.
  apply Permutation_refl.
Qed.

Lemma scored_sorted (stocks : list Stock) :
  StronglySorted (fun a b => get_score b <= get_score a)
                 (DragonHeadIdentifier.scored config stocks).
Proof. apply sort_desc_sorted. Qed.

Lemma same_code_true (a b : Stock) :
  DragonHeadIdentifier.same_code a b = true <-> code a = code b.
Proof. apply String.eqb_eq. Qed.

Lemma same_code_false (a b : Stock) :
  DragonHeadIdentifier.same_code a b = false <-> code a <> code b.
Proof. apply String.eqb_neq. Qed.

Lemma pick_leader_Some (scored_stocks : list Stock) :
  scored_stocks <> [] ->
  exists dragon,
    DragonHeadIdentifier.pick_leader scored_stocks = Some dragon
    /\ In dragon scored_stocks.
Proof.
  intros Hne. unfold DragonHeadIdentifier.pick_leader.
  destruct (max_by Qltb get_score _) as [d |] eqn:E.
  - exists d. split; [reflexivity |].
    apply max_by_In in E. apply filter_In in E. tauto.
  - destruct scored_stocks as [| s l]; [congruence |].
    exists s. split; [reflexivity | left; reflexivity].
Qed.

(** What [pick_core] returns when a leader is chosen and there are at least
    two scored stocks. *)
Lemma pick_core_spec (dragon : Stock) (scored_stocks : list Stock) :
  (2 <= List.length scored_stocks)%nat ->
  let top5 := firstn 5 scored_stocks in
  let retry :=
    filter (fun s => negb (DragonHeadIdentifier.same_code s dragon))
           (slice 1 3 scored_stocks) in
  exists middle_army the_core,
    max_by Qltb amount top5 = Some middle_army
    /\ DragonHeadIdentifier.pick_core (Some dragon) scored_stocks
       = Some the_core
    /\ (code middle_army <> code dragon -> the_core = middle_army)
    /\ (code middle_army = code dragon ->
        ((2 < List.length scored_stocks)%nat -> retry <> [] ->
         max_by Qltb amount retry = Some the_core)
        /\ ((List.length scored_stocks <= 2)%nat \/ retry = [] ->
            the_core = middle_army)).
Proof.
  intros Hlen. cbv zeta. unfold DragonHeadIdentifier.pick_core.
  replace (1 <? List.length scored_stocks) with true
    by (symmetry; apply Nat.ltb_lt; lia).
  rewrite firstn_min_length.
  destruct (@max_by_Some _ _ Qltb amount (firstn 5 scored_stocks))
    as [m Hm].
  { destruct scored_stocks; simpl in *; [lia | discriminate]. }
  rewrite Hm.
  destruct (DragonHeadIdentifier.same_code dragon m) eqn:Esame.
  - apply same_code_true in Esame.
    destruct (2 <? List.length scored_stocks) eqn:E2.
    + apply Nat.ltb_lt in E2.
      destruct (max_by Qltb amount (filter _ (slice 1 3 scored_stocks)))
        as [c |] eqn:Ec.
      * exists m, c. repeat split; try congruence.
        intros [Hle | Hnil]; [lia |]. rewrite Hnil in Ec. discriminate.
      * exists m, m. repeat split; try congruence.
        intros _ Hne. apply (max_by_Some Qltb amount) in Hne.
        destruct Hne as [c Hc]. congruence.
    + apply Nat.ltb_ge in E2. exists m, m. repeat split; try congruence.
      intros Hlt. lia.
  - apply same_code_false in Esame. exists m, m.
    repeat split; congruence.
Qed.

(** C9: in a sector with at least two stocks the scored list is the
    sector's stocks sorted by descending composite score; the Core is the
    stock of maximal amount among its first five unless that stock has the
    Leader's code; then, when the sector has more than two stocks and one of
    the stocks ranked second and third has another code, the Core is the one
    of maximal amount among those, and otherwise the first pick stays. In
    every case the Core is one of the first five scored stocks. *)
Theorem core_selection (sector : string) (stocks : list Stock) :
  (2 <= List.length stocks)%nat ->
  let scored_stocks := DragonHeadIdentifier.scored config stocks in
  let top5 := firstn 5 scored_stocks in
  let sector_roles :=
    DragonHeadIdentifier._analyze_sector_roles config sector stocks in
  StronglySorted (fun a b => get_score b <= get_score a) scored_stocks
  /\ Permutation (map code scored_stocks) (map code stocks)
  /\ exists dragon middle_army the_core,
       sr_leader sector_roles = Some dragon
       /\ sr_core sector_roles = Some the_core
       /\ In middle_army top5
       /\ (forall s, In s top5 -> amount s <= amount middle_army)
       /\ In the_core top5
       /\ (code middle_army <> code dragon -> the_core = middle_army)
       /\ (code middle_army = code dragon ->
           let retry :=
             filter (fun s => negb (DragonHeadIdentifier.same_code s dragon))
                    (slice 1 3 scored_stocks) in
           ((2 < List.length stocks)%nat -> retry <> [] ->
            In the_core retry
            /\ code the_core <> code dragon
            /\ (forall s, In s retry -> amount s <= amount the_core))
           /\ ((List.length stocks <= 2)%nat \/ retry = [] ->
               the_core = middle_army)).
Proof.
  intros Hlen. cbv zeta.
  split; [apply scored_sorted |]. split; [apply scored_codes |].
  unfold DragonHeadIdentifier._analyze_sector_roles.
  replace (List.length stocks <? 2) with false
    by (symmetry; apply Nat.ltb_ge; lia).
  cbn [sr_leader sr_core].
  set (scored_stocks := DragonHeadIdentifier.scored config stocks).
  assert (Hsl : List.length scored_stocks = List.length stocks)
    by apply scored_length.
  destruct (@pick_leader_Some scored_stocks) as (dragon & Hd & _).
  { intros Hnil. rewrite Hnil in Hsl. simpl in Hsl. lia. }
  rewrite Hd.
  destruct (@pick_core_spec dragon scored_stocks ltac:(lia))
    as (m & c & Hm & Hc & Hdiff & Hsame).
  exists dragon, m, c.
  assert (Hmin : In m (firstn 5 scored_stocks)) by (eapply max_by_In, Hm).
  split; [reflexivity |]. split; [exact Hc |]. split; [exact Hmin |].
  split; [intros s Hs; eapply max_by_upper; eassumption |].
  assert (Hretry :
            code m = code dragon -> (2 < List.length stocks)%nat ->
            filter (fun s => negb (DragonHeadIdentifier.same_code s dragon))
                   (slice 1 3 scored_stocks) <> [] ->
            max_by Qltb amount
              (filter (fun s => negb (DragonHeadIdentifier.same_code s dragon))
                      (slice 1 3 scored_stocks)) = Some c).
  { intros Hcode Hlt Hne. apply Hsame; [exact Hcode | lia | exact Hne]. }
  split; [| split; [exact Hdiff |]].
  - destruct (string_dec (code m) (code dragon)) as [Hcode | Hcode].
    + destruct (Nat.ltb_spec 2 (List.length stocks)) as [Hlt | Hge].
      * destruct (filter (fun s => negb (DragonHeadIdentifier.same_code s dragon))
                         (slice 1 3 scored_stocks)) as [| r rs] eqn:Er.
        -- replace c with m; [exact Hmin |]. symmetry.
           apply Hsame; [exact Hcode |]. right. reflexivity.
        -- assert (Hmax : max_by Qltb amount (r :: rs) = Some c)
             by (apply Hretry; [exact Hcode | exact Hlt | discriminate]).
           apply max_by_In in Hmax. rewrite <- Er in Hmax.
           apply filter_In in Hmax. apply slice_1_3_top5. tauto.
      * replace c with m; [exact Hmin |]. symmetry.
        apply Hsame; [exact Hcode |]. left. lia.
    + rewrite (Hdiff Hcode). exact Hmin.
  - intros Hcode. split.
    + intros Hlt Hne. specialize (Hretry Hcode Hlt Hne). split; [| split].
      * eapply max_by_In, Hretry.
      * apply max_by_In, filter_In in Hretry. destruct Hretry as [_ Hneg].
        apply negb_true_iff, same_code_false in Hneg. exact Hneg.
      * intros s Hs. eapply max_by_upper; eassumption.
    + intros Hor. apply Hsame; [exact Hcode |]. rewrite Hsl. exact Hor.
Qed.
End SectorRoles.

(** ** Grouping *)

Section Grouping.
Context {V : Type}.
Variable f : V -> string.

Lemma group_add_keys (k : string) (v : V) (d : list (string * list V))
    (x : string) :
  In x (map fst (group_add k v d)) <-> x = k \/ In x (map fst d).
Proof.
  induction d as [| [k' vs] d IH]; simpl.
  - intuition congruence.
  - destruct (String.eqb k' k) eqn:E; simpl.
    + apply String.eqb_eq in E. subst k'. intuition congruence.
    + rewrite IH. tauto.
Qed.

Lemma group_add_NoDup (k : string) (v : V) (d : list (string * list V)) :
  NoDup (map fst d) -> NoDup (map fst (group_add k v d)).
Proof.
  induction d as [| [k' vs] d IH]; simpl; intros Hnd.
  - constructor; [intros [] | constructor].
  - inversion Hnd as [| ? ? Hnotin Hnd']; subst.
    destruct (String.eqb k' k) eqn:E; simpl.
    + constructor; assumption.
    + constructor; [| apply IH, Hnd'].
      rewrite group_add_keys. intros [-> | Hin]; [| contradiction].
      rewrite String.eqb_refl in E. discriminate.
Qed.

Lemma group_add_perm (k : string) (v : V) (d : list (string * list V)) :
  Permutation (flat_map snd (group_add k v d)) (flat_map snd d ++ [v]).
Proof.
  induction d as [| [k' vs] d IH]; simpl.
  - apply Permutation_refl.
  - destruct (String.eqb k' k); simpl.
    + rewrite <- !app_assoc. apply Permutation_app_head, Permutation_app_comm.
    + rewrite IH, app_assoc. apply Permutation_refl.
Qed.

Lemma group_add_members (v : V) (d : list (string * list V)) :
  (forall k vs, In (k, vs) d -> vs <> [] /\ Forall (fun x => f x = k) vs) ->
  forall k vs, In (k, vs) (group_add (f v) v d) ->
               vs <> [] /\ Forall (fun x => f x = k) vs.
Proof.
  induction d as [| [k' vs'] d IH]; simpl; intros Hd k vs Hin.
  - destruct Hin as [[= <- <-] | []]. split; [discriminate |].
    constructor; [reflexivity | constructor].
  - destruct (String.eqb k' (f v)) eqn:E; simpl in Hin.
    + apply String.eqb_eq in E. destruct Hin as [[= <- <-] | Hin].
      * destruct (Hd k' vs' (or_introl eq_refl)) as [_ Hall]. split.
        -- destruct vs'; discriminate.
        -- apply Forall_app. split; [exact Hall |].
           constructor; [symmetry; exact E | constructor].
      * apply Hd. right. exact Hin.
    + destruct Hin as [[= <- <-] | Hin].
      * apply Hd. left. reflexivity.
      * apply IH; [| exact Hin]. intros k0 vs0 H0. apply Hd. right. exact H0.
Qed.

Lemma group_fold_grouped (l seen : list V) (d : list (string * list V)) :
  grouped f seen d ->
  grouped f (seen ++ l) (fold_left (fun d v => group_add (f v) v d) l d).
Proof.
  revert seen d. induction l as [| v l IH]; intros seen d Hg; simpl.
  - rewrite app_nil_r. exact Hg.
  - replace (seen ++ v :: l) with ((seen ++ [v]) ++ l)
      by (rewrite <- app_assoc; reflexivity).
    apply IH. destruct Hg as (Hnd & Hperm & Hmem). split; [| split].
    + apply group_add_NoDup, Hnd.
    + rewrite group_add_perm. apply Permutation_app_tail, Hperm.
    + apply group_add_members, Hmem.
Qed.

Lemma grouped_nil : grouped f [] [].
Proof.
  split; [constructor | split; [apply perm_nil | intros ? ? []]].
Qed.
End Grouping.

Lemma fold_left_ext_in {A B} (f g : A -> B -> A) (l : list B) (a : A) :
  (forall a b, In b l -> f a b = g a b) ->
  fold_left f l a = fold_left g l a.
Proof.
  revert a. induction l as [| b l IH]; intros a H; simpl; [reflexivity |].
  rewrite H by (left; reflexivity). apply IH.
  intros a' b' Hin. apply H. right. exact Hin.
Qed.

Lemma Permutation_filter {A} (p : A -> bool) (l l' : list A) :
  Permutation l l' -> Permutation (filter p l) (filter p l').
Proof.
  induction 1 as [| x l l' _ IH | x y l | l l' l'' _ IH1 _ IH2]; simpl.
  - apply perm_nil.
  - destruct (p x); [apply perm_skip |]; exact IH.
  - destruct (p x), (p y); try apply Permutation_refl. apply perm_swap.
  - eapply perm_trans; eassumption.
Qed.

Lemma Permutation_flat_map_app {A B} (f g : A -> list B) (l : list A) :
  Permutation (flat_map f l ++ flat_map g l)
              (flat_map (fun x => f x ++ g x) l).
Proof.
  induction l as [| x l IH]; simpl.
  - apply perm_nil.
  - rewrite <- IH, <- !app_assoc. apply Permutation_app_head.
    rewrite !app_assoc. apply Permutation_app_tail, Permutation_app_comm.
Qed.

Lemma NoDup_app_disjoint {A} (l1 l2 : list A) (a : A) :
  NoDup (l1 ++ l2) -> In a l1 -> ~ In a l2.
Proof.
  induction l1 as [| x l1 IH]; simpl; intros Hnd Hin Hin2; [exact Hin |].
  inversion Hnd as [| ? ? Hnotin Hnd']; subst.
  destruct Hin as [-> | Hin].
  - apply Hnotin, in_or_app. right. exact Hin2.
  - exact (IH Hnd' Hin Hin2).
Qed.

Lemma NoDup_flat_map_each {A B} (G : A -> list B) (l : list A) (x : A) :
  NoDup (flat_map G l) -> In x l -> NoDup (G x).
Proof.
  induction l as [| z l IH]; simpl; intros Hnd Hin; [destruct Hin |].
  destruct Hin as [-> | Hin].
  - eapply NoDup_app_remove_r, Hnd.
  - apply IH; [eapply NoDup_app_remove_l, Hnd | exact Hin].
Qed.

Lemma NoDup_flat_map_unique {A B} (G : A -> list B) (l : list A)
    (a b : A) (x : B) :
  NoDup (flat_map G l) -> In a l -> In b l -> In x (G a) -> In x (G b) ->
  a = b.
Proof.
  induction l as [| z l IH]; simpl; intros Hnd Ha Hb Hxa Hxb;
    [destruct Ha |].
  destruct Ha as [-> | Ha], Hb as [-> | Hb].
  - reflexivity.
  - exfalso. apply (NoDup_app_disjoint _ _ x Hnd Hxa).
    apply in_flat_map. exists b. split; assumption.
  - exfalso. apply (NoDup_app_disjoint _ _ x Hnd Hxb).
    apply in_flat_map. exists a. split; assumption.
  - apply IH; try assumption. eapply NoDup_app_remove_l, Hnd.
Qed.

Lemma NoDup_flat_map_part {A B} (F G : A -> list B) (l : list A) :
  NoDup (flat_map G l) ->
  (forall x, In x l -> NoDup (G x) -> NoDup (F x) /\ incl (F x) (G x)) ->
  NoDup (flat_map F l).
Proof.
  induction l as [| x l IH]; simpl; intros Hnd Hpart.
  - constructor.
  - assert (HG : NoDup (G x)) by (eapply NoDup_app_remove_r, Hnd).
    destruct (Hpart x (or_introl eq_refl) HG) as [HF Hincl].
    apply NoDup_app.
    + exact HF.
    + apply IH; [eapply NoDup_app_remove_l, Hnd |].
      intros y Hy. apply Hpart. right. exact Hy.
    + intros b Hb Hb'. apply in_flat_map in Hb'.
      destruct Hb' as (y & Hy & Hby).
      assert (HGy : NoDup (G y)).
      { apply NoDup_app_remove_l in Hnd.
        exact (NoDup_flat_map_each G l y Hnd Hy). }
      destruct (Hpart y (or_intror Hy) HGy) as [_ Hincl'].
      apply (NoDup_app_disjoint _ _ b Hnd); [apply Hincl, Hb |].
      apply in_flat_map. exists y. split; [exact Hy | apply Hincl', Hby].
Qed.

(** ** The loop over the sector groups *)

Section RoleLoop.
Variable hash : string -> Z.
Variable config : Config.
Variable sector_data : list (string * SectorAnalysis).

Let contribution (g : string * list Stock) : Roles :=
  DragonHeadIdentifier.assign_sector config DragonHeadIdentifier._empty_roles g.

Lemma group_loop_fold (stocks : list Stock)
    (acc groups : list (string * list Stock)) :
  DragonHeadIdentifier.group_loop hash sector_data stocks acc = Ok groups ->
  groups
  = fold_left (fun d s => group_add (sector_name hash sector_data s) s d)
              stocks acc.
Proof.
  revert acc. induction stocks as [| s stocks IH]; intros acc; simpl.
  - intros [= <-]. reflexivity.
  - unfold sector_name at 2.
    destruct (DragonHeadIdentifier._get_stock_sector_from_data hash
                (code s) sector_data) as [sec | e]; simpl;
      [apply IH | discriminate].
Qed.

Lemma group_by_sector_grouped (stocks : list Stock)
    (groups : list (string * list Stock)) :
  DragonHeadIdentifier._group_by_sector hash stocks sector_data = Ok groups ->
  grouped (sector_name hash sector_data) stocks groups.
Proof.
  intros H. apply group_loop_fold in H. subst groups.
  apply (@group_fold_grouped _ (sector_name hash sector_data) stocks [] []).
  apply grouped_nil.
Qed.

Lemma assign_sector_split (r : Roles) (g : string * list Stock) :
  leader (DragonHeadIdentifier.assign_sector config r g)
  = leader r ++ leader (contribution g)
  /\ core (DragonHeadIdentifier.assign_sector config r g)
     = core r ++ core (contribution g)
  /\ catch_up (DragonHeadIdentifier.assign_sector config r g)
     = catch_up r ++ catch_up (contribution g)
  /\ watch (DragonHeadIdentifier.assign_sector config r g)
     = watch r ++ watch (contribution g).
Proof.
  subst contribution. destruct g as [sec ms].
  unfold DragonHeadIdentifier.assign_sector.
  destruct (sector_strength_threshold config <=? Z.of_nat (List.length ms))%Z.
  - destruct (DragonHeadIdentifier._analyze_sector_roles config sec ms)
      as [[l |] [c |] [u |]]; cbn; rewrite ?app_nil_r; auto.
  - cbn. rewrite ?app_nil_r. auto.
Qed.

Lemma fold_assign_split (groups : list (string * list Stock)) (r : Roles) :
  let final := fold_left (DragonHeadIdentifier.assign_sector config) groups r in
  leader final = leader r ++ flat_map (fun g => leader (contribution g)) groups
  /\ core final = core r ++ flat_map (fun g => core (contribution g)) groups
  /\ catch_up final
     = catch_up r ++ flat_map (fun g => catch_up (contribution g)) groups
  /\ watch final = watch r ++ flat_map (fun g => watch (contribution g)) groups.
Proof.
  cbv zeta. revert r. induction groups as [| g groups IH]; intros r; simpl.
  - rewrite !app_nil_r. auto.
  - destruct (IH (DragonHeadIdentifier.assign_sector config r g))
      as (-> & -> & -> & ->).
    destruct (assign_sector_split r g) as (-> & -> & -> & ->).
    rewrite <- !app_assoc. auto.
Qed.

(** The role lists in terms of the sector groups. *)
Lemma identify_roles_groups (stocks : list Stock) (roles : Roles) :
  DragonHeadIdentifier.identify_roles hash config stocks sector_data
  = Ok roles ->
  exists groups,
    DragonHeadIdentifier._group_by_sector hash stocks sector_data = Ok groups
    /\ leader roles
       = sort_desc Qltb get_score
           (flat_map (fun g => leader (contribution g)) groups)
    /\ core roles
       = sort_desc Qltb get_score
           (flat_map (fun g => core (contribution g)) groups)
    /\ catch_up roles
       = sort_desc Qltb get_score
           (flat_map (fun g => catch_up (contribution g)) groups)
    /\ watch roles = flat_map (fun g => watch (contribution g)) groups.
Proof.
  unfold DragonHeadIdentifier.identify_roles.
  destruct stocks as [| s stocks].
  - intros [= <-]. exists []. repeat split; reflexivity.
  - destruct (DragonHeadIdentifier._group_by_sector hash (s :: stocks)
                sector_data) as [groups | e]; simpl; [| discriminate].
    intros [= <-]. exists groups. split; [reflexivity |].
    destruct (fold_assign_split groups DragonHeadIdentifier._empty_roles)
      as (HL & HC & HU & HW).
    cbn [leader core catch_up watch]. rewrite HL, HC, HU, HW.
    repeat split; reflexivity.
Qed.

Lemma contribution_kept (g : string * list Stock) :
  leader (contribution g) ++ core (contribution g)
    ++ catch_up (contribution g) ++ watch (contribution g)
  = kept config g.
Proof.
  subst contribution. destruct g as [sec ms].
  unfold DragonHeadIdentifier.assign_sector, kept, sector_picks.
  cbn [fst snd].
  destruct (sector_strength_threshold config <=? Z.of_nat (List.length ms))%Z.
  - destruct (DragonHeadIdentifier._analyze_sector_roles config sec ms)
      as [[l |] [c |] [u |]]; reflexivity.
  - cbn. reflexivity.
Qed.

Lemma contribution_watch (g : string * list Stock) :
  watch (contribution g)
  = if (sector_strength_threshold config
          <=? Z.of_nat (List.length (snd g)))%Z
    then []
    else map (set_sector (fst g)) (snd g).
Proof.
  subst contribution. destruct g as [sec ms].
  unfold DragonHeadIdentifier.assign_sector. cbn [fst snd].
  destruct (sector_strength_threshold config <=? Z.of_nat (List.length ms))%Z;
    reflexivity.
Qed.

Lemma contribution_leader_core (g : string * list Stock) :
  (sector_strength_threshold config <= Z.of_nat (List.length (snd g)))%Z ->
  leader (contribution g)
  = map (set_sector (fst g))
        (option_list
           (sr_leader (DragonHeadIdentifier._analyze_sector_roles config
                         (fst g) (snd g))))
  /\ core (contribution g)
     = map (set_sector (fst g))
           (option_list
              (sr_core (DragonHeadIdentifier._analyze_sector_roles config
                          (fst g) (snd g)))).
Proof.
  intros Hthr. subst contribution. destruct g as [sec ms].
  unfold DragonHeadIdentifier.assign_sector. cbn [fst snd] in *.
  apply Z.leb_le in Hthr. rewrite Hthr.
  destruct (DragonHeadIdentifier._analyze_sector_roles config sec ms)
    as [[l |] [c |] [u |]]; split; reflexivity.
Qed.

Lemma contribution_sector (g : string * list Stock) (s : Stock) :
  In s (leader (contribution g)) \/ In s (core (contribution g)) ->
  sector s = Some (fst g).
Proof.
  clear hash sector_data.
  subst contribution. destruct g as [sec ms].
  unfold DragonHeadIdentifier.assign_sector. cbn [fst snd].
  destruct (sector_strength_threshold config <=? Z.of_nat (List.length ms))%Z.
  - destruct (DragonHeadIdentifier._analyze_sector_roles config sec ms)
      as [[l |] [c |] [u |]]; cbn;
      intros [H | H];
      repeat match goal with
             | H : _ \/ _ |- _ => destruct H as [H | H]
             | H : False |- _ => destruct H
             end;
      subst; reflexivity.
  - cbn. intros [[] | []].
Qed.

(** All role lists together hold the kept stocks of every group. *)
Lemma roles_kept (stocks : list Stock) (roles : Roles)
    (groups : list (string * list Stock)) :
  DragonHeadIdentifier.identify_roles hash config stocks sector_data
  = Ok roles ->
  DragonHeadIdentifier._group_by_sector hash stocks sector_data = Ok groups ->
  Permutation
    (leader roles ++ core roles ++ catch_up roles ++ watch roles)
    (flat_map (kept config) groups).
Proof.
  intros Hid Hgr. apply identify_roles_groups in Hid.
  destruct Hid as (groups' & Hgr' & -> & -> & -> & ->).
  rewrite Hgr in Hgr'. injection Hgr' as <-.
  rewrite !sort_desc_perm.
  rewrite (flat_map_ext _ _ (fun g => eq_sym (contribution_kept g))).
  rewrite <- !Permutation_flat_map_app. apply Permutation_refl.
Qed.
End RoleLoop.

Lemma filter_all {A} (p : A -> bool) (l : list A) :
  (forall x, In x l -> p x = true) -> filter p l = l.
Proof.
  induction l as [| x l IH]; simpl; intros H; [reflexivity |].
  rewrite (H x (or_introl eq_refl)), IH; [reflexivity |].
  intros y Hy. apply H. right. exact Hy.
Qed.

Lemma filter_none {A} (p : A -> bool) (l : list A) :
  (forall x, In x l -> p x = false) -> filter p l = [].
Proof.
  induction l as [| x l IH]; simpl; intros H; [reflexivity |].
  rewrite (H x (or_introl eq_refl)). apply IH.
  intros y Hy. apply H. right. exact Hy.
Qed.

(** Filtering tagged contributions by the key of one group leaves that
    group's contribution. *)
Lemma filter_sector_flat_map (F : string * list Stock -> list Stock)
    (groups : list (string * list Stock)) (k : string) (ms : list Stock) :
  NoDup (map fst groups) ->
  In (k, ms) groups ->
  (forall g x, In x (F g) -> sector x = Some (fst g)) ->
  filter (in_sector k) (flat_map F groups) = F (k, ms).
Proof.
  intros Hnd Hin Htag.
  assert (Hhit : forall g, fst g = k -> filter (in_sector k) (F g) = F g).
  { intros g Hg. apply filter_all. intros x Hx. unfold in_sector.
    rewrite (Htag g x Hx), Hg. apply String.eqb_refl. }
  assert (Hmiss : forall g, fst g <> k -> filter (in_sector k) (F g) = []).
  { intros g Hg. apply filter_none. intros x Hx. unfold in_sector.
    rewrite (Htag g x Hx). apply String.eqb_neq. exact Hg. }
  induction groups as [| g groups IH]; [destruct Hin |].
  simpl in *. rewrite filter_app.
  inversion Hnd as [| ? ? Hnotin Hnd']; subst.
  destruct Hin as [-> | Hin].
  - rewrite (Hhit (k, ms) eq_refl).
    rewrite filter_none; [apply app_nil_r |].
    intros x Hx. apply in_flat_map in Hx. destruct Hx as (g' & Hg' & Hx).
    unfold in_sector. rewrite (Htag g' x Hx). apply String.eqb_neq.
    intros Heq. apply Hnotin. cbn [fst]. rewrite <- Heq.
    apply in_map. exact Hg'.
  - rewrite Hmiss, (IH Hnd' Hin); [reflexivity |].
    intros Heq. apply Hnotin. rewrite Heq.
    apply (in_map fst _ _ Hin).
Qed.

Lemma max_by_None {A K} (lt : K -> K -> bool) (key : A -> K) (l : list A) :
  max_by lt key l = None -> l = [].
Proof. destruct l; [reflexivity | discriminate]. Qed.

Lemma pick_leader_spec (scored_stocks : list Stock) (dragon : Stock) :
  StronglySorted (fun a b => get_score b <= get_score a) scored_stocks ->
  DragonHeadIdentifier.pick_leader scored_stocks = Some dragon ->
  In dragon scored_stocks
  /\ ((exists s, In s scored_stocks /\ (2 <= get_continuous_days s)%nat) ->
      (2 <= get_continuous_days dragon)%nat
      /\ (forall s, In s scored_stocks -> (2 <= get_continuous_days s)%nat ->
                    get_score s <= get_score dragon))
  /\ ((forall s, In s scored_stocks -> (get_continuous_days s < 2)%nat) ->
      forall s, In s scored_stocks -> get_score s <= get_score dragon).
Proof.
  intros Hsorted. unfold DragonHeadIdentifier.pick_leader.
  destruct (max_by Qltb get_score _) as [d |] eqn:E.
  - intros [= <-]. pose proof (max_by_In _ _ _ E) as Hin.
    apply filter_In in Hin. destruct Hin as [Hin Hcd].
    apply Nat.leb_le in Hcd. split; [exact Hin |]. split.
    + intros _. split; [exact Hcd |]. intros s Hs Hs2.
      eapply max_by_upper; [exact E |].
      apply filter_In. split; [exact Hs | apply Nat.leb_le, Hs2].
    + intros Hall. specialize (Hall d Hin). lia.
  - apply max_by_None in E. intros Hhd.
    destruct scored_stocks as [| s0 l]; [discriminate |].
    injection Hhd as <-. split; [left; reflexivity |]. split.
    + intros (s & Hs & Hs2). exfalso.
      assert (Hf : In s (filter (fun s => 2 <=? get_continuous_days s)
                                (s0 :: l)))
        by (apply filter_In; split; [exact Hs | apply Nat.leb_le, Hs2]).
      rewrite E in Hf. destruct Hf.
    + intros _ s [<- | Hs]; [apply Qle_refl |].
      inversion Hsorted as [| ? ? _ Hall]; subst.
      rewrite Forall_forall in Hall. apply Hall, Hs.
Qed.

(** C10: when the strength threshold is at least 2, every sector group
    that reaches it gets exactly one Leader entry and exactly one Core entry
    in the role lists. The Leader is the best-scored stock among those with
    a streak of at least 2 when there is one, and the best-scored stock of
    the sector otherwise. *)
Theorem one_leader_one_core (hash : string -> Z) (config : Config)
    (stocks : list Stock) (sector_data : list (string * SectorAnalysis))
    (roles : Roles) :
  (2 <= sector_strength_threshold config)%Z ->
  DragonHeadIdentifier.identify_roles hash config stocks sector_data
  = Ok roles ->
  exists groups,
    DragonHeadIdentifier._group_by_sector hash stocks sector_data = Ok groups
    /\ forall sec members,
         In (sec, members) groups ->
         (sector_strength_threshold config
            <= Z.of_nat (List.length members))%Z ->
         let sector_roles :=
           DragonHeadIdentifier._analyze_sector_roles config sec members in
         let scored_stocks := DragonHeadIdentifier.scored config members in
         exists dragon middle_army,
           sr_leader sector_roles = Some dragon
           /\ sr_core sector_roles = Some middle_army
           /\ filter (in_sector sec) (leader roles) = [set_sector sec dragon]
           /\ filter (in_sector sec) (core roles)
              = [set_sector sec middle_army]
           /\ In dragon scored_stocks
           /\ ((exists s, In s scored_stocks
                          /\ (2 <= get_continuous_days s)%nat) ->
               (2 <= get_continuous_days dragon)%nat
               /\ (forall s, In s scored_stocks ->
                             (2 <= get_continuous_days s)%nat ->
                             get_score s <= get_score dragon))
           /\ ((forall s, In s scored_stocks ->
                          (get_continuous_days s < 2)%nat) ->
               forall s, In s scored_stocks ->
                         get_score s <= get_score dragon).
Proof.
  intros Hthr Hid.
  destruct (identify_roles_groups _ _ _ _ Hid)
    as (groups & Hgr & HL & HC & _ & _).
  exists groups. split; [exact Hgr |].
  intros sec members Hin Hlen. cbv zeta.
  destruct (group_by_sector_grouped _ _ _ Hgr) as (Hnd & _ & _).
  assert (Hlen2 : (2 <= List.length members)%nat) by lia.
  destruct (@core_selection config sec members Hlen2)
    as (_ & _ & dragon & m & c & Hd & Hc & _).
  exists dragon, c. split; [exact Hd |]. split; [exact Hc |].
  destruct (@contribution_leader_core config (sec, members) Hlen)
    as [HcL HcC].
  cbn [fst snd] in HcL, HcC. rewrite Hd in HcL. rewrite Hc in HcC.
  split; [| split].
  - apply Permutation_length_1_inv. rewrite HL.
    rewrite (Permutation_filter _ (sort_desc_perm _ _ _)).
    rewrite (@filter_sector_flat_map _ groups sec members Hnd Hin).
    + rewrite HcL. apply Permutation_refl.
    + intros g x Hx. apply (@contribution_sector config g x). left. exact Hx.
  - apply Permutation_length_1_inv. rewrite HC.
    rewrite (Permutation_filter _ (sort_desc_perm _ _ _)).
    rewrite (@filter_sector_flat_map _ groups sec members Hnd Hin).
    + rewrite HcC. apply Permutation_refl.
    + intros g x Hx. apply (@contribution_sector config g x). right. exact Hx.
  - apply pick_leader_spec; [apply scored_sorted |].
    unfold DragonHeadIdentifier._analyze_sector_roles in Hd.
    replace (List.length members <? 2) with false in Hd
      by (symmetry; apply Nat.ltb_ge; lia).
    exact Hd.
Qed.

(** ** The role sets *)

Lemma map_flat_map {A B C} (f : B -> C) (g : A -> list B) (l : list A) :
  map f (flat_map g l) = flat_map (fun x => map f (g x)) l.
Proof.
  induction l as [| x l IH]; simpl; [reflexivity |].
  rewrite map_app, IH. reflexivity.
Qed.

Lemma map_code_set_sector (sec : string) (l : list Stock) :
  map code (map (set_sector sec) l) = map code l.
Proof. rewrite map_map. apply map_ext. reflexivity. Qed.

Lemma incl_flat_map {A B} (F G : A -> list B) (l : list A) :
  (forall x, In x l -> incl (F x) (G x)) ->
  incl (flat_map F l) (flat_map G l).
Proof.
  intros H b Hb. apply in_flat_map in Hb. destruct Hb as (x & Hx & Hb).
  apply in_flat_map. exists x. split; [exact Hx | apply (H x Hx), Hb].
Qed.

Section Picks.
Variable config : Config.

Lemma pick_catch_up_spec (dragon middle_army fill_up : Stock)
    (scored_stocks : list Stock) :
  DragonHeadIdentifier.pick_catch_up (Some dragon) (Some middle_army)
    scored_stocks = Some fill_up ->
  In fill_up scored_stocks
  /\ code fill_up <> code dragon
  /\ code fill_up <> code middle_army.
Proof.
  unfold DragonHeadIdentifier.pick_catch_up.
  destruct (2 <? List.length scored_stocks); [| discriminate].
  set (low := filter _ scored_stocks).
  set (candidates := match low with [] => _ | _ => low end).
  destruct (max_by flt DragonHeadIdentifier.get_trend_strength candidates)
    as [u |] eqn:Eu; [| discriminate].
  destruct (negb (DragonHeadIdentifier.same_code u dragon)
            && negb (DragonHeadIdentifier.same_code u middle_army)) eqn:Eneq;
    [| discriminate].
  intros [= <-]. apply andb_true_iff in Eneq. destruct Eneq as [E1 E2].
  apply negb_true_iff, same_code_false in E1.
  apply negb_true_iff, same_code_false in E2.
  split; [| split; assumption].
  apply max_by_In in Eu. subst candidates. destruct low as [| x low'] eqn:El.
  - apply filter_In in Eu. destruct Eu as [Eu _].
    unfold tail in Eu. apply In_skipn in Eu. exact Eu.
  - rewrite <- El in Eu. subst low. apply filter_In in Eu. tauto.
Qed.

Lemma scored_origin (stocks : list Stock) (x : Stock) :
  In x (DragonHeadIdentifier.scored config stocks) ->
  exists s, In s stocks
            /\ x = set_score
                     (DragonHeadIdentifier._calculate_dragon_score config s) s.
Proof.
  intros Hin.
  apply (Permutation_in _ (scored_perm config stocks)) in Hin.
  apply in_map_iff in Hin. destruct Hin as (s & <- & Hs).
  exists s. split; [exact Hs | reflexivity].
Qed.

Lemma pick_leader_In (scored_stocks : list Stock) (dragon : Stock) :
  DragonHeadIdentifier.pick_leader scored_stocks = Some dragon ->
  In dragon scored_stocks.
Proof.
  unfold DragonHeadIdentifier.pick_leader.
  destruct (max_by Qltb get_score _) as [d |] eqn:E.
  - intros [= <-]. apply max_by_In, filter_In in E. tauto.
  - destruct scored_stocks; [discriminate |].
    intros [= <-]. left. reflexivity.
Qed.

Lemma pick_core_In (the_leader : option Stock) (scored_stocks : list Stock)
    (middle_army : Stock) :
  DragonHeadIdentifier.pick_core the_leader scored_stocks = Some middle_army ->
  In middle_army scored_stocks.
Proof.
  unfold DragonHeadIdentifier.pick_core.
  destruct (1 <? List.length scored_stocks); [| discriminate].
  destruct (max_by Qltb amount (firstn _ scored_stocks)) as [m |] eqn:Em;
    [| destruct the_leader; discriminate].
  assert (Hm : In m scored_stocks)
    by (eapply In_firstn, max_by_In, Em).
  destruct the_leader as [dragon |]; [| intros [= <-]; exact Hm].
  destruct (DragonHeadIdentifier.same_code dragon m);
    [| intros [= <-]; exact Hm].
  destruct (2 <? List.length scored_stocks); [| intros [= <-]; exact Hm].
  destruct (max_by Qltb amount (filter _ (slice 1 3 scored_stocks)))
    as [c |] eqn:Ec; intros [= <-]; [| exact Hm].
  apply max_by_In, filter_In in Ec. destruct Ec as [Ec _].
  unfold slice in Ec. eapply In_skipn, In_firstn, Ec.
Qed.

Lemma pick_catch_up_In (the_leader the_core : option Stock)
    (scored_stocks : list Stock) (fill_up : Stock) :
  DragonHeadIdentifier.pick_catch_up the_leader the_core scored_stocks
  = Some fill_up ->
  In fill_up scored_stocks.
Proof.
  unfold DragonHeadIdentifier.pick_catch_up.
  destruct (2 <? List.length scored_stocks); [| discriminate].
  match goal with
  | |- context [max_by flt DragonHeadIdentifier.get_trend_strength ?c] =>
      set (candidates := c)
  end.
  assert (Hsub : forall x, In x candidates -> In x scored_stocks).
  { subst candidates. intros x.
    destruct (filter _ scored_stocks) as [| y rest] eqn:E.
    - intros Hx. apply filter_In in Hx. destruct Hx as [Hx _].
      unfold tail in Hx. eapply In_skipn, Hx.
    - rewrite <- E. intros Hx. apply filter_In in Hx. tauto. }
  destruct (max_by flt DragonHeadIdentifier.get_trend_strength candidates)
    as [u |] eqn:Eu; [| discriminate].
  destruct the_leader as [dragon |]; [| discriminate].
  destruct the_core as [middle |]; [| discriminate].
  destruct (negb _ && negb _); [| discriminate].
  intros [= <-]. apply Hsub. eapply max_by_In, Eu.
Qed.

Lemma sector_role_scored (sec : string) (ms : list Stock) (p : Stock) :
  let sector_roles :=
    DragonHeadIdentifier._analyze_sector_roles config sec ms in
  sr_leader sector_roles = Some p \/ sr_core sector_roles = Some p
  \/ sr_catch_up sector_roles = Some p ->
  In p (DragonHeadIdentifier.scored config ms).
Proof.
  cbv zeta. unfold DragonHeadIdentifier._analyze_sector_roles.
  destruct (List.length ms <? 2).
  - cbn. intros [H | [H | H]]; discriminate.
  - cbn [sr_leader sr_core sr_catch_up]. intros [H | [H | H]].
    + eapply pick_leader_In, H.
    + eapply pick_core_In, H.
    + eapply pick_catch_up_In, H.
Qed.

(** The codes of the stocks kept for a group are codes of the group. *)
Lemma kept_incl (g : string * list Stock) :
  incl (map code (kept config g)) (map code (snd g)).
Proof.
  unfold kept. rewrite map_code_set_sector.
  destruct (sector_strength_threshold config
              <=? Z.of_nat (List.length (snd g)))%Z; [| apply incl_refl].
  intros c Hc. apply in_map_iff in Hc. destruct Hc as (p & <- & Hp).
  assert (Hs : In p (DragonHeadIdentifier.scored config (snd g))).
  { apply (@sector_role_scored (fst g) (snd g) p).
    unfold sector_picks in Hp. rewrite !in_app_iff in Hp.
    destruct Hp as [Hp | [Hp | Hp]];
      [left | right; left | right; right];
      destruct (_ (DragonHeadIdentifier._analyze_sector_roles config
                     (fst g) (snd g))) as [x |];
      cbn in Hp; try (destruct Hp; fail);
      destruct Hp as [<- | Hp]; try (destruct Hp; fail); reflexivity. }
  apply scored_origin in Hs. destruct Hs as (s0 & Hs0 & ->).
  cbn [code set_score]. apply in_map. exact Hs0.
Qed.

(** In a sector of at least three stocks with distinct codes the picks are
    distinct stocks of the sector. *)
Lemma sector_picks_distinct (sec : string) (members : list Stock) :
  NoDup (map code members) ->
  (3 <= List.length members)%nat ->
  NoDup (map code (sector_picks config sec members))
  /\ incl (map code (sector_picks config sec members)) (map code members).
Proof.
  intros Hnd Hlen.
  destruct (@core_selection config sec members ltac:(lia))
    as (Hsorted & Hperm & dragon & m & c & Hd & Hc & Hm & _ & Hctop
        & Hdiff & Hsame).
  cbv zeta in *.
  set (scored_stocks := DragonHeadIdentifier.scored config members) in *.
  assert (Hsl : List.length scored_stocks = List.length members)
    by apply scored_length.
  assert (Hnds : NoDup (map code scored_stocks))
    by (eapply Permutation_NoDup; [symmetry; exact Hperm | exact Hnd]).
  assert (Hdin : In dragon scored_stocks).
  { unfold DragonHeadIdentifier._analyze_sector_roles in Hd.
    replace (List.length members <? 2) with false in Hd
      by (symmetry; apply Nat.ltb_ge; lia).
    cbn [sr_leader] in Hd. fold scored_stocks in Hd.
    apply (pick_leader_spec Hsorted Hd). }
  assert (Hcin : In c scored_stocks) by (eapply In_firstn, Hctop).
  assert (Hcd : code c <> code dragon).
  { destruct (string_dec (code m) (code dragon)) as [Hcode | Hcode];
      [| rewrite (Hdiff Hcode); exact Hcode].
    destruct (Hsame Hcode) as [Hretry _].
    apply Hretry; [lia |].
    destruct scored_stocks as [| s0 [| s1 [| s2 rest]]];
      simpl in Hsl; try lia.
    cbn. destruct (DragonHeadIdentifier.same_code s1 dragon) eqn:E1;
      cbn; [| discriminate].
    destruct (DragonHeadIdentifier.same_code s2 dragon) eqn:E2;
      cbn; [| discriminate].
    apply same_code_true in E1, E2. exfalso.
    cbn in Hnds. inversion Hnds as [| ? ? _ Hnds1]; subst.
    inversion Hnds1 as [| ? ? Hnotin _]; subst.
    apply Hnotin. left. congruence. }
  assert (Hcodes : forall s, In s scored_stocks -> In (code s) (map code members)).
  { intros s Hs. eapply Permutation_in; [exact Hperm |].
    apply in_map. exact Hs. }
  unfold sector_picks. rewrite Hd, Hc. cbn [option_list].
  destruct (sr_catch_up _) as [u |] eqn:Eu; cbn [option_list app map].
  - unfold DragonHeadIdentifier._analyze_sector_roles in Eu, Hd, Hc.
    replace (List.length members <? 2) with false in Eu, Hd, Hc
      by (symmetry; apply Nat.ltb_ge; lia).
    cbn [sr_leader sr_core sr_catch_up] in Eu, Hd, Hc.
    rewrite Hd in Eu, Hc. rewrite Hc in Eu.
    apply pick_catch_up_spec in Eu. destruct Eu as (Huin & Hud & Huc).
    split.
    + repeat constructor; simpl; intuition congruence.
    + intros x [<- | [<- | [<- | []]]]; auto.
  - split.
    + repeat constructor; simpl; intuition congruence.
    + intros x [<- | [<- | []]]; auto.
Qed.

Lemma kept_codes (g : string * list Stock) :
  (3 <= sector_strength_threshold config)%Z ->
  NoDup (map code (snd g)) ->
  NoDup (map code (kept config g))
  /\ incl (map code (kept config g)) (map code (snd g)).
Proof.
  intros Hthr Hnd. unfold kept. rewrite map_code_set_sector.
  destruct (sector_strength_threshold config
              <=? Z.of_nat (List.length (snd g)))%Z eqn:E.
  - apply Z.leb_le in E. apply sector_picks_distinct; [exact Hnd | lia].
  - split; [exact Hnd | apply incl_refl].
Qed.
End Picks.

(** C1, the counterexample: in a run on three stocks that fall in one
    sector, which meets the strength threshold of 3, 600001 becomes the
    Leader, 600004 the Core, and 600011 is in none of the four role
    lists. *)
Lemma unchosen_stock_in_no_role :
  exists roles,
    DragonHeadIdentifier.identify_roles Samples.hash_seed1
      Samples.default_config
      (stocks (LimitUpAnalyzer.analyze_limit_up Samples.default_config
                 Samples.roster3 []))
      (SectorAnalyzer.analyze_sectors Samples.hash_seed1 Samples.roster3 [])
    = Ok roles
    /\ In "600011"%string
          (map code
             (stocks (LimitUpAnalyzer.analyze_limit_up Samples.default_config
                        Samples.roster3 [])))
    /\ map code (leader roles) = ["600001"%string]
    /\ map code (core roles) = ["600004"%string]
    /\ catch_up roles = []
    /\ watch roles = [].
Proof.
  eexists. split; [vm_compute; reflexivity |].
  repeat split; vm_compute; auto.
Qed.

(** C1 (amended): in every run that returns, the role identifier groups the
    input stocks by sector, every stock in exactly one group. The four role
    lists together hold, for each group below the strength threshold, all of
    its stocks, in Watch, and for each group that meets it only the stocks
    picked as its Leader, Core and Catch-up; the other stocks of such a
    group are in no role list. Every stock in a role list is an input
    stock, and Watch holds exactly the stocks of the groups below the
    threshold. When, besides, the codes of the input are distinct and the
    threshold is at least 3, no stock is in two role lists or twice in
    one. *)
Theorem role_sets_of_groups (hash : string -> Z) (config : Config)
    (stocks : list Stock) (sector_data : list (string * SectorAnalysis))
    (roles : Roles) :
  DragonHeadIdentifier.identify_roles hash config stocks sector_data
  = Ok roles ->
  let everyone :=
    leader roles ++ core roles ++ catch_up roles ++ watch roles in
  exists groups,
    DragonHeadIdentifier._group_by_sector hash stocks sector_data = Ok groups
    /\ NoDup (map fst groups)
    /\ Permutation (flat_map snd groups) stocks
    /\ Permutation everyone (flat_map (kept config) groups)
    /\ incl (map code everyone) (map code stocks)
    /\ (forall s,
          In s (watch roles)
          <-> exists sec members s0,
                In (sec, members) groups
                /\ (Z.of_nat (List.length members)
                      < sector_strength_threshold config)%Z
                /\ In s0 members
                /\ s = set_sector sec s0)
    /\ (forall sec members s0,
          In (sec, members) groups ->
          (sector_strength_threshold config
             <= Z.of_nat (List.length members))%Z ->
          In s0 members ->
          In (code s0) (map code everyone) ->
          In (code s0) (map code (sector_picks config sec members)))
    /\ (NoDup (map code stocks) ->
        (3 <= sector_strength_threshold config)%Z ->
        NoDup (map code everyone)).
Proof.
  intros Hid. cbv zeta.
  destruct (identify_roles_groups _ _ _ _ Hid)
    as (groups & Hgr & _ & _ & _ & HW).
  exists groups. split; [exact Hgr |].
  destruct (group_by_sector_grouped _ _ _ Hgr) as (Hkeys & Hperm & Hmem).
  pose proof (roles_kept _ _ _ _ Hid Hgr) as Hkept.
  split; [exact Hkeys |]. split; [exact Hperm |]. split; [exact Hkept |].
  split; [| split; [| split]].
  - intros x Hx.
    apply (Permutation_in _ (Permutation_map code Hkept)) in Hx.
    rewrite map_flat_map in Hx.
    apply (Permutation_in _ (Permutation_map code Hperm)).
    rewrite map_flat_map. revert x Hx. apply incl_flat_map.
    intros g Hg. apply kept_incl.
  - intros s. rewrite HW, in_flat_map. split.
    + intros ([sec members] & Hg & Hs).
      rewrite contribution_watch in Hs. cbn [fst snd] in Hs.
      destruct (sector_strength_threshold config
                  <=? Z.of_nat (List.length members))%Z eqn:E;
        [destruct Hs |].
      apply Z.leb_gt in E. apply in_map_iff in Hs.
      destruct Hs as (s0 & <- & Hs0). exists sec, members, s0. auto.
    + intros (sec & members & s0 & Hg & Hlt & Hs0 & ->).
      exists (sec, members). split; [exact Hg |].
      rewrite contribution_watch. cbn [fst snd].
      replace (sector_strength_threshold config
                 <=? Z.of_nat (List.length members))%Z with false
        by (symmetry; apply Z.leb_gt; exact Hlt).
      apply in_map. exact Hs0.
  - intros sec members s0 Hg Hlen Hs0 Hin.
    apply (Permutation_in _ (Permutation_map code Hkept)) in Hin.
    rewrite map_flat_map in Hin. apply in_flat_map in Hin.
    destruct Hin as ([sec' members'] & Hg' & Hin).
    pose proof (@kept_incl config (sec', members') _ Hin) as Hsub.
    cbn [snd] in Hsub. apply in_map_iff in Hsub.
    destruct Hsub as (s1 & Hcode & Hs1).
    assert (Hsec : sec' = sec).
    { destruct (Hmem sec' members' Hg') as [_ H1].
      destruct (Hmem sec members Hg) as [_ H0].
      rewrite Forall_forall in H1, H0.
      rewrite <- (H1 s1 Hs1), <- (H0 s0 Hs0).
      unfold sector_name. rewrite Hcode. reflexivity. }
    subst sec'.
    assert (Hsame : members' = members).
    { clear - Hkeys Hg Hg'. induction groups as [| [k vs] gs IH];
        [destruct Hg |].
      cbn [map fst] in Hkeys.
      inversion Hkeys as [| ? ? Hnotin Hrest]; subst.
      destruct Hg as [Hg | Hg], Hg' as [Hg' | Hg'].
      - congruence.
      - exfalso. apply Hnotin. injection Hg as -> _.
        apply (in_map fst _ _ Hg').
      - exfalso. apply Hnotin. injection Hg' as -> _.
        apply (in_map fst _ _ Hg).
      - apply IH; assumption. }
    subst members'. unfold kept in Hin. cbn [fst snd] in Hin.
    rewrite map_code_set_sector in Hin.
    apply Z.leb_le in Hlen. rewrite Hlen in Hin. exact Hin.
  - intros Hnd Hthr.
    assert (Hgcodes : NoDup (flat_map (fun g => map code (snd g)) groups)).
    { rewrite <- map_flat_map.
      eapply Permutation_NoDup; [| exact Hnd].
      apply Permutation_map. symmetry. exact Hperm. }
    eapply Permutation_NoDup.
    + apply Permutation_map. symmetry. exact Hkept.
    + rewrite map_flat_map.
      apply (NoDup_flat_map_part _ _ _ Hgcodes).
      intros g _ Hg. apply kept_codes; assumption.
Qed.

(** ** Runs with different hash values *)

Section TwoRuns.
Variables hash1 hash2 : string -> Z.
Variable config : Config.
Variable limit_up_df : list LimitUpRecord.
Variable historical_data : list (string * DataFrame).

(** The two runs hash every code of the roster to the same value. *)
Hypothesis same_hash :
  forall row, In row limit_up_df -> hash1 (r_code row) = hash2 (r_code row).

Lemma analyze_sectors_same_hash :
  SectorAnalyzer.analyze_sectors hash1 limit_up_df historical_data
  = SectorAnalyzer.analyze_sectors hash2 limit_up_df historical_data.
Proof.
  unfold SectorAnalyzer.analyze_sectors.
  destruct limit_up_df as [| row rest] eqn:Edf; [reflexivity |].
  rewrite <- Edf in *.
  replace (SectorAnalyzer._group_stocks_by_sector hash2 limit_up_df)
    with (SectorAnalyzer._group_stocks_by_sector hash1 limit_up_df);
    [reflexivity |].
  unfold SectorAnalyzer._group_stocks_by_sector.
  apply fold_left_ext_in. intros d r Hr.
  unfold SectorAnalyzer._assign_stock_sector.
  rewrite (same_hash r Hr). reflexivity.
Qed.

Lemma group_loop_same_hash
    (sector_data : list (string * SectorAnalysis)) (stocks : list Stock)
    (acc : list (string * list Stock)) :
  (forall s, In s stocks -> hash1 (code s) = hash2 (code s)) ->
  DragonHeadIdentifier.group_loop hash1 sector_data stocks acc
  = DragonHeadIdentifier.group_loop hash2 sector_data stocks acc.
Proof.
  revert acc. induction stocks as [| s stocks IH]; intros acc Hs; simpl;
    [reflexivity |].
  assert (Hsec :
            DragonHeadIdentifier._get_stock_sector_from_data hash1 (code s)
              sector_data
            = DragonHeadIdentifier._get_stock_sector_from_data hash2 (code s)
                sector_data).
  { unfold DragonHeadIdentifier._get_stock_sector_from_data,
      DragonHeadIdentifier._get_stock_sector.
    rewrite (Hs s (or_introl eq_refl)). reflexivity. }
  rewrite Hsec.
  destruct (DragonHeadIdentifier._get_stock_sector_from_data hash2 (code s)
              sector_data); simpl; [| reflexivity].
  apply IH. intros s' Hs'. apply Hs. right. exact Hs'.
Qed.

Lemma analysed_codes (s : Stock) :
  In s (stocks (LimitUpAnalyzer.analyze_limit_up config limit_up_df
                  historical_data)) ->
  exists row, In row limit_up_df /\ code s = r_code row.
Proof.
  destruct (analysis_stocks config historical_data limit_up_df) as [Hst _].
  cbv zeta in Hst. rewrite Hst, map_map. intros Hin.
  apply in_map_iff in Hin. destruct Hin as (row & <- & Hrow).
  exists row. split; [exact Hrow |].
  apply (mark_analysed config historical_data row).
Qed.

Lemma identify_roles_same_hash :
  let analysis :=
    LimitUpAnalyzer.analyze_limit_up config limit_up_df historical_data in
  DragonHeadIdentifier.identify_roles hash1 config (stocks analysis)
    (SectorAnalyzer.analyze_sectors hash1 limit_up_df historical_data)
  = DragonHeadIdentifier.identify_roles hash2 config (stocks analysis)
      (SectorAnalyzer.analyze_sectors hash2 limit_up_df historical_data).
Proof.
  cbv zeta. rewrite <- analyze_sectors_same_hash.
  unfold DragonHeadIdentifier.identify_roles,
    DragonHeadIdentifier._group_by_sector.
  rewrite group_loop_same_hash; [reflexivity |].
  intros s Hs. apply analysed_codes in Hs. destruct Hs as (row & Hrow & ->).
  apply same_hash, Hrow.
Qed.

(** C3 (amended): the pipeline is deterministic relative to the string hash
    of the interpreter. Two runs on the same roster, history and
    configuration whose [hash] gives the same value on every code of the
    roster assign the same roles and sector names and produce the same
    report content, whatever their timestamps. *)
Theorem same_hash_same_report (now1 now2 : string) :
  let analysis :=
    LimitUpAnalyzer.analyze_limit_up config limit_up_df historical_data in
  DragonHeadIdentifier.identify_roles hash1 config (stocks analysis)
    (SectorAnalyzer.analyze_sectors hash1 limit_up_df historical_data)
  = DragonHeadIdentifier.identify_roles hash2 config (stocks analysis)
      (SectorAnalyzer.analyze_sectors hash2 limit_up_df historical_data)
  /\ Main.run_content hash1 config now1 limit_up_df historical_data
     = Main.run_content hash2 config now2 limit_up_df historical_data.
Proof.
  cbv zeta. split; [exact identify_roles_same_hash |].
  unfold Main.run_content, Main.pipeline.
  rewrite identify_roles_same_hash.
  destruct (DragonHeadIdentifier.identify_roles hash2 config _ _);
    reflexivity.
Qed.
End TwoRuns.

(** C3, the counterexample: the same roster, history and configuration in
    two interpreter runs, one with the hash values of [PYTHONHASHSEED=1] and
    one with those of [PYTHONHASHSEED=2]. The first run puts the three
    stocks in the sector "新能源", reports it as a theme and gives three
    stock strategies; the second puts them in "基建" and "保险" and reports
    no theme and no stock strategy. *)
Lemma two_runs_two_reports :
  exists report1 report2,
    Main.pipeline Samples.hash_seed1 Samples.default_config ""
      Samples.roster3 Samples.history3 = Ok report1
    /\ Main.pipeline Samples.hash_seed2 Samples.default_config ""
         Samples.roster3 Samples.history3 = Ok report2
    /\ Main.content report1 <> Main.content report2
    /\ map th_sector (themes report1) = ["新能源"%string]
    /\ List.length (stock_strategies report1) = 3%nat
    /\ themes report2 = []
    /\ stock_strategies report2 = []
    /\ map (sector_name Samples.hash_seed1
              (SectorAnalyzer.analyze_sectors Samples.hash_seed1
                 Samples.roster3 Samples.history3))
           (stocks Samples.analysis3)
       = ["新能源"; "新能源"; "新能源"]%string
    /\ map (sector_name Samples.hash_seed2
              (SectorAnalyzer.analyze_sectors Samples.hash_seed2
                 Samples.roster3 Samples.history3))
           (stocks Samples.analysis3)
       = ["基建"; "保险"; "基建"]%string.
Proof.
  eexists. eexists.
  split; [vm_compute; reflexivity |].
  split; [vm_compute; reflexivity |].
  split; [vm_compute; intros H; discriminate H |].
  repeat split; vm_compute; reflexivity.
Qed.

(** ** The theorems at the sample inputs *)

(** The Core of the sample sector is among its first five scored stocks. *)
Lemma core_selection_witness :
  exists the_core,
    sr_core (DragonHeadIdentifier._analyze_sector_roles
               Samples.default_config "新能源" (stocks Samples.analysis3))
    = Some the_core
    /\ In the_core
         (firstn 5 (DragonHeadIdentifier.scored Samples.default_config
                      (stocks Samples.analysis3))).
Proof.
  destruct (@core_selection Samples.default_config "新能源"%string
              (stocks Samples.analysis3))
    as (_ & _ & dragon & m & c & _ & Hc & _ & _ & Hin & _).
  - vm_compute. repeat constructor.
  - exists c. split; [exact Hc | exact Hin].
Defined.

(** The sample run at the default threshold. *)
Lemma one_leader_one_core_witness :
  exists groups,
    DragonHeadIdentifier._group_by_sector Samples.hash_seed1
      (stocks Samples.analysis3)
      (SectorAnalyzer.analyze_sectors Samples.hash_seed1 Samples.roster3
         Samples.history3)
    = Ok groups.
Proof.
  destruct (@one_leader_one_core Samples.hash_seed1 Samples.default_config
              (stocks Samples.analysis3)
              (SectorAnalyzer.analyze_sectors Samples.hash_seed1
                 Samples.roster3 Samples.history3)
              Samples.roles3)
    as (groups & Hgr & _).
  - vm_compute. intros H. discriminate H.
  - vm_compute. reflexivity.
  - exists groups. exact Hgr.
Defined.

(** No stock of the sample run is in two role lists. *)
Lemma role_sets_of_groups_witness :
  NoDup (map code (leader Samples.roles3 ++ core Samples.roles3
                     ++ catch_up Samples.roles3 ++ watch Samples.roles3)).
Proof.
  destruct (@role_sets_of_groups Samples.hash_seed1 Samples.default_config
              (stocks Samples.analysis3)
              (SectorAnalyzer.analyze_sectors Samples.hash_seed1
                 Samples.roster3 Samples.history3)
              Samples.roles3)
    as (groups & _ & _ & _ & _ & _ & _ & _ & Hnd).
  - vm_compute. reflexivity.
  - apply Hnd.
    + vm_compute. repeat constructor; simpl; intuition discriminate.
    + vm_compute. intros H. discriminate H.
Defined.

(** Two runs at different times whose hash values agree on the roster. *)
Lemma same_hash_same_report_witness :
  Main.run_content Samples.hash_seed1 Samples.default_config
    "2024-01-02 15:30:00" Samples.roster3 Samples.history3
  = Main.run_content Samples.hash_seed1_elsewhere Samples.default_config
      "2024-01-02 18:00:00" Samples.roster3 Samples.history3.
Proof.
  apply (@same_hash_same_report Samples.hash_seed1
           Samples.hash_seed1_elsewhere Samples.default_config
           Samples.roster3 Samples.history3).
  intros row [<- | [<- | [<- | []]]]; vm_compute; reflexivity.
Defined.

(** * Further properties of the analyzers *)

(** ** Rational comparisons and rounding *)

Lemma Qeqb_eq (a b : Q) : Qeqb a b = true <-> a == b.
Proof. unfold Qeqb, Qeq. apply Z.eqb_eq. Qed.

Lemma Qeqb_neq (a b : Q) : Qeqb a b = false <-> ~ a == b.
Proof. unfold Qeqb, Qeq. apply Z.eqb_neq. Qed.

Lemma Qleb_le (a b : Q) : Qleb a b = true <-> a <= b.
Proof. unfold Qleb, Qle. apply Z.leb_le. Qed.

Lemma round_half_even_ge (x : Q) (n : Z) :
  inject_Z n <= x -> (n <= round_half_even x)%Z.
Proof.
  intros Hx. unfold round_half_even.
  assert (Hn : (n * Zpos (Qden x) <= Qnum x)%Z)
    by (unfold Qle in Hx; simpl in Hx; lia).
  assert (Hf : (n <= Qnum x / Zpos (Qden x))%Z)
    by (apply Z.div_le_lower_bound; lia).
  destruct (2 * (Qnum x mod Zpos (Qden x)) ?= Zpos (Qden x))%Z;
    try destruct (Z.even _); lia.
Qed.

Lemma round1_bounds (x : Q) : 0 <= x -> x <= 100 -> 0 <= round1 x <= 100.
Proof.
  intros H0 H100. unfold round1.
  assert (Hlo : (0 <= round_half_even (x * 10))%Z).
  { apply round_half_even_nonneg. nra. }
  assert (Hhi : (round_half_even (x * 10) <= 1000)%Z).
  { apply round_half_even_le. change (inject_Z 1000) with 1000. nra. }
  rewrite Qred_correct. unfold Qle; simpl. lia.
Qed.

(** ** The relative-strength index *)

Section RelativeStrength.
Import TechnicalIndicators.

Lemma np_diff_length (l : list pyfloat) :
  List.length (np_diff l) = (List.length l - 1)%nat.
Proof.
  induction l as [| a [| b l] IH]; try reflexivity.
  change (np_diff (a :: b :: l)) with (fsub b a :: np_diff (b :: l)).
  simpl List.length in *. rewrite IH. lia.
Qed.

Lemma sum_nonneg (l : list pyfloat) (acc : Q) :
  0 <= acc -> Forall nonneg_fin l ->
  exists s, fold_left fadd l (Fin acc) = Fin s /\ 0 <= s.
Proof.
  revert acc. induction l as [| a l IH]; intros acc Hacc Hall; simpl.
  - exists acc. split; [reflexivity | exact Hacc].
  - inversion Hall as [| ? ? Ha Hl]; subst.
    destruct a as [| x]; [destruct Ha |]. simpl in Ha.
    apply IH; [| exact Hl]. nra.
Qed.

Lemma np_mean_nonneg (l : list pyfloat) :
  l <> [] -> Forall nonneg_fin l ->
  exists m, np_mean l = Fin m /\ 0 <= m.
Proof.
  intros Hne Hall. destruct (@sum_nonneg l 0 (Qle_refl 0) Hall) as (s & Hs & Hs0).
  unfold np_mean. destruct l as [| a l]; [congruence |].
  rewrite Hs. cbn [fdiv fop].
  eexists. split; [reflexivity |].
  apply Qle_shift_div_l.
  - change 0 with (inject_Z 0). rewrite <- Zlt_Qlt. simpl List.length. lia.
  - nra.
Qed.

Lemma gain_nonneg (deltas : list pyfloat) :
  Forall nonneg_fin
    (map (fun d => if fgt d (Fin 0) then d else Fin 0) deltas).
Proof.
  apply Forall_forall. intros a Ha. apply in_map_iff in Ha.
  destruct Ha as (d & <- & _).
  destruct (fgt d (Fin 0)) eqn:E; [| apply Qle_refl].
  destruct d as [| x]; [discriminate |].
  apply Qltb_lt in E. apply Qlt_le_weak, E.
Qed.

Lemma loss_nonneg (deltas : list pyfloat) :
  Forall nonneg_fin
    (map (fun d => if flt d (Fin 0) then fsub (Fin 0) d else Fin 0) deltas).
Proof.
  apply Forall_forall. intros a Ha. apply in_map_iff in Ha.
  destruct Ha as (d & <- & _).
  destruct (flt d (Fin 0)) eqn:E; [| apply Qle_refl].
  destruct d as [| x]; [discriminate |].
  apply Qltb_lt in E. simpl. nra.
Qed.

Lemma Forall_firstn {A} (P : A -> Prop) (n : nat) (l : list A) :
  Forall P l -> Forall P (firstn n l).
Proof.
  intros H. apply Forall_forall. intros x Hx.
  rewrite Forall_forall in H. apply H. eapply In_firstn, Hx.
Qed.

(** X1: for a positive period the relative-strength index is a number
    between 0 and 100, whatever the prices, NaN among them; it is 50 when
    there are no more prices than the period. *)
Theorem rsi_within_bounds (prices : list pyfloat) (period : nat) :
  (1 <= period)%nat ->
  (exists r, _calculate_rsi prices period = Fin r /\ 0 <= r <= 100)
  /\ ((List.length prices <= period)%nat ->
      _calculate_rsi prices period = Fin 50).
Proof.
  intros Hp. unfold _calculate_rsi.
  destruct (List.length prices <? period + 1) eqn:Elen.
  - split; [| reflexivity]. exists 50. split; [reflexivity |].
    split; discriminate.
  - apply Nat.ltb_ge in Elen. split; [| intros; lia].
    set (deltas := np_diff prices).
    assert (Hd : (period <= List.length deltas)%nat)
      by (subst deltas; rewrite np_diff_length; lia).
    set (gain := map (fun d => if fgt d (Fin 0) then d else Fin 0) deltas).
    set (loss :=
           map (fun d => if flt d (Fin 0) then fsub (Fin 0) d else Fin 0)
               deltas).
    assert (Hne : forall l : list pyfloat,
               List.length l = List.length deltas -> firstn period l <> []).
    { intros l Hl Hnil.
      apply (f_equal (@List.length _)) in Hnil.
      rewrite length_firstn in Hnil. simpl in Hnil. lia. }
    destruct (@np_mean_nonneg (firstn period gain)) as (g & Hg & Hg0).
    { apply Hne. subst gain. apply length_map. }
    { apply Forall_firstn, gain_nonneg. }
    destruct (@np_mean_nonneg (firstn period loss)) as (l & Hl & Hl0).
    { apply Hne. subst loss. apply length_map. }
    { apply Forall_firstn, loss_nonneg. }
    rewrite Hg, Hl. cbn [feq fcmp].
    destruct (Qeqb l 0) eqn:El.
    + exists 100. split; [reflexivity |]. split; discriminate.
    + apply Qeqb_neq in El. cbn [fdiv fadd fsub fop fround2].
      eexists. split; [reflexivity |].
      assert (Hlpos : 0 < l).
      { apply Qle_lteq in Hl0. destruct Hl0 as [H | H]; [exact H |].
        exfalso. apply El. symmetry. exact H. }
      assert (Hrs : 0 <= g / l).
      { apply Qle_shift_div_l; [exact Hlpos | nra]. }
      assert (Hq1 : 0 <= 100 / (1 + g / l)).
      { apply Qle_shift_div_l; nra. }
      assert (Hq2 : 100 / (1 + g / l) <= 100).
      { apply Qle_shift_div_r; nra. }
      apply round2_bounds; nra.
Qed.
End RelativeStrength.

(** ** Windows of a history *)

Lemma tail_length {A} (n : nat) (l : list A) :
  List.length (tail n l) = Nat.min n (List.length l).
Proof. unfold tail. rewrite length_skipn. lia. Qed.

Lemma from_end_1_In {A} (l : list A) (d x : A) :
  from_end 1 l d = x -> x <> d -> In x l.
Proof.
  unfold from_end. cbn [Nat.sub]. intros H Hne.
  apply in_rev. destruct (rev l) as [| y r]; simpl in H.
  - congruence.
  - left. exact H.
Qed.

Lemma finite_values_In (l : list pyfloat) (x : Q) :
  In x (finite_values l) <-> In (Fin x) l.
Proof.
  unfold finite_values. rewrite in_flat_map. split.
  - intros ([| y] & Hin & Hx); [destruct Hx |].
    destruct Hx as [<- | []]. exact Hin.
  - intros Hin. exists (Fin x). split; [exact Hin | left; reflexivity].
Qed.

Lemma min_from_lower {A} (key : A -> Q) (x : A) (l : list A) (y : A) :
  In y (x :: l) -> key (max_from Qgtb key x l) <= key y.
Proof.
  revert x y. induction l as [| z l IH]; intros x y Hin.
  - destruct Hin as [Heq | []]. rewrite <- Heq. apply Qle_refl.
  - unfold max_from in *. simpl. unfold Qgtb at 2.
    destruct (Qltb (key z) (key x)) eqn:E.
    + apply Qltb_lt in E. destruct Hin as [Heq | Hin].
      * rewrite <- Heq.
        eapply Qle_trans; [| apply Qlt_le_weak, E]. apply IH. left. reflexivity.
      * apply IH. exact Hin.
    + apply Qltb_ge in E. destruct Hin as [Heq | [Heq | Hin]].
      * rewrite <- Heq. apply IH. left. reflexivity.
      * rewrite <- Heq.
        eapply Qle_trans; [| exact E]. apply IH. left. reflexivity.
      * apply IH. right. exact Hin.
Qed.

Lemma series_max_upper (l : list pyfloat) (top x : Q) :
  series_max l = Fin top -> In (Fin x) l -> x <= top.
Proof.
  unfold series_max. intros H Hin. apply finite_values_In in Hin.
  destruct (max_by Qltb (fun x => x) (finite_values l)) as [m |] eqn:E;
    [| discriminate].
  injection H as <-. exact (@max_by_upper _ (fun x => x) _ _ _ E Hin).
Qed.

Lemma series_min_lower (l : list pyfloat) (bottom x : Q) :
  series_min l = Fin bottom -> In (Fin x) l -> bottom <= x.
Proof.
  unfold series_min. intros H Hin. apply finite_values_In in Hin.
  destruct (finite_values l) as [| y r] eqn:E; [destruct Hin |].
  simpl in H. injection H as <-.
  exact (@min_from_lower _ (fun x => x) y r x Hin).
Qed.

(** ** Bounds of the derived features *)

(** X3: the price position is NaN (when the last close is) or a number
    between 0 and 100; it is 50 for a history of fewer than 20 bars. *)
Theorem price_position_within (df : DataFrame) :
  nan_or_within 0 100 (LimitUpAnalyzer._calculate_price_position df)
  /\ ((LimitUpAnalyzer.len df < 20)%nat ->
      LimitUpAnalyzer._calculate_price_position df = Fin 50)
  /\ (from_end 1 (LimitUpAnalyzer.closes df) NaN <> NaN ->
      LimitUpAnalyzer._calculate_price_position df <> NaN).
Proof.
  unfold LimitUpAnalyzer._calculate_price_position.
  destruct (LimitUpAnalyzer.len df <? 20) eqn:E20.
  { repeat split; try discriminate. }
  apply Nat.ltb_ge in E20.
  set (window := tail 20 (LimitUpAnalyzer.closes df)).
  assert (Hlast : from_end 1 window NaN
                  = from_end 1 (LimitUpAnalyzer.closes df) NaN).
  { subst window. unfold from_end, tail. cbn [Nat.sub].
    rewrite <- firstn_rev, nth_firstn. reflexivity. }
  rewrite <- Hlast. clear Hlast.
  destruct (List.length window <? 20).
  { repeat split; try discriminate; try (intros; lia). }
  assert (Hfin : forall c, from_end 1 window NaN = Fin c ->
                           exists hi lo, series_max window = Fin hi
                                         /\ series_min window = Fin lo
                                         /\ lo <= c <= hi).
  { intros c Ec. apply (@from_end_1_In _ window NaN) in Ec; [| discriminate].
    pose proof Ec as Ev. apply finite_values_In in Ev.
    destruct (series_max window) as [| hi] eqn:Ehi.
    { unfold series_max in Ehi.
      destruct (finite_values window); [destruct Ev | discriminate]. }
    destruct (series_min window) as [| lo] eqn:Elo.
    { unfold series_min in Elo.
      destruct (finite_values window); [destruct Ev | discriminate]. }
    exists hi, lo. repeat split.
    - exact (@series_min_lower window _ _ Elo Ec).
    - exact (@series_max_upper window _ _ Ehi Ec). }
  destruct (from_end 1 window NaN) as [| c] eqn:Ec.
  { split; [| split; [intros; lia | congruence]].
    destruct (feq (series_max window) (series_min window));
      [cbn; split; discriminate |].
    destruct (series_max window), (series_min window); exact I. }
  destruct (Hfin c eq_refl) as (hi & lo & -> & -> & Hlow & Hup).
  cbn [feq fcmp]. destruct (Qeqb hi lo) eqn:Eeq.
  { repeat split; try discriminate; try (intros; lia). }
  apply Qeqb_neq in Eeq. cbn.
  split; [| split; [intros; lia | discriminate]].
  assert (Hpos : 0 < hi - lo).
  { assert (Hle : lo <= hi) by (eapply Qle_trans; eassumption).
    apply Qle_lteq in Hle. destruct Hle as [H | H]; [nra |].
    exfalso. apply Eeq. symmetry. exact H. }
  assert (H0 : 0 <= (c - lo) / (hi - lo)).
  { apply Qle_shift_div_l; [exact Hpos | nra]. }
  assert (H1 : (c - lo) / (hi - lo) <= 1).
  { apply Qle_shift_div_r; [exact Hpos | nra]. }
  apply round2_bounds; nra.
Qed.

(** X4: the streak strength of a stock is between 0 and 100 for every
    history, and at least 16 for a stock with a streak of two days or
    more. *)
Theorem continuous_strength_within (stock : Stock) (hist_df : DataFrame) :
  0 <= LimitUpAnalyzer._calculate_continuous_strength stock hist_df <= 100
  /\ ((2 <= get_continuous_days stock)%nat ->
      16 <= LimitUpAnalyzer._calculate_continuous_strength stock hist_df).
Proof.
  unfold LimitUpAnalyzer._calculate_continuous_strength. cbv zeta.
  set (base := inject_Z (Z.min (Z.of_nat (get_continuous_days stock) * 20) 100)).
  assert (Hb0 : 0 <= base).
  { subst base. change 0 with (inject_Z 0). rewrite <- Zle_Qle. lia. }
  assert (Hb1 : base <= 100).
  { subst base. change 100 with (inject_Z 100). rewrite <- Zle_Qle. lia. }
  set (with_volume := if 3 <=? LimitUpAnalyzer.len hist_df then _ else _).
  assert (Hv : base * 0.4 <= with_volume <= base * 0.4 + 30).
  { subst with_volume.
    repeat match goal with
           | |- context [if ?c then _ else _] => destruct c
           end; split; nra. }
  set (with_amount := if Qgtb (amount stock) 1e9 then _ else _).
  assert (Ha : with_volume <= with_amount <= with_volume + 30).
  { subst with_amount.
    repeat match goal with
           | |- context [if ?c then _ else _] => destruct c
           end; split; nra. }
  assert (Hcap : 0 <= (if Qltb 100 with_amount then 100 else with_amount)
                 <= 100).
  { destruct (Qltb 100 with_amount) eqn:E; [split; discriminate |].
    apply Qltb_ge in E. split; nra. }
  split; [apply round1_bounds; tauto |].
  intros Hstreak.
  assert (Hb2 : 40 <= base).
  { subst base. change 40 with (inject_Z 40). rewrite <- Zle_Qle. lia. }
  assert (Hge : 16 <= (if Qltb 100 with_amount then 100 else with_amount)).
  { destruct (Qltb 100 with_amount) eqn:E; [discriminate | nra]. }
  unfold round1. rewrite Qred_correct.
  assert (Hr : (160 <= round_half_even
                  ((if Qltb 100 with_amount then 100 else with_amount) * 10))%Z).
  { apply round_half_even_ge. change (inject_Z 160) with 160. nra. }
  unfold Qle; simpl. lia.
Qed.

(** ** What the analysis result records *)

Section AnalysisResultFacts.
Variable config : Config.
Variable historical_data : list (string * DataFrame).
Variable limit_up_df : list LimitUpRecord.

Let analysis :=
  LimitUpAnalyzer.analyze_limit_up config limit_up_df historical_data.

Lemma recorded_streak_bound (c : string) :
  (recorded_streak config historical_data c <= 10)%nat
  /\ forall df, dict_get c historical_data = Some df ->
                (2 <= recorded_streak config historical_data c)%nat ->
                (recorded_streak config historical_data c + 1
                 <= LimitUpAnalyzer.len df)%nat.
Proof.
  unfold recorded_streak.
  destruct (dict_get c historical_data) as [df |]; [| split; [lia | discriminate]].
  pose proof (check_limit_up_days_spec config df) as H. cbv zeta in H.
  destruct H as (Hle & _).
  destruct (5 <=? LimitUpAnalyzer.len df).
  - split; [lia |]. intros df' [= <-] H2. lia.
  - split; [lia |]. intros df' _ H2. lia.
Qed.

Lemma analysis_patterns :
  patterns analysis
  = sort_desc Nat.ltb get_continuous_days
      (filter (fun s => 2 <=? get_continuous_days s) (stocks analysis)).
Proof.
  subst analysis.
  destruct (analysis_stocks config historical_data limit_up_df) as [Hst Hpat].
  cbv zeta in Hst, Hpat. rewrite streak_filter in Hpat.
  rewrite <- Hst in Hpat. exact Hpat.
Qed.

Lemma analysis_stock_streak (s : Stock) :
  In s (stocks analysis) ->
  get_continuous_days s = recorded_streak config historical_data (code s).
Proof.
  subst analysis.
  destruct (analysis_stocks config historical_data limit_up_df) as [Hst _].
  cbv zeta in Hst. rewrite Hst, map_map. intros Hin.
  apply in_map_iff in Hin. destruct Hin as (row & <- & _).
  destruct (mark_analysed config historical_data row) as (Hc & Hd & _).
  cbv zeta in Hc, Hd. rewrite Hc. exact Hd.
Qed.

Lemma fold_max_spec (l : list Stock) (init : nat) :
  let r := fold_left (fun m p => Nat.max m (get_continuous_days p)) l init in
  (init <= r)%nat
  /\ (forall p, In p l -> (get_continuous_days p <= r)%nat)
  /\ (r = init \/ exists p, In p l /\ get_continuous_days p = r).
Proof.
  cbv zeta. revert init. induction l as [| p l IH]; intros init; simpl.
  - repeat split; [lia | intros ? [] | left; reflexivity].
  - destruct (IH (Nat.max init (get_continuous_days p))) as (H1 & H2 & H3).
    repeat split.
    + lia.
    + intros q [<- | Hq]; [lia | apply H2, Hq].
    + destruct H3 as [H3 | (q & Hq & Hr)].
      * destruct (Nat.max_spec init (get_continuous_days p))
          as [[_ Hm] | [_ Hm]]; rewrite Hm in H3 |- *.
        -- right. exists p. split; [left; reflexivity | symmetry; exact H3].
        -- left. exact H3.
      * right. exists q. split; [right; exact Hq | exact Hr].
Qed.

(** X5: no analysed stock has a streak above 10, and the streak height of
    the market summary is the largest streak among the analysed stocks with
    a streak of at least 2: it is 0 when there is none, never 1, and never
    above 10. *)
Theorem max_streak_of_summary :
  let height :=
    ms_max_streak (StrategyGenerator._generate_market_summary analysis) in
  (forall s, In s (stocks analysis) -> (get_continuous_days s <= 10)%nat)
  /\ (height <= 10)%nat
  /\ (height = 0%nat \/ (2 <= height)%nat)
  /\ (forall s, In s (stocks analysis) ->
                (2 <= get_continuous_days s)%nat ->
                (get_continuous_days s <= height)%nat)
  /\ ((2 <= height)%nat ->
      exists s, In s (stocks analysis) /\ get_continuous_days s = height).
Proof.
  cbv zeta.
  assert (Hbound : forall s, In s (stocks analysis) ->
                             (get_continuous_days s <= 10)%nat).
  { intros s Hs. rewrite (analysis_stock_streak s Hs).
    apply recorded_streak_bound. }
  assert (Hpat : forall s, In s (patterns analysis)
                           <-> In s (stocks analysis)
                               /\ (2 <= get_continuous_days s)%nat).
  { intros s. rewrite analysis_patterns, sort_desc_In, filter_In, Nat.leb_le.
    tauto. }
  unfold StrategyGenerator._generate_market_summary. cbn [ms_max_streak].
  unfold StrategyGenerator._get_max_continuous_days.
  pose proof (fold_max_spec (patterns analysis) 0) as H. cbv zeta in H.
  destruct H as (_ & Hup & Hhit).
  set (height := fold_left _ (patterns analysis) 0%nat) in *.
  split; [exact Hbound |].
  assert (Hcases : height = 0%nat
                   \/ exists s, In s (stocks analysis)
                                /\ get_continuous_days s = height
                                /\ (2 <= height)%nat).
  { destruct Hhit as [H0 | (p & Hp & Hr)]; [left; exact H0 |].
    right. apply Hpat in Hp. destruct Hp as [Hp Hp2].
    exists p. repeat split; [exact Hp | exact Hr | lia]. }
  split; [| split; [| split]].
  - destruct Hcases as [-> | (s & Hs & <- & _)]; [lia | apply Hbound, Hs].
  - destruct Hcases as [H0 | (s & _ & _ & H2)]; [left; exact H0 | right; exact H2].
  - intros s Hs H2. apply Hup, Hpat. split; assumption.
  - intros H2. destruct Hcases as [H0 | (s & Hs & Hr & _)]; [lia |].
    exists s. split; assumption.
Qed.

(** X6: the success rate of the market summary is the one the analyzer
    recorded, for every roster. *)
Theorem success_rate_agrees :
  ms_success_rate (StrategyGenerator._generate_market_summary analysis)
  = success_rate (summary analysis)
  /\ (ms_success_rate (StrategyGenerator._generate_market_summary analysis)
      = "0%"%string <-> limit_up_df = []).
Proof.
  subst analysis.
  unfold StrategyGenerator._generate_market_summary,
    StrategyGenerator._calculate_success_rate. cbn [ms_success_rate].
  rewrite analysis_success_rate, analysis_total_count.
  unfold LimitUpAnalyzer._estimate_success_rate.
  split; [reflexivity |].
  destruct limit_up_df as [| row rest]; [split; reflexivity |].
  cbn [List.length Nat.eqb].
  split; [| discriminate].
  repeat match goal with
         | |- context [if ?c then _ else _] => destruct c
         end; discriminate.
Qed.

(** X7: the analysis keeps the roster. The summary counts the rows, and the
    analysed stocks are as many; the stock at each position carries the code
    of the row at that position, the row's name cell (NaN included; the
    code when the frame has no name column), and the row's close, percent
    change, amount and volume, each replaced by 0 where the cell is NaN. *)
Theorem analysis_keeps_roster :
  total_count (summary analysis) = List.length limit_up_df
  /\ List.length (stocks analysis) = List.length limit_up_df
  /\ (forall i row,
        nth_error limit_up_df i = Some row ->
        exists s,
          nth_error (stocks analysis) i = Some s
          /\ code s = r_code row
          /\ name s = match r_name row with
                      | Some cell => cell
                      | None => Str (r_code row)
                      end
          /\ close s = match r_close row with Fin x => x | NaN => 0 end
          /\ pct_change s
             = match r_pct_change row with Fin x => x | NaN => 0 end
          /\ amount s = match r_amount row with Fin x => x | NaN => 0 end
          /\ volume s = match r_volume row with Fin x => x | NaN => 0 end).
Proof.
  subst analysis.
  destruct (analysis_stocks config historical_data limit_up_df) as [Hst _].
  cbv zeta in Hst.
  rewrite analysis_total_count, Hst, !map_map, length_map.
  split; [reflexivity |]. split; [reflexivity |].
  intros i row Hrow. rewrite nth_error_map, Hrow. cbn [option_map].
  eexists. split; [reflexivity |].
  unfold LimitUpAnalyzer.mark_streak, LimitUpAnalyzer._analyze_single_stock,
    LimitUpAnalyzer.float_or_zero.
  destruct (dict_get (r_code row) historical_data) as [df |] eqn:Edf.
  - destruct (5 <=? LimitUpAnalyzer.len df); cbn [code]; rewrite Edf;
      match goal with
      | |- context [if ?c then _ else _] => destruct c
      end; repeat split; reflexivity.
  - cbn [code]. rewrite Edf. repeat split; reflexivity.
Qed.
End AnalysisResultFacts.

(** ** The streak list *)

Lemma sort_desc_sorted_nat {A} (key : A -> nat) (l : list A) :
  StronglySorted (fun a b => (key b <= key a)%nat) (sort_desc Nat.ltb key l).
Proof.
  induction l as [| x l IH]; simpl; [constructor |].
  induction IH as [| y r Hs IH Hall]; simpl.
  - constructor; constructor.
  - destruct (Nat.ltb_spec (key x) (key y)) as [Hlt | Hge].
    + constructor; [exact IH |].
      rewrite Forall_forall in *. intros z Hz.
      apply (Permutation_in _ (insert_desc_perm Nat.ltb key x r)) in Hz.
      destruct Hz as [<- | Hz]; [lia | apply Hall, Hz].
    + constructor; [constructor; assumption |].
      constructor; [exact Hge |].
      rewrite Forall_forall in *. intros z Hz.
      specialize (Hall z Hz). lia.
Qed.

Section StreakList.
Variable config : Config.
Variable historical_data : list (string * DataFrame).
Variable limit_up_df : list LimitUpRecord.

Let analysis :=
  LimitUpAnalyzer.analyze_limit_up config limit_up_df historical_data.

Lemma daily_increases_length (df : DataFrame) (days : nat) :
  (1 <= days)%nat -> (days + 1 <= LimitUpAnalyzer.len df)%nat ->
  List.length (LimitUpAnalyzer._get_daily_increases df days) = days.
Proof.
  intros H1 H2. unfold LimitUpAnalyzer._get_daily_increases.
  replace (LimitUpAnalyzer.len df <? days + 1) with false
    by (symmetry; apply Nat.ltb_ge; lia).
  replace (days =? 0) with false by (symmetry; apply Nat.eqb_neq; lia).
  cbn [orb]. rewrite length_rev, length_map, length_seq. reflexivity.
Qed.

Lemma mark_streak_enriched (s : Stock) :
  let m := LimitUpAnalyzer.mark_streak historical_data s in
  snd m = true ->
  exists df,
    dict_get (code s) historical_data = Some df
    /\ daily_increases (fst m)
       = Some (LimitUpAnalyzer._get_daily_increases df
                 (get_continuous_days s))
    /\ total_increase (fst m)
       = Some (LimitUpAnalyzer._calculate_total_increase df
                 (get_continuous_days s))
    /\ continuous_strength (fst m) <> None.
Proof.
  cbv zeta. unfold LimitUpAnalyzer.mark_streak.
  destruct (dict_get (code s) historical_data) as [df |];
    [| discriminate].
  destruct (2 <=? get_continuous_days s); [| discriminate].
  cbn [fst snd]. intros _. exists df.
  repeat split; try reflexivity. discriminate.
Qed.

Lemma mark_enriched (row : LimitUpRecord) :
  let m := LimitUpAnalyzer.mark_streak historical_data
             (LimitUpAnalyzer._analyze_single_stock config row
                historical_data) in
  (2 <= get_continuous_days (fst m))%nat ->
  exists df,
    dict_get (code (fst m)) historical_data = Some df
    /\ (5 <= LimitUpAnalyzer.len df)%nat
    /\ daily_increases (fst m)
       = Some (LimitUpAnalyzer._get_daily_increases df
                 (get_continuous_days (fst m)))
    /\ total_increase (fst m)
       = Some (LimitUpAnalyzer._calculate_total_increase df
                 (get_continuous_days (fst m)))
    /\ continuous_strength (fst m) <> None.
Proof.
  cbv zeta. intros H2.
  set (s0 := LimitUpAnalyzer._analyze_single_stock config row historical_data)
    in *.
  destruct (mark_analysed config historical_data row) as (Hc & Hd & Hsnd).
  destruct (mark_streak_spec historical_data s0) as (Hc0 & Hd0 & _).
  cbv zeta in Hc, Hd, Hsnd, Hc0, Hd0. fold s0 in Hc, Hd, Hsnd.
  assert (Htrue : snd (LimitUpAnalyzer.mark_streak historical_data s0) = true)
    by (rewrite Hsnd; apply Nat.leb_le; exact H2).
  destruct (mark_streak_enriched s0 Htrue) as (df & Hdf & Hdi & Hti & Hcs).
  exists df. rewrite Hc0, Hd0.
  split; [exact Hdf |]. split; [| repeat split; assumption].
  rewrite Hd in H2. unfold recorded_streak in H2.
  rewrite <- Hc, Hc0, Hdf in H2.
  destruct (5 <=? LimitUpAnalyzer.len df) eqn:E5; [| lia].
  apply Nat.leb_le in E5. exact E5.
Qed.

(** X8: the streak list is ordered by descending streak, and each of its
    stocks is one of the analysed stocks, has a history of at least five
    bars, and carries a list of daily increases with exactly one entry per
    day of its streak, the cumulated increase over the streak and a streak
    strength. *)
Theorem streak_list_enriched :
  StronglySorted
    (fun a b => (get_continuous_days b <= get_continuous_days a)%nat)
    (patterns analysis)
  /\ (forall s, In s (patterns analysis) ->
        In s (stocks analysis)
        /\ exists df increases,
             dict_get (code s) historical_data = Some df
             /\ (5 <= LimitUpAnalyzer.len df)%nat
             /\ daily_increases s = Some increases
             /\ List.length increases = get_continuous_days s
             /\ total_increase s
                = Some (LimitUpAnalyzer._calculate_total_increase df
                          (get_continuous_days s))
             /\ continuous_strength s <> None).
Proof.
  subst analysis. rewrite analysis_patterns.
  split; [apply sort_desc_sorted_nat |].
  intros s Hs. apply sort_desc_In, filter_In in Hs.
  destruct Hs as [Hin H2]. apply Nat.leb_le in H2.
  split; [exact Hin |].
  pose proof (analysis_stock_streak config historical_data limit_up_df s Hin)
    as Hrec.
  destruct (analysis_stocks config historical_data limit_up_df) as [Hst _].
  cbv zeta in Hst. rewrite Hst, map_map in Hin.
  apply in_map_iff in Hin. destruct Hin as (row & Hrow & _).
  pose proof (mark_enriched row) as Hm. cbv zeta in Hm.
  rewrite Hrow in Hm. destruct (Hm H2) as (df & Hdf & H5 & Hdi & Hti & Hcs).
  exists df. eexists. split; [exact Hdf |]. split; [exact H5 |].
  split; [exact Hdi |]. split; [| split; assumption].
  apply daily_increases_length; [lia |].
  rewrite Hrec in *.
  apply (recorded_streak_bound config historical_data (code s)); assumption.
Qed.
End StreakList.

(** ** The keys of the technical indicators *)

(** X2: the technical indicators never hold a price position, because the
    window they are computed from has at most ten closes; a history of
    fewer than five bars gives no indicator at all, one of at least five
    gives the index and both moving averages, and the volume ratio is
    there exactly for histories of at least six bars. *)
Theorem indicator_keys (df : DataFrame) :
  let indicators := TechnicalIndicators._calculate_technical_indicators df in
  ti_price_position indicators = None
  /\ ((LimitUpAnalyzer.len df < 5)%nat ->
      rsi_5 indicators = None /\ ma_5 indicators = None
      /\ ma_10 indicators = None /\ ti_volume_ratio indicators = None)
  /\ ((5 <= LimitUpAnalyzer.len df)%nat ->
      rsi_5 indicators <> None /\ ma_5 indicators <> None
      /\ ma_10 indicators <> None)
  /\ (ti_volume_ratio indicators <> None
      <-> (6 <= LimitUpAnalyzer.len df)%nat).
Proof.
  cbv zeta. unfold TechnicalIndicators._calculate_technical_indicators.
  assert (Hc : List.length (tail 10 (LimitUpAnalyzer.closes df))
               = Nat.min 10 (LimitUpAnalyzer.len df)).
  { rewrite tail_length. unfold LimitUpAnalyzer.closes, LimitUpAnalyzer.len.
    rewrite length_map. reflexivity. }
  assert (Hv : List.length (tail 10 (LimitUpAnalyzer.volumes df))
               = Nat.min 10 (LimitUpAnalyzer.len df)).
  { rewrite tail_length. unfold LimitUpAnalyzer.volumes, LimitUpAnalyzer.len.
    rewrite length_map. reflexivity. }
  rewrite Hc, Hv.
  destruct (Nat.ltb_spec (LimitUpAnalyzer.len df) 5) as [H5 | H5].
  - cbn. repeat split; try reflexivity; try (intros; lia).
    intros H. congruence.
  - replace (5 <=? Nat.min 10 (LimitUpAnalyzer.len df)) with true
      by (symmetry; apply Nat.leb_le; lia).
    replace (20 <=? Nat.min 10 (LimitUpAnalyzer.len df)) with false
      by (symmetry; apply Nat.leb_gt; lia).
    cbn [ti_price_position rsi_5 ma_5 ma_10 ti_volume_ratio].
    split; [reflexivity |]. split; [intros; lia |].
    split; [intros _; repeat split; discriminate |].
    destruct (Nat.leb_spec 6 (Nat.min 10 (LimitUpAnalyzer.len df)))
      as [H6 | H6].
    + split; [intros _; lia | intros _; discriminate].
    + split; [intros H; congruence | intros H; lia].
Qed.

(** ** The sector analyzer *)

Lemma sort_desc_sorted_Z {A} (key : A -> Z) (l : list A) :
  StronglySorted (fun a b => (key b <= key a)%Z) (sort_desc Z.ltb key l).
Proof.
  induction l as [| x l IH]; simpl; [constructor |].
  induction IH as [| y r Hs IH Hall]; simpl.
  - constructor; constructor.
  - destruct (Z.ltb_spec (key x) (key y)) as [Hlt | Hge].
    + constructor; [exact IH |].
      rewrite Forall_forall in *. intros z Hz.
      apply (Permutation_in _ (insert_desc_perm Z.ltb key x r)) in Hz.
      destruct Hz as [<- | Hz]; [lia | apply Hall, Hz].
    + constructor; [constructor; assumption |].
      constructor; [exact Hge |].
      rewrite Forall_forall in *. intros z Hz.
      specialize (Hall z Hz). lia.
Qed.

Lemma assign_in_catalogue (hash : string -> Z) (c : string) :
  In (SectorAnalyzer._assign_stock_sector hash c SectorAnalyzer.sectors)
     (map fst SectorAnalyzer.sectors).
Proof.
  unfold SectorAnalyzer._assign_stock_sector. apply nth_In.
  change (List.length (map fst SectorAnalyzer.sectors)) with 7%nat.
  pose proof (Z.mod_pos_bound (hash c) 7 ltac:(lia)) as H.
  change (Z.of_nat 7) with 7%Z. lia.
Qed.

Lemma fold_max_zero (l : list LimitUpRecord) :
  fold_left Nat.max (map SectorAnalyzer.row_continuous_days l) 0%nat = 0%nat.
Proof. induction l as [| x l IH]; simpl; [reflexivity | exact IH]. Qed.

Lemma nodup_zero_heights (l : list LimitUpRecord) :
  l <> [] ->
  nodup Nat.eq_dec (map SectorAnalyzer.row_continuous_days l) = [0%nat].
Proof.
  induction l as [| x [| y l] IH]; intros Hne; [congruence | reflexivity |].
  change (map SectorAnalyzer.row_continuous_days (x :: y :: l))
    with (0%nat :: map SectorAnalyzer.row_continuous_days (y :: l)).
  cbn [nodup].
  destruct (in_dec Nat.eq_dec 0%nat
              (map SectorAnalyzer.row_continuous_days (y :: l)))
    as [_ | Hnot].
  - apply IH. discriminate.
  - exfalso. apply Hnot. left. reflexivity.
Qed.

Lemma sector_strength_range (stocks : list LimitUpRecord) :
  (2 <= List.length stocks)%nat ->
  (25 <= SectorAnalyzer._calculate_sector_strength stocks <= 70)%Z.
Proof.
  intros Hlen. unfold SectorAnalyzer._calculate_sector_strength.
  destruct stocks as [| r rest]; [simpl in Hlen; lia |].
  rewrite fold_max_zero. cbv zeta.
  change (Z.min (Z.of_nat 0 * 15) 30) with 0%Z.
  repeat match goal with
         | |- context [if ?c then _ else _] => destruct c
         end; lia.
Qed.

Section SectorAnalysisFacts.
Variable hash : string -> Z.
Variable limit_up_df : list LimitUpRecord.
Variable historical_data : list (string * DataFrame).

Let sector_of (row : LimitUpRecord) : string :=
  SectorAnalyzer._assign_stock_sector hash (r_code row) SectorAnalyzer.sectors.

Lemma sector_groups_grouped :
  grouped sector_of limit_up_df
    (SectorAnalyzer._group_stocks_by_sector hash limit_up_df).
Proof.
  unfold SectorAnalyzer._group_stocks_by_sector.
  apply (@group_fold_grouped _ sector_of limit_up_df [] []).
  apply grouped_nil.
Qed.

Lemma analysed_sector (sector : string) (info : SectorAnalysis) :
  In (sector, info)
     (SectorAnalyzer.analyze_sectors hash limit_up_df historical_data) ->
  exists stocks,
    In (sector, stocks)
       (SectorAnalyzer._group_stocks_by_sector hash limit_up_df)
    /\ (2 <= List.length stocks)%nat
    /\ info = SectorAnalyzer._analyze_single_sector sector stocks
                historical_data.
Proof.
  unfold SectorAnalyzer.analyze_sectors.
  destruct limit_up_df as [| r rest] eqn:E; [intros [] |]. rewrite <- E.
  intros Hin. apply sort_desc_In, in_flat_map in Hin.
  destruct Hin as ([sec stocks] & Hg & Hin).
  destruct (2 <=? List.length stocks) eqn:E2; [| destruct Hin].
  destruct Hin as [[= <- <-] | []]. apply Nat.leb_le in E2.
  exists stocks. repeat split; assumption.
Qed.

Lemma NoDup_flat_map_keys {V W}
    (F : string * V -> list (string * W)) (d : list (string * V)) :
  NoDup (map fst d) ->
  (forall g x, In x (F g) -> F g = [x] /\ fst x = fst g) ->
  NoDup (map fst (flat_map F d)).
Proof.
  intros Hnd HF. induction d as [| g d IH]; simpl; [constructor |].
  inversion Hnd as [| ? ? Hnotin Hnd']; subst.
  rewrite map_app. destruct (F g) as [| x xs] eqn:EF; simpl.
  - apply IH, Hnd'.
  - destruct (HF g x) as [Hone Hkey]; [rewrite EF; left; reflexivity |].
    rewrite EF in Hone. injection Hone as ->. simpl.
    constructor; [| apply IH, Hnd'].
    intros Hin. apply Hnotin. rewrite <- Hkey.
    apply in_map_iff in Hin. destruct Hin as (y & Hy & Hin).
    apply in_flat_map in Hin. destruct Hin as (g' & Hg' & Hyin).
    destruct (HF g' y Hyin) as [_ Hk]. rewrite <- Hy, Hk.
    apply in_map, Hg'.
Qed.

(** X9: the sector analysis holds each sector at most once, strongest
    first, and only sectors of the catalogue with at least two stocks of
    the roster. Because the roster rows carry no streak, every analysed
    sector has a strength between 25 and 70, a single-tier structure and
    core stocks with a streak of 0; the core stocks are at most three stocks
    of the roster that hash to the sector. *)
Theorem sector_analysis_invariants :
  let result :=
    SectorAnalyzer.analyze_sectors hash limit_up_df historical_data in
  NoDup (map fst result)
  /\ StronglySorted
       (fun a b => (sa_strength (snd b) <= sa_strength (snd a))%Z) result
  /\ (forall sector info,
        In (sector, info) result ->
        In sector (map fst SectorAnalyzer.sectors)
        /\ sa_name info = sector
        /\ (2 <= sa_count info)%nat
        /\ (25 <= sa_strength info <= 70)%Z
        /\ sa_structure info = "单一（单梯队）"%string
        /\ (List.length (sa_core_stocks info) <= 3)%nat
        /\ (forall core_stock,
              In core_stock (sa_core_stocks info) ->
              cs_continuous_days core_stock = 0%nat
              /\ exists row,
                   In row limit_up_df
                   /\ r_code row = cs_code core_stock
                   /\ sector_of row = sector)).
Proof.
  cbv zeta. destruct sector_groups_grouped as (Hnd & Hperm & Hmem).
  split; [| split].
  - unfold SectorAnalyzer.analyze_sectors.
    destruct limit_up_df as [| r rest] eqn:E; [constructor |]. rewrite <- E in *.
    eapply Permutation_NoDup.
    + apply Permutation_map. symmetry. apply sort_desc_perm.
    + apply NoDup_flat_map_keys; [exact Hnd |].
      intros [sec stocks] x Hx.
      destruct (2 <=? List.length stocks); [| destruct Hx].
      destruct Hx as [<- | []]. split; reflexivity.
  - unfold SectorAnalyzer.analyze_sectors.
    destruct limit_up_df; [constructor |].
    apply (sort_desc_sorted_Z (fun x => sa_strength (snd x))).
  - intros sector info Hin. apply analysed_sector in Hin.
    destruct Hin as (stocks & Hg & Hlen & ->).
    destruct (Hmem sector stocks Hg) as [Hne Hall].
    rewrite Forall_forall in Hall.
    assert (Hrows : forall row, In row stocks -> In row limit_up_df).
    { intros row Hrow. eapply Permutation_in; [exact Hperm |].
      apply in_flat_map. exists (sector, stocks). split; assumption. }
    unfold SectorAnalyzer._analyze_single_sector.
    cbn [sa_name sa_count sa_strength sa_structure sa_core_stocks].
    split.
    { destruct stocks as [| row rest]; [congruence |].
      rewrite <- (Hall row (or_introl eq_refl)). apply assign_in_catalogue. }
    split; [reflexivity |]. split; [exact Hlen |].
    split; [apply sector_strength_range, Hlen |].
    split.
    { unfold SectorAnalyzer._check_sector_structure.
      rewrite (nodup_zero_heights Hne). reflexivity. }
    unfold SectorAnalyzer._identify_core_stocks.
    destruct stocks as [| row0 rest] eqn:Es; [congruence |]. rewrite <- Es in *.
    split.
    { rewrite length_map. apply firstn_le_length. }
    intros cs Hcs. apply in_map_iff in Hcs. destruct Hcs as (row & <- & Hrow).
    cbn [cs_continuous_days cs_code]. split; [reflexivity |].
    apply In_firstn, sort_desc_In in Hrow.
    exists row. split; [apply Hrows, Hrow |]. split; [reflexivity |].
    apply Hall, Hrow.
Qed.
End SectorAnalysisFacts.

(** ** When the role identifier raises *)

Section IdentifyErrors.
Variable hash : string -> Z.
Variable config : Config.
Variable sector_data : list (string * SectorAnalysis).

Lemma sector_lookup_raises (c : string) :
  (exists sec,
     DragonHeadIdentifier._get_stock_sector_from_data hash c sector_data
     = Ok sec)
  <-> (c = EmptyString ->
       DragonHeadIdentifier.find_core_sector c sector_data <> None).
Proof.
  unfold DragonHeadIdentifier._get_stock_sector_from_data,
    DragonHeadIdentifier._get_stock_sector.
  destruct (DragonHeadIdentifier.find_core_sector c sector_data) as [sec |].
  - split; [intros _ _; discriminate | intros _; eexists; reflexivity].
  - destruct c as [| a rest].
    + split; [intros [sec H]; discriminate | intros H; exfalso; now apply H].
    + split; [intros _ H; discriminate |].
      intros _. destruct (dict_get _ DragonHeadIdentifier.sectors);
        eexists; reflexivity.
Qed.

Lemma group_loop_returns (stocks : list Stock)
    (acc : list (string * list Stock)) :
  (exists groups,
     DragonHeadIdentifier.group_loop hash sector_data stocks acc = Ok groups)
  <-> (forall s, In s stocks -> code s = EmptyString ->
                 DragonHeadIdentifier.find_core_sector EmptyString sector_data
                 <> None).
Proof.
  revert acc. induction stocks as [| s stocks IH]; intros acc; simpl.
  - split; [intros _ ? [] | intros _; eexists; reflexivity].
  - pose proof (sector_lookup_raises (code s)) as Hs.
    destruct (DragonHeadIdentifier._get_stock_sector_from_data hash (code s)
                sector_data) as [sec | e]; simpl.
    + rewrite IH. split.
      * intros H s' [<- | Hin] Hempty; [| exact (H s' Hin Hempty)].
        rewrite <- Hempty. apply Hs; [eexists; reflexivity | exact Hempty].
      * intros H s' Hin. apply H. right. exact Hin.
    + split; [intros [g Hg]; discriminate |].
      intros H. exfalso.
      assert (Hok : exists sec, @Raise string e = Ok sec).
      { apply Hs. intros Hempty. rewrite Hempty.
        apply (H s (or_introl eq_refl) Hempty). }
      destruct Hok as [sec Hsec]. discriminate.
Qed.

Lemma find_core_sector_listed (c : string) :
  DragonHeadIdentifier.find_core_sector c sector_data <> None
  <-> exists sector info core_stock,
        In (sector, info) sector_data
        /\ In core_stock (sa_core_stocks info)
        /\ cs_code core_stock = c.
Proof.
  clear hash config.
  induction sector_data as [| [sector info] rest IH]; simpl.
  - split; [intros H; exfalso; apply H; reflexivity |].
    intros (? & ? & ? & [] & _).
  - destruct (existsb _ (sa_core_stocks info)) eqn:E.
    + split; [intros _ | intros _; discriminate].
      apply existsb_exists in E. destruct E as (core_stock & Hin & Heq).
      apply String.eqb_eq in Heq. exists sector, info, core_stock. auto.
    + rewrite IH. split.
      * intros (sec' & info' & cs & Hin & Hcs & Hc).
        exists sec', info', cs. auto.
      * intros (sec' & info' & cs & [Heq | Hin] & Hcs & Hc);
          [| exists sec', info', cs; auto].
        exfalso. injection Heq as <- <-.
        assert (Hex : existsb (fun core_stock =>
                                 String.eqb (cs_code core_stock) c)
                              (sa_core_stocks info) = true).
        { apply existsb_exists. exists cs. split; [exact Hcs |].
          apply String.eqb_eq. exact Hc. }
        rewrite Hex in E. discriminate.
Qed.

(** X10: the role identifier returns role lists unless some input stock has
    an empty code while no sector of the sector data lists a core stock
    with an empty code; in that case, and only then, it raises
    [IndexError]. *)
Theorem identify_roles_raises (stocks : list Stock) :
  ((exists roles,
      DragonHeadIdentifier.identify_roles hash config stocks sector_data
      = Ok roles)
   <-> ((exists s, In s stocks /\ code s = EmptyString) ->
        exists sector info core_stock,
          In (sector, info) sector_data
          /\ In core_stock (sa_core_stocks info)
          /\ cs_code core_stock = EmptyString))
  /\ ((exists s, In s stocks /\ code s = EmptyString) ->
      (forall sector info core_stock,
         In (sector, info) sector_data ->
         In core_stock (sa_core_stocks info) ->
         cs_code core_stock <> EmptyString) ->
      DragonHeadIdentifier.identify_roles hash config stocks sector_data
      = Raise IndexError).
Proof.
  assert (Hiff : (exists roles,
                    DragonHeadIdentifier.identify_roles hash config stocks
                      sector_data = Ok roles)
                 <-> ((exists s, In s stocks /\ code s = EmptyString) ->
                      DragonHeadIdentifier.find_core_sector EmptyString
                        sector_data <> None)).
  { unfold DragonHeadIdentifier.identify_roles.
    destruct stocks as [| s rest] eqn:E.
    - split; [intros _ (? & [] & _) | intros _; eexists; reflexivity].
    - rewrite <- E.
      pose proof (group_loop_returns stocks []) as Hloop.
      unfold DragonHeadIdentifier._group_by_sector.
      destruct (DragonHeadIdentifier.group_loop hash sector_data stocks [])
        as [groups | e]; cbn.
      + split; [| intros _; eexists; reflexivity].
        intros _ (s' & Hs' & Hc). apply (proj1 Hloop) with (s := s'); auto.
        eexists; reflexivity.
      + split; [intros [x Hx]; discriminate |].
        intros H. exfalso.
        assert (Hok : exists groups,
                   @Raise (list (string * list Stock)) e = Ok groups).
        { apply Hloop. intros s' Hs' Hc. apply H. exists s'. auto. }
        destruct Hok as [groups Hg]. discriminate. }
  split.
  - rewrite Hiff, find_core_sector_listed. reflexivity.
  - intros Hempty Hnone.
    destruct (DragonHeadIdentifier.identify_roles hash config stocks
                sector_data) as [roles | []] eqn:E; [| reflexivity].
    exfalso.
    assert (Hex : exists roles0, Ok roles = Ok roles0)
      by (eexists; reflexivity).
    apply Hiff in Hex; [| exact Hempty].
    apply find_core_sector_listed in Hex.
    destruct Hex as (sector & info & cs & Hin & Hcs & Hc).
    exact (Hnone sector info cs Hin Hcs Hc).
Qed.
End IdentifyErrors.

(** ** The picks of a sector *)

Section PickFacts.
Variable config : Config.

(** X12: a sector's Catch-up, when there is one, is a scored stock of a
    sector of at least three stocks whose code differs from the codes of
    the sector's Leader and Core; it either has a streak of at most 1 and a
    price position below 50, or no stock of the sector has both and it is a
    breakout stock among the three lowest scored. *)
Theorem catch_up_selection (sector : string) (stocks : list Stock) :
  let sector_roles :=
    DragonHeadIdentifier._analyze_sector_roles config sector stocks in
  let scored_stocks := DragonHeadIdentifier.scored config stocks in
  let low (s : Stock) :=
    (get_continuous_days s <=? 1)
    && flt (DragonHeadIdentifier.get_price_position s) (Fin 50) in
  match sr_catch_up sector_roles with
  | None => True
  | Some fill_up =>
      (3 <= List.length stocks)%nat
      /\ In fill_up scored_stocks
      /\ (exists dragon middle_army,
            sr_leader sector_roles = Some dragon
            /\ sr_core sector_roles = Some middle_army
            /\ code fill_up <> code dragon
            /\ code fill_up <> code middle_army)
      /\ (low fill_up = true
          \/ ((forall s, In s scored_stocks -> low s = false)
              /\ DragonHeadIdentifier.get_is_breakout fill_up = true
              /\ In fill_up (tail 3 scored_stocks)))
  end.
Proof.
  cbv zeta. unfold DragonHeadIdentifier._analyze_sector_roles.
  destruct (List.length stocks <? 2) eqn:E2; [exact I |].
  cbn [sr_catch_up sr_leader sr_core].
  set (scored_stocks := DragonHeadIdentifier.scored config stocks).
  set (the_leader := DragonHeadIdentifier.pick_leader scored_stocks).
  set (the_core := DragonHeadIdentifier.pick_core the_leader scored_stocks).
  unfold DragonHeadIdentifier.pick_catch_up.
  destruct (2 <? List.length scored_stocks) eqn:E3; [| exact I].
  apply Nat.ltb_lt in E3. subst scored_stocks.
  rewrite scored_length in E3.
  set (scored_stocks := DragonHeadIdentifier.scored config stocks) in *.
  set (low := fun s : Stock =>
                (get_continuous_days s <=? 1)
                && flt (DragonHeadIdentifier.get_price_position s) (Fin 50)).
  set (low_stocks := filter low scored_stocks).
  set (candidates := match low_stocks with
                     | [] => filter DragonHeadIdentifier.get_is_breakout
                                    (tail 3 scored_stocks)
                     | _ => low_stocks
                     end).
  destruct (max_by flt DragonHeadIdentifier.get_trend_strength candidates)
    as [u |] eqn:Eu; [| exact I].
  destruct the_leader as [dragon |]; [| exact I].
  destruct the_core as [middle |]; [| exact I].
  destruct (negb (DragonHeadIdentifier.same_code u dragon)
            && negb (DragonHeadIdentifier.same_code u middle)) eqn:Eneq;
    [| exact I].
  apply andb_true_iff in Eneq. destruct Eneq as [E1 E2'].
  apply negb_true_iff, same_code_false in E1.
  apply negb_true_iff, same_code_false in E2'.
  apply max_by_In in Eu.
  assert (Hcases : (In u scored_stocks /\ low u = true)
                   \/ (low_stocks = []
                       /\ DragonHeadIdentifier.get_is_breakout u = true
                       /\ In u (tail 3 scored_stocks))).
  { subst candidates. destruct low_stocks as [| x rest] eqn:El.
    - right. apply filter_In in Eu. tauto.
    - left. rewrite <- El in Eu. subst low_stocks. apply filter_In in Eu.
      exact Eu. }
  split; [lia |]. split.
  { destruct Hcases as [[H _] | (_ & _ & H)]; [exact H |].
    unfold tail in H. eapply In_skipn, H. }
  split; [exists dragon, middle; auto |].
  destruct Hcases as [[_ H] | (Hnil & Hb & Ht)]; [left; exact H |].
  right. split; [| split; assumption].
  intros s Hs. change (low s = false).
  destruct (low s) eqn:Els; [| reflexivity].
  exfalso. assert (Hf : In s low_stocks)
    by (apply filter_In; split; assumption).
  rewrite Hnil in Hf. destruct Hf.
Qed.
End PickFacts.

(** ** Where the members of the role lists come from *)

Lemma grouped_size {V} (f : V -> string) (seen : list V)
    (d : list (string * list V)) (k : string) (vs : list V) :
  grouped f seen d -> In (k, vs) d ->
  Permutation vs (filter (fun v => String.eqb (f v) k) seen).
Proof.
  intros (Hnd & Hperm & Hmem) Hin.
  rewrite <- (Permutation_filter _ Hperm).
  clear Hperm. induction d as [| [k' vs'] d IH]; [destruct Hin |].
  cbn [flat_map snd]. rewrite filter_app.
  inversion Hnd as [| ? ? Hnotin Hnd']; subst.
  destruct Hin as [[= -> ->] | Hin].
  - rewrite filter_all.
    + rewrite filter_none; [rewrite app_nil_r; apply Permutation_refl |].
      intros x Hx. apply in_flat_map in Hx.
      destruct Hx as ([k' vs'] & Hg & Hx). cbn [snd] in Hx.
      destruct (Hmem k' vs' (or_intror Hg)) as [_ Hall].
      rewrite Forall_forall in Hall. rewrite (Hall x Hx).
      apply String.eqb_neq. intros ->. apply Hnotin.
      apply (in_map fst _ _ Hg).
    + intros x Hx. destruct (Hmem k vs (or_introl eq_refl)) as [_ Hall].
      rewrite Forall_forall in Hall. rewrite (Hall x Hx).
      apply String.eqb_refl.
  - rewrite filter_none.
    + apply IH; [exact Hnd' | | exact Hin].
      intros k0 vs0 H0. apply Hmem. right. exact H0.
    + intros x Hx. destruct (Hmem k' vs' (or_introl eq_refl)) as [_ Hall].
      rewrite Forall_forall in Hall. rewrite (Hall x Hx).
      apply String.eqb_neq. intros ->. apply Hnotin.
      apply (in_map fst _ _ Hin).
Qed.

Section RoleMembers.
Variable hash : string -> Z.
Variable config : Config.
Variable sector_data : list (string * SectorAnalysis).

Lemma contribution_picked (g : string * list Stock) (x : Stock) :
  let c :=
    DragonHeadIdentifier.assign_sector config
      DragonHeadIdentifier._empty_roles g in
  In x (leader c ++ core c ++ catch_up c) ->
  (sector_strength_threshold config <= Z.of_nat (List.length (snd g)))%Z
  /\ exists p, In p (DragonHeadIdentifier.scored config (snd g))
               /\ x = set_sector (fst g) p.
Proof.
  cbv zeta. destruct g as [sec ms].
  unfold DragonHeadIdentifier.assign_sector. cbn [fst snd].
  destruct (sector_strength_threshold config <=? Z.of_nat (List.length ms))%Z
    eqn:E.
  - apply Z.leb_le in E. pose proof (@sector_role_scored config sec ms) as Hp.
    cbv zeta in Hp.
    destruct (DragonHeadIdentifier._analyze_sector_roles config sec ms)
      as [l c u]. cbn [sr_leader sr_core sr_catch_up] in Hp.
    cbn [leader core catch_up DragonHeadIdentifier._empty_roles].
    intros Hin. split; [exact E |].
    rewrite !in_app_iff in Hin.
    destruct Hin as [Hin | [Hin | Hin]];
      [destruct l as [p |] | destruct c as [p |] | destruct u as [p |]];
      cbn in Hin; try (destruct Hin; fail);
      destruct Hin as [<- | Hin]; try (destruct Hin; fail);
      exists p; (split; [apply Hp; auto | reflexivity]).
  - cbn. intros [].
Qed.

Lemma contribution_watched (g : string * list Stock) (x : Stock) :
  In x (watch (DragonHeadIdentifier.assign_sector config
                 DragonHeadIdentifier._empty_roles g)) ->
  (Z.of_nat (List.length (snd g)) < sector_strength_threshold config)%Z
  /\ exists s, In s (snd g) /\ x = set_sector (fst g) s.
Proof.
  destruct g as [sec ms].
  unfold DragonHeadIdentifier.assign_sector. cbn [fst snd].
  destruct (sector_strength_threshold config <=? Z.of_nat (List.length ms))%Z
    eqn:E.
  - cbn. intros [].
  - apply Z.leb_gt in E. cbn. intros Hin. split; [exact E |].
    apply in_map_iff in Hin. destruct Hin as (s & <- & Hs).
    exists s. split; [exact Hs | reflexivity].
Qed.

(** X11: when the role identifier returns, its Leader, Core and Catch-up
    lists are each in descending order of composite score.  Every member of
    them is an input stock with its composite score and its sector
    attached and nothing else changed, and its sector has at least the
    threshold number of input stocks.  Every member of the Watch list is an
    input stock with its sector attached and no score computed, and its
    sector has fewer input stocks than the threshold. *)
Theorem role_members (stocks : list Stock) (roles : Roles) :
  DragonHeadIdentifier.identify_roles hash config stocks sector_data
  = Ok roles ->
  let sector_of := sector_name hash sector_data in
  let sector_size (s : Stock) :=
    Z.of_nat
      (List.length
         (filter (fun t => String.eqb (sector_of t) (sector_of s)) stocks)) in
  let sorted := StronglySorted (fun a b => get_score b <= get_score a) in
  sorted (leader roles) /\ sorted (core roles) /\ sorted (catch_up roles)
  /\ (forall x,
        In x (leader roles ++ core roles ++ catch_up roles) ->
        exists s,
          In s stocks
          /\ x = set_sector (sector_of s)
                   (set_score
                      (DragonHeadIdentifier._calculate_dragon_score config s)
                      s)
          /\ (sector_strength_threshold config <= sector_size s)%Z)
  /\ (forall x,
        In x (watch roles) ->
        exists s,
          In s stocks /\ x = set_sector (sector_of s) s
          /\ (sector_size s < sector_strength_threshold config)%Z).
Proof.
  intros Hid. cbv zeta.
  destruct (identify_roles_groups _ _ _ _ Hid)
    as (groups & Hgr & HL & HC & HU & HW).
  pose proof (group_by_sector_grouped _ _ _ Hgr) as Hg.
  assert (Hsize : forall k ms s,
             In (k, ms) groups -> In s ms ->
             In s stocks /\ sector_name hash sector_data s = k
             /\ List.length
                  (filter (fun t => String.eqb (sector_name hash sector_data t)
                                      (sector_name hash sector_data s))
                          stocks)
                = List.length ms).
  { intros k ms s Hin Hs.
    pose proof (@grouped_size _ _ _ _ k ms Hg Hin) as Hperm.
    destruct Hg as (_ & Hall & Hmem).
    destruct (Hmem k ms Hin) as [_ Hk]. rewrite Forall_forall in Hk.
    split; [| split].
    - apply (Permutation_in _ Hall). apply in_flat_map.
      exists (k, ms). split; [exact Hin | exact Hs].
    - apply Hk, Hs.
    - rewrite (Hk s Hs). symmetry. apply Permutation_length, Hperm. }
  rewrite HL, HC, HU, HW.
  split; [apply sort_desc_sorted |].
  split; [apply sort_desc_sorted |].
  split; [apply sort_desc_sorted |].
  split.
  - intros x Hx.
    assert (Hx' : exists g,
               In g groups
               /\ In x (let c :=
                          DragonHeadIdentifier.assign_sector config
                            DragonHeadIdentifier._empty_roles g in
                        leader c ++ core c ++ catch_up c)).
    { cbv zeta. rewrite !in_app_iff, !sort_desc_In, !in_flat_map in Hx.
      destruct Hx as [(g & Hg' & Hx) | [(g & Hg' & Hx) | (g & Hg' & Hx)]];
        exists g; rewrite !in_app_iff; auto. }
    destruct Hx' as ([k ms] & Hin & Hx').
    apply contribution_picked in Hx'. cbn [fst snd] in Hx'.
    destruct Hx' as (Hthr & p & Hp & ->).
    apply scored_origin in Hp. destruct Hp as (s & Hs & ->).
    destruct (Hsize k ms s Hin Hs) as (Hstock & Hk & Hlen).
    exists s. rewrite Hlen, Hk. auto.
  - intros x Hx. apply in_flat_map in Hx.
    destruct Hx as ([k ms] & Hin & Hx).
    apply contribution_watched in Hx. cbn [fst snd] in Hx.
    destruct Hx as (Hthr & s & Hs & ->).
    destruct (Hsize k ms s Hin Hs) as (Hstock & Hk & Hlen).
    exists s. rewrite Hlen, Hk. auto.
Qed.
End RoleMembers.

(** ** The themes of a run *)

Lemma count_occ_const (a b : string) {A} (l : list A) :
  count_occ string_dec (map (fun _ => a) l) b
  = if string_dec a b then List.length l else 0%nat.
Proof.
  induction l as [| x l IH]; simpl.
  - destruct (string_dec a b); reflexivity.
  - rewrite IH. destruct (string_dec a b); reflexivity.
Qed.

Section SectorCounters.

(** [stock.get('所属板块', '其他')]. *)
Let stock_sector (stock : Stock) : string :=
  match sector stock with
  | Some s => s
  | None => "其他"%string
  end.

Let item_sector (v : string * Stock) : string := stock_sector (snd v).

(** The counters of a sector, from the pairs of role and stock counted
    for it. *)
Let stats_of (vs : list (string * Stock)) : SectorStats :=
  {| count := List.length vs;
     roles := map fst vs;
     stock_codes := map (fun v => code (snd v)) vs |}.

Let entry (g : string * list (string * Stock)) : string * SectorStats :=
  (fst g, stats_of (snd g)).

(** The pairs of role and stock in the order of the two loops. *)
Let items (r : Roles) : list (string * Stock) :=
  map (pair "龙头"%string) (leader r)
    ++ map (pair "中军"%string) (core r)
    ++ map (pair "补涨"%string) (catch_up r)
    ++ map (pair "观察"%string) (watch r).

Lemma stats_add_entry (k role : string) (stock : Stock)
    (d : list (string * list (string * Stock))) :
  StrategyGenerator.stats_add k role (code stock) (map entry d)
  = map entry (group_add k (role, stock) d).
Proof.
  induction d as [| [k' vs] d IH].
  - reflexivity.
  - cbn [map group_add]. unfold entry at 1. cbn [fst snd].
    cbn [StrategyGenerator.stats_add].
    destruct (String.eqb k' k).
    + cbn [map]. unfold entry at 2, stats_of. cbn [fst snd count roles
        stock_codes].
      rewrite length_app, !map_app. reflexivity.
    + cbn [map]. rewrite IH. reflexivity.
Qed.

Lemma stats_fold_entry (role : string) (l : list Stock)
    (d : list (string * list (string * Stock))) :
  fold_left
    (fun sector_stats stock =>
       StrategyGenerator.stats_add
         (match sector stock with
          | Some s => s
          | None => "其他"%string
          end)
         role (code stock) sector_stats)
    l (map entry d)
  = map entry
      (fold_left (fun d v => group_add (item_sector v) v d)
                 (map (pair role) l) d).
Proof.
  revert d. induction l as [| stock l IH]; intros d; [reflexivity |].
  cbn [fold_left map]. rewrite stats_add_entry. apply IH.
Qed.

Lemma collect_entries (r : Roles) :
  StrategyGenerator.collect_sector_stats r
  = map entry
      (fold_left (fun d v => group_add (item_sector v) v d) (items r) []).
Proof.
  unfold StrategyGenerator.collect_sector_stats,
    StrategyGenerator.role_items, items.
  cbn [fold_left]. rewrite !fold_left_app.
  change (@nil (string * SectorStats)) with (map entry []).
  rewrite !stats_fold_entry. reflexivity.
Qed.

Lemma sector_counters (r : Roles) (k : string) (st : SectorStats) :
  In (k, st) (StrategyGenerator.collect_sector_stats r) ->
  let counted (l : list Stock) :=
    List.length (filter (fun s => String.eqb (stock_sector s) k) l) in
  (1 <= count st)%nat
  /\ count st
     = (counted (leader r) + counted (core r) + counted (catch_up r)
        + counted (watch r))%nat
  /\ count_occ string_dec (roles st) "龙头"%string = counted (leader r).
Proof.
  rewrite collect_entries. intros Hin. cbv zeta.
  apply in_map_iff in Hin. destruct Hin as ([k' vs] & Heq & Hin).
  unfold entry in Heq. cbn [fst snd] in Heq. injection Heq as -> <-.
  pose proof (@group_fold_grouped _ item_sector (items r) [] []
                (grouped_nil item_sector)) as Hg.
  cbn [app] in Hg.
  pose proof (@grouped_size _ _ _ _ k vs Hg Hin) as Hperm.
  destruct Hg as (_ & _ & Hmem). destruct (Hmem k vs Hin) as [Hne _].
  assert (Hflt : forall role (l : list Stock),
             filter (fun v => String.eqb (item_sector v) k)
                    (map (pair role) l)
             = map (pair role)
                   (filter (fun s => String.eqb (stock_sector s) k) l)).
  { intros role l. rewrite filter_map_swap. reflexivity. }
  unfold stats_of. cbn [count roles].
  split; [destruct vs; [contradiction | simpl; lia] |].
  split.
  - rewrite (Permutation_length Hperm). unfold items.
    rewrite !filter_app, !length_app, !Hflt, !length_map. lia.
  - rewrite (proj1 (Permutation_count_occ string_dec _ _)
               (Permutation_map fst Hperm)).
    unfold items. rewrite !filter_app, !map_app, !count_occ_app, !Hflt.
    rewrite !map_map. cbn [fst]. rewrite !count_occ_const.
    repeat match goal with
           | |- context [string_dec ?a ?b] =>
               let H := fresh in
               destruct (string_dec a b) as [H | H];
                 [try discriminate H | try (exfalso; apply H; reflexivity)]
           end.
    lia.
Qed.
End SectorCounters.

Section PipelineThemes.
Variable hash : string -> Z.
Variable config : Config.

Let contribution (g : string * list Stock) : Roles :=
  DragonHeadIdentifier.assign_sector config DragonHeadIdentifier._empty_roles g.

Lemma contribution_tagged (g : string * list Stock) (x : Stock) :
  In x (leader (contribution g)) \/ In x (core (contribution g))
  \/ In x (catch_up (contribution g)) \/ In x (watch (contribution g)) ->
  sector x = Some (fst g).
Proof.
  intros [H | [H | [H | H]]].
  4: { apply contribution_watched in H. destruct H as (_ & s & _ & ->).
       reflexivity. }
  all: assert (Hx : In x (leader (contribution g) ++ core (contribution g)
                            ++ catch_up (contribution g)))
    by (rewrite !in_app_iff; auto).
  all: apply contribution_picked in Hx; destruct Hx as (_ & p & _ & ->).
  all: reflexivity.
Qed.

Lemma contribution_sizes (g : string * list Stock) :
  ((List.length (leader (contribution g)) <= 1)%nat
   /\ (List.length (core (contribution g)) <= 1)%nat
   /\ (List.length (catch_up (contribution g)) <= 1)%nat
   /\ watch (contribution g) = [])
  \/ (leader (contribution g) = [] /\ core (contribution g) = []
      /\ catch_up (contribution g) = []
      /\ (Z.of_nat (List.length (watch (contribution g)))
          < sector_strength_threshold config)%Z).
Proof.
  subst contribution. destruct g as [sec ms].
  unfold DragonHeadIdentifier.assign_sector.
  destruct (sector_strength_threshold config <=? Z.of_nat (List.length ms))%Z
    eqn:E.
  - left.
    destruct (DragonHeadIdentifier._analyze_sector_roles config sec ms)
      as [[l |] [c |] [u |]]; cbn; repeat split; lia.
  - right. apply Z.leb_gt in E. cbn. rewrite length_map. auto.
Qed.

Lemma sector_filter (F : string * list Stock -> list Stock)
    (groups : list (string * list Stock)) (k : string) :
  NoDup (map fst groups) ->
  (forall g x, In x (F g) -> sector x = Some (fst g)) ->
  let mine :=
    filter (fun s => String.eqb match sector s with
                                | Some s0 => s0
                                | None => "其他"%string
                                end k)
           (flat_map F groups) in
  (forall ms, In (k, ms) groups -> mine = F (k, ms))
  /\ (~ In k (map fst groups) -> mine = []).
Proof.
  intros Hnd Htag. cbv zeta.
  assert (Hext : filter (fun s => String.eqb match sector s with
                                             | Some s0 => s0
                                             | None => "其他"%string
                                             end k)
                        (flat_map F groups)
                 = filter (in_sector k) (flat_map F groups)).
  { apply filter_ext_in. intros x Hx. apply in_flat_map in Hx.
    destruct Hx as (g & _ & Hx). unfold in_sector.
    rewrite (Htag g x Hx). reflexivity. }
  rewrite Hext. split.
  - intros ms Hin. apply filter_sector_flat_map; assumption.
  - intros Hnot. apply filter_none. intros x Hx. apply in_flat_map in Hx.
    destruct Hx as (g & Hg & Hx). unfold in_sector.
    rewrite (Htag g x Hx). apply String.eqb_neq. intros Heq.
    apply Hnot. rewrite <- Heq. apply (in_map fst _ _ Hg).
Qed.

Lemma sector_counter_bounds (stocks : list Stock)
    (sector_data : list (string * SectorAnalysis)) (roles0 : Roles)
    (k : string) (st : SectorStats) :
  DragonHeadIdentifier.identify_roles hash config stocks sector_data
  = Ok roles0 ->
  In (k, st) (StrategyGenerator.collect_sector_stats roles0) ->
  (1 <= count st)%nat
  /\ ((count st <= 3)%nat
      \/ (Z.of_nat (count st) < sector_strength_threshold config)%Z)
  /\ (count_occ string_dec (roles st) "龙头"%string <= 1)%nat.
Proof.
  intros Hid Hin.
  destruct (identify_roles_groups _ _ _ _ Hid)
    as (groups & Hgr & HL & HC & HU & HW).
  pose proof (group_by_sector_grouped _ _ _ Hgr) as (Hnd & _ & _).
  destruct (sector_counters _ _ _ Hin) as (Hone & Hcount & Hlead).
  cbv zeta in Hcount, Hlead.
  rewrite HL, HC, HU, HW in Hcount. rewrite HL in Hlead.
  rewrite !(Permutation_length
              (Permutation_filter _ (sort_desc_perm Qltb get_score _)))
    in Hcount.
  rewrite (Permutation_length
             (Permutation_filter _ (sort_desc_perm Qltb get_score _)))
    in Hlead.
  destruct (@sector_filter (fun g => leader (contribution g)) groups k Hnd)
    as [HkL HnL]; [intros g x Hx; apply contribution_tagged; auto |].
  destruct (@sector_filter (fun g => core (contribution g)) groups k Hnd)
    as [HkC HnC]; [intros g x Hx; apply contribution_tagged; auto |].
  destruct (@sector_filter (fun g => catch_up (contribution g)) groups k Hnd)
    as [HkU HnU]; [intros g x Hx; apply contribution_tagged; auto |].
  destruct (@sector_filter (fun g => watch (contribution g)) groups k Hnd)
    as [HkW HnW]; [intros g x Hx; apply contribution_tagged; auto |].
  unfold contribution in *. cbv beta in *.
  destruct (in_dec string_dec k (map fst groups)) as [Hkey | Hkey].
  - apply in_map_iff in Hkey. destruct Hkey as ([k' ms] & Heq & Hg).
    cbn [fst] in Heq. subst k'.
    rewrite (HkL ms Hg), (HkC ms Hg), (HkU ms Hg), (HkW ms Hg) in Hcount.
    rewrite (HkL ms Hg) in Hlead.
    pose proof (contribution_sizes (k, ms)) as Hs.
    unfold contribution in Hs.
    destruct Hs as [(H1 & H2 & H3 & H4) | (H1 & H2 & H3 & H4)].
    + rewrite H4 in Hcount. cbn [List.length] in Hcount.
      split; [exact Hone |]. split; [left; lia | lia].
    + rewrite H1, H2, H3 in Hcount. rewrite H1 in Hlead.
      cbn [List.length] in Hcount, Hlead.
      split; [exact Hone |]. split; [right; lia | lia].
  - rewrite (HnL Hkey), (HnC Hkey), (HnU Hkey), (HnW Hkey) in Hcount.
    cbn in Hcount. lia.
Qed.

(** X13: in the report of a run, every theme is a sector with between one
    and three counted stocks, at least the configured threshold, and at
    most one leader.  Its rating is "★★" when it counts three stocks and
    "★" otherwise, and its persistence verdict is "有一定持续性，需观察" when
    it counts three and "一日游可能性大，谨慎参与" otherwise: the ratings
    above "★★" and the verdict "主线明确，持续性较强" occur in no report
    of the pipeline. *)
Theorem pipeline_themes (now : string) (limit_up_df : list LimitUpRecord)
    (historical_data : list (string * DataFrame)) (report : StrategyReport)
    (th : Theme) :
  Main.pipeline hash config now limit_up_df historical_data = Ok report ->
  In th (themes report) ->
  (sector_strength_threshold config <= Z.of_nat (th_count th))%Z
  /\ (1 <= th_count th <= 3)%nat
  /\ (th_leaders th <= 1)%nat
  /\ th_rating th
     = (if 3 <=? th_count th then "★★"%string else "★"%string)
  /\ th_persistence th
     = (if 3 <=? th_count th then "有一定持续性，需观察"%string
        else "一日游可能性大，谨慎参与"%string).
Proof.
  unfold Main.pipeline.
  destruct (DragonHeadIdentifier.identify_roles hash config _ _)
    as [roles0 | e] eqn:Hid; [| discriminate].
  cbn. intros [= <-]. cbn [themes StrategyGenerator.generate_strategy].
  intros Hth. apply theme_of_stats in Hth.
  destruct Hth as (sec & st & Hin & Hthr & ->).
  cbn [th_count th_leaders th_rating th_persistence].
  destruct (@sector_counter_bounds _ _ _ _ _ Hid Hin) as (Hone & Hcnt & Hlead).
  assert (H3 : (count st <= 3)%nat) by (destruct Hcnt; lia).
  split; [exact Hthr |]. split; [lia |]. split; [exact Hlead |].
  unfold StrategyGenerator._rate_sector_strength,
    StrategyGenerator._judge_sector_persistence.
  destruct (count st) as [| [| [| [| n]]]]; try lia; cbn;
    rewrite ?andb_false_r; split; reflexivity.
Qed.
End PipelineThemes.

(** ** The theme list of any role assignment *)

Lemma NoDup_firstn_of {A} (n : nat) (l : list A) :
  NoDup l -> NoDup (firstn n l).
Proof.
  intros H. rewrite <- (firstn_skipn n l) in H.
  eapply NoDup_app_remove_r, H.
Qed.

Lemma StronglySorted_firstn {A} (R : A -> A -> Prop) (n : nat) (l : list A) :
  StronglySorted R l -> StronglySorted R (firstn n l).
Proof.
  intros H. revert n. induction H as [| x l Hs IH Hall]; intros n.
  - rewrite firstn_nil. constructor.
  - destruct n as [| n]; simpl; constructor;
      [apply IH | apply Forall_firstn, Hall].
Qed.

Lemma NoDup_flat_map_proj {A B} (key : B -> string)
    (F : string * A -> list B) (d : list (string * A)) :
  NoDup (map fst d) ->
  (forall g x, In x (F g) -> F g = [x] /\ key x = fst g) ->
  NoDup (map key (flat_map F d)).
Proof.
  intros Hnd HF. induction d as [| g d IH]; simpl; [constructor |].
  inversion Hnd as [| ? ? Hnotin Hnd']; subst.
  rewrite map_app. destruct (F g) as [| x xs] eqn:EF; simpl.
  - apply IH, Hnd'.
  - destruct (HF g x) as [Hone Hkey]; [rewrite EF; left; reflexivity |].
    rewrite EF in Hone. injection Hone as ->. simpl.
    constructor; [| apply IH, Hnd'].
    intros Hin. apply Hnotin. rewrite <- Hkey.
    apply in_map_iff in Hin. destruct Hin as (y & Hy & Hin).
    apply in_flat_map in Hin. destruct Hin as (g' & Hg' & Hyin).
    destruct (HF g' y Hyin) as [_ Hk]. rewrite <- Hy, Hk.
    apply in_map, Hg'.
Qed.

Lemma sector_stats_keys (r : Roles) :
  NoDup (map fst (StrategyGenerator.collect_sector_stats r)).
Proof.
  rewrite collect_entries, map_map. cbn [fst].
  match goal with
  | |- NoDup (map _ (fold_left _ ?l [])) =>
      pose proof (@group_fold_grouped _
                    (fun v : string * Stock =>
                       match sector (snd v) with
                       | Some s => s
                       | None => "其他"%string
                       end) l [] []
                    (grouped_nil _)) as (Hnd & _)
  end.
  exact Hnd.
Qed.

(** X14: whatever the role lists, the theme list has at most three entries,
    in descending order of their counts and of pairwise different sectors;
    each entry counts at least the threshold number of stocks, at least one
    stock, and no more leaders than stocks. *)
Theorem main_themes_invariants (config : Config) (r : Roles) :
  let themes := StrategyGenerator._identify_main_themes config r in
  (List.length themes <= 3)%nat
  /\ StronglySorted (fun a b => (th_count b <= th_count a)%nat) themes
  /\ NoDup (map th_sector themes)
  /\ Forall (fun th =>
               (sector_strength_threshold config
                  <= Z.of_nat (th_count th))%Z
               /\ (1 <= th_count th)%nat
               /\ (th_leaders th <= th_count th)%nat)
            themes.
Proof.
  cbv zeta. split; [| split; [| split]].
  - unfold StrategyGenerator._identify_main_themes.
    rewrite length_firstn. apply Nat.le_min_l.
  - unfold StrategyGenerator._identify_main_themes.
    apply StronglySorted_firstn, sort_desc_sorted_nat.
  - unfold StrategyGenerator._identify_main_themes.
    rewrite <- firstn_map. apply NoDup_firstn_of.
    eapply Permutation_NoDup;
      [apply Permutation_sym, Permutation_map, sort_desc_perm |].
    apply NoDup_flat_map_proj; [apply sector_stats_keys |].
    intros [sec st] x.
    destruct (sector_strength_threshold config <=? Z.of_nat (count st))%Z;
      [| intros []].
    intros [<- | []]. split; reflexivity.
  - apply Forall_forall. intros th Hth. apply theme_of_stats in Hth.
    destruct Hth as (sec & st & Hin & Hthr & ->).
    cbn [th_count th_leaders].
    destruct (sector_counters _ _ _ Hin) as (Hone & Hcount & Hlead).
    cbv zeta in Hcount, Hlead. split; [exact Hthr |]. split; [exact Hone |].
    rewrite Hlead, Hcount. lia.
Qed.

(** ** When a run raises *)

Lemma analysis_codes (config : Config)
    (historical_data : list (string * DataFrame))
    (limit_up_df : list LimitUpRecord) :
  map code
      (stocks (LimitUpAnalyzer.analyze_limit_up config limit_up_df
                 historical_data))
  = map r_code limit_up_df.
Proof.
  destruct (analysis_stocks config historical_data limit_up_df) as [Hst _].
  cbv zeta in Hst. rewrite Hst, !map_map. apply map_ext. intros row.
  apply (mark_analysed config historical_data row).
Qed.

Section RunErrors.
Variable hash : string -> Z.
Variable config : Config.
Variable now : string.
Variable limit_up_df : list LimitUpRecord.
Variable historical_data : list (string * DataFrame).

Let sector_analysis :=
  SectorAnalyzer.analyze_sectors hash limit_up_df historical_data.

Let analysed :=
  stocks (LimitUpAnalyzer.analyze_limit_up config limit_up_df historical_data).

Lemma identification_returns :
  (exists roles,
     DragonHeadIdentifier.identify_roles hash config analysed sector_analysis
     = Ok roles)
  <-> ((exists row, In row limit_up_df /\ r_code row = EmptyString) ->
       DragonHeadIdentifier.find_core_sector EmptyString sector_analysis
       <> None).
Proof.
  assert (Hcodes : (exists s, In s analysed /\ code s = EmptyString)
                   <-> (exists row, In row limit_up_df
                                    /\ r_code row = EmptyString)).
  { pose proof (analysis_codes config historical_data limit_up_df) as Hmap.
    fold analysed in Hmap. split.
    - intros (s & Hs & Hc).
      assert (Hin : In EmptyString (map r_code limit_up_df))
        by (rewrite <- Hmap, <- Hc; apply in_map, Hs).
      apply in_map_iff in Hin. destruct Hin as (row & Hr & Hin).
      exists row. auto.
    - intros (row & Hr & Hc).
      assert (Hin : In EmptyString (map code analysed))
        by (rewrite Hmap, <- Hc; apply in_map, Hr).
      apply in_map_iff in Hin. destruct Hin as (s & Hs & Hin).
      exists s. auto. }
  rewrite <- Hcodes.
  pose proof (group_loop_returns hash sector_analysis analysed []) as Hloop.
  unfold DragonHeadIdentifier.identify_roles,
    DragonHeadIdentifier._group_by_sector.
  destruct analysed as [| s rest] eqn:E.
  - split; [intros _ (s & [] & _) | intros _; eexists; reflexivity].
  - rewrite <- E in *.
    destruct (DragonHeadIdentifier.group_loop hash sector_analysis analysed [])
      as [groups | e]; cbn.
    + split; [| intros _; eexists; reflexivity].
      intros _ (s' & Hs' & Hc). apply (proj1 Hloop) with (s := s'); auto.
      eexists; reflexivity.
    + split; [intros [roles Hr]; discriminate |].
      intros H. exfalso.
      assert (Hok : exists groups,
                 @Raise (list (string * list Stock)) e = Ok groups).
      { apply Hloop. intros s' Hs' Hc. apply H. exists s'. auto. }
      destruct Hok as [groups Hg]. discriminate.
Qed.

(** X15: a run returns a report unless the roster has a row with an empty
    code while no sector of the sector analysis lists a core stock with an
    empty code; in that case, and only then, it raises [IndexError]. *)
Theorem run_analysis_raises :
  ((exists report,
      Main.run_analysis hash config now limit_up_df historical_data
      = Ok report)
   <-> ((exists row, In row limit_up_df /\ r_code row = EmptyString) ->
        exists sector info core_stock,
          In (sector, info)
             (SectorAnalyzer.analyze_sectors hash limit_up_df historical_data)
          /\ In core_stock (sa_core_stocks info)
          /\ cs_code core_stock = EmptyString))
  /\ ((exists row, In row limit_up_df /\ r_code row = EmptyString) ->
      (forall sector info core_stock,
         In (sector, info)
            (SectorAnalyzer.analyze_sectors hash limit_up_df historical_data) ->
         In core_stock (sa_core_stocks info) ->
         cs_code core_stock <> EmptyString) ->
      Main.run_analysis hash config now limit_up_df historical_data
      = Raise IndexError).
Proof.
  assert (Hiff : (exists report,
                    Main.run_analysis hash config now limit_up_df
                      historical_data = Ok report)
                 <-> ((exists row, In row limit_up_df
                                   /\ r_code row = EmptyString) ->
                      DragonHeadIdentifier.find_core_sector EmptyString
                        sector_analysis <> None)).
  { rewrite <- identification_returns.
    unfold Main.run_analysis, Main.pipeline, analysed, sector_analysis.
    destruct limit_up_df as [| row rest] eqn:E.
    - split; intros _; eexists; reflexivity.
    - rewrite <- E.
      destruct (DragonHeadIdentifier.identify_roles hash config _ _)
        as [roles | e]; cbn.
      + split; intros _; eexists; reflexivity.
      + split; intros [x Hx]; discriminate. }
  split.
  - rewrite Hiff, find_core_sector_listed. reflexivity.
  - intros Hempty Hnone.
    destruct (Main.run_analysis hash config now limit_up_df historical_data)
      as [report | []] eqn:E; [| reflexivity].
    exfalso.
    assert (Hex : exists report0, Ok report = Ok report0)
      by (eexists; reflexivity).
    apply Hiff in Hex; [| exact Hempty].
    apply find_core_sector_listed in Hex.
    destruct Hex as (sector & info & cs & Hin & Hcs & Hc).
    exact (Hnone sector info cs Hin Hcs Hc).
Qed.
End RunErrors.

(** ** The warning about a missing leader *)

Lemma no_leader_warning_In (analysis_results : AnalysisResult) (r : Roles) :
  In "无明显龙头板块，市场主线不清晰，谨慎操作"%string
     (StrategyGenerator._generate_risk_warnings analysis_results r)
  <-> leader r = [].
Proof.
  unfold StrategyGenerator._generate_risk_warnings.
  assert (Hlen : (List.length (leader r) =? 0) = true <-> leader r = []).
  { rewrite Nat.eqb_eq. destruct (leader r); split; intros H;
      try reflexivity; discriminate H. }
  rewrite <- Hlen.
  destruct (100 <? total_count (summary analysis_results));
    destruct (total_count (summary analysis_results) <? 30);
    destruct (7 <=? StrategyGenerator._get_max_continuous_days
                      analysis_results);
    destruct (List.length (leader r) =? 0);
    cbn [app In];
    (split;
     [ intros H;
       repeat match goal with
              | H : _ \/ _ |- _ => destruct H as [H | H]
              | H : False |- _ => destruct H
              end;
       solve [reflexivity | discriminate H]
     | intros H; solve [discriminate H | tauto] ]).
Qed.

Section LeaderWarning.
Variable hash : string -> Z.
Variable config : Config.
Variable sector_data : list (string * SectorAnalysis).

Lemma leader_contribution_nil (g : string * list Stock) :
  leader (DragonHeadIdentifier.assign_sector config
            DragonHeadIdentifier._empty_roles g) = []
  <-> (Z.of_nat (List.length (snd g))
       < Z.max (sector_strength_threshold config) 2)%Z.
Proof.
  destruct g as [sec ms]. unfold DragonHeadIdentifier.assign_sector.
  cbn [fst snd].
  destruct (sector_strength_threshold config <=? Z.of_nat (List.length ms))%Z
    eqn:E.
  - apply Z.leb_le in E.
    unfold DragonHeadIdentifier._analyze_sector_roles.
    destruct (List.length ms <? 2) eqn:E2.
    + apply Nat.ltb_lt in E2. cbn. split; [lia | reflexivity].
    + apply Nat.ltb_ge in E2. cbn [sr_leader sr_core sr_catch_up leader].
      destruct (@pick_leader_Some (DragonHeadIdentifier.scored config ms))
        as (dragon & -> & _).
      { intros Hnil. apply (f_equal (@List.length Stock)) in Hnil.
        rewrite scored_length in Hnil. cbn in Hnil. lia. }
      cbn. split; [discriminate | lia].
  - apply Z.leb_gt in E. cbn. split; [lia | reflexivity].
Qed.

(** X16: when the role identifier returns, the warning that there is no
    clear leader is among the risk warnings exactly when every sector has
    fewer input stocks than the larger of the strength threshold and 2. *)
Theorem no_leader_warning (analysis_results : AnalysisResult)
    (stocks : list Stock) (roles : Roles) :
  DragonHeadIdentifier.identify_roles hash config stocks sector_data
  = Ok roles ->
  let sector_of := sector_name hash sector_data in
  let sector_size (s : Stock) :=
    Z.of_nat
      (List.length
         (filter (fun t => String.eqb (sector_of t) (sector_of s)) stocks)) in
  In "无明显龙头板块，市场主线不清晰，谨慎操作"%string
     (StrategyGenerator._generate_risk_warnings analysis_results roles)
  <-> (forall s, In s stocks ->
                 (sector_size s
                  < Z.max (sector_strength_threshold config) 2)%Z).
Proof.
  intros Hid. cbv zeta. rewrite no_leader_warning_In.
  destruct (identify_roles_groups _ _ _ _ Hid)
    as (groups & Hgr & HL & _).
  pose proof (group_by_sector_grouped _ _ _ Hgr) as Hg.
  assert (Hnil : leader roles = []
                 <-> forall g, In g groups ->
                       leader (DragonHeadIdentifier.assign_sector config
                                 DragonHeadIdentifier._empty_roles g) = []).
  { rewrite HL. split.
    - intros H g Hin.
      apply (f_equal (@List.length Stock)) in H.
      rewrite sort_desc_length in H. apply length_zero_iff_nil in H.
      destruct (leader (DragonHeadIdentifier.assign_sector config
                          DragonHeadIdentifier._empty_roles g))
        as [| x l] eqn:E; [reflexivity |].
      exfalso. assert (Hx : In x (flat_map
                 (fun g => leader (DragonHeadIdentifier.assign_sector config
                                     DragonHeadIdentifier._empty_roles g))
                 groups)).
      { apply in_flat_map. exists g. split; [exact Hin |].
        rewrite E. left. reflexivity. }
      rewrite H in Hx. destruct Hx.
    - intros H. replace (flat_map _ groups) with (@nil Stock); [reflexivity |].
      symmetry. clear - H. induction groups as [| g gs IH]; [reflexivity |].
      cbn [flat_map]. rewrite (H g (or_introl eq_refl)). cbn [app].
      apply IH. intros g' Hg'. apply H. right. exact Hg'. }
  rewrite Hnil. split.
  - intros H s Hs.
    destruct Hg as (Hnd & Hall & Hmem).
    apply (Permutation_in _ (Permutation_sym Hall)) in Hs.
    apply in_flat_map in Hs. destruct Hs as ([k ms] & Hin & Hs).
    cbn [snd] in Hs.
    pose proof (@grouped_size _ _ _ _ k ms (conj Hnd (conj Hall Hmem)) Hin)
      as Hperm.
    destruct (Hmem k ms Hin) as [_ Hk]. rewrite Forall_forall in Hk.
    rewrite (Hk s Hs), <- (Permutation_length Hperm).
    apply (leader_contribution_nil (k, ms)), H, Hin.
  - intros H [k ms] Hin. apply leader_contribution_nil. cbn [snd].
    pose proof (@grouped_size _ _ _ _ k ms Hg Hin) as Hperm.
    destruct Hg as (Hnd & Hall & Hmem).
    destruct (Hmem k ms Hin) as [Hne Hk]. rewrite Forall_forall in Hk.
    destruct ms as [| s ms']; [contradiction |].
    assert (Hs : In s stocks).
    { apply (Permutation_in _ Hall). apply in_flat_map.
      exists (k, s :: ms'). split; [exact Hin | left; reflexivity]. }
    specialize (H s Hs). rewrite (Hk s (or_introl eq_refl)) in H.
    rewrite <- (Permutation_length Hperm) in H. exact H.
Qed.
End LeaderWarning.

(** ** How the composite score varies *)

Lemma round_half_even_nearest (p : Z) (d : positive) :
  let m := round_half_even (p # d) in
  ((2 * m - 1) * Zpos d <= 2 * p <= (2 * m + 1) * Zpos d)%Z
  /\ ((2 * p = (2 * m + 1) * Zpos d)%Z -> Z.even m = true)
  /\ ((2 * p = (2 * m - 1) * Zpos d)%Z -> Z.even m = true).
Proof.
  cbv zeta. unfold round_half_even. cbn [Qnum Qden].
  pose proof (Z.div_mod p (Zpos d) ltac:(lia)) as Hdm.
  pose proof (Z.mod_pos_bound p (Zpos d) ltac:(lia)) as Hr.
  set (f := (p / Zpos d)%Z) in *. set (r := (p mod Zpos d)%Z) in *.
  destruct (Z.compare_spec (2 * r) (Zpos d)) as [Heq | Hlt | Hgt].
  - destruct (Z.even f) eqn:Ef.
    + split; [nia |]. split; [intros _; exact Ef | intros H; nia].
    + assert (Hev : Z.even (f + 1) = true).
      { rewrite Z.even_add, Ef. reflexivity. }
      split; [nia |]. split; [intros H; nia | intros _; exact Hev].
  - split; [nia |]. split; intros H; nia.
  - split; [nia |]. split; intros H; nia.
Qed.

Lemma round_half_even_mono (x y : Q) :
  x <= y -> (round_half_even x <= round_half_even y)%Z.
Proof.
  destruct x as [p d], y as [q e]. unfold Qle. cbn [Qnum Qden]. intros Hle.
  destruct (round_half_even_nearest p d) as ((Hlo & _) & _ & Hodd).
  destruct (round_half_even_nearest q e) as ((_ & Hhi) & Heven & _).
  cbv zeta in *.
  set (m := round_half_even (p # d)) in *.
  set (n := round_half_even (q # e)) in *.
  destruct (Z_le_gt_dec m n) as [H | H]; [exact H | exfalso].
  assert (Hchain : ((2 * m - 1) * (Zpos d * Zpos e)
                    <= (2 * n + 1) * (Zpos d * Zpos e))%Z) by nia.
  assert (Hm : m = (n + 1)%Z) by nia.
  assert (H1 : (2 * p = (2 * m - 1) * Zpos d)%Z) by nia.
  assert (H2 : (2 * q = (2 * n + 1) * Zpos e)%Z) by nia.
  specialize (Hodd H1). specialize (Heven H2).
  rewrite Hm, Z.even_add, Heven in Hodd. discriminate Hodd.
Qed.

Lemma round2_mono (x y : Q) : x <= y -> round2 x <= round2 y.
Proof.
  intros H. unfold round2. rewrite !Qred_correct.
  assert (Hm : (round_half_even (x * 100) <= round_half_even (y * 100))%Z).
  { apply round_half_even_mono. nra. }
  unfold Qle. cbn [Qnum Qden]. lia.
Qed.

Lemma amount_score_mono (a b : Q) :
  a <= b ->
  ((if Qgtb a 1e9 then 100
    else if Qgtb a 5e8 then 80
    else if Qgtb a 2e8 then 65
    else if Qgtb a 5e7 then 50
    else 30)
   <= (if Qgtb b 1e9 then 100
       else if Qgtb b 5e8 then 80
       else if Qgtb b 2e8 then 65
       else if Qgtb b 5e7 then 50
       else 30))%Z.
Proof.
  intros Hab. unfold Qgtb.
  repeat match goal with
         | |- context [Qltb ?u ?v] =>
             let E := fresh "E" in
             destruct (Qltb u v) eqn:E;
               [apply Qltb_lt in E | apply Qltb_ge in E]
         end;
    try lia; exfalso; lra.
Qed.

(** X17: with non-negative weights for the streak height and the seal
    amount, of two stocks with the same technical features the one that has
    at least as long a streak and at least as large an amount scores at
    least as much; and once both streaks are four days or longer and both
    amounts exceed a billion, the two scores are equal. *)
Theorem dragon_score_monotone (config : Config) (a b : Stock) :
  0 <= w_streak (weights config) ->
  0 <= w_seal_amount (weights config) ->
  features a = features b ->
  (get_continuous_days a <= get_continuous_days b)%nat ->
  amount a <= amount b ->
  DragonHeadIdentifier._calculate_dragon_score config a
  <= DragonHeadIdentifier._calculate_dragon_score config b
  /\ ((4 <= get_continuous_days a)%nat -> 1e9 < amount a ->
      DragonHeadIdentifier._calculate_dragon_score config a
      = DragonHeadIdentifier._calculate_dragon_score config b).
Proof.
  intros Hw1 Hw3 Hfeat Hdays Hamount.
  unfold DragonHeadIdentifier._calculate_dragon_score,
    DragonHeadIdentifier.get_is_breakout,
    DragonHeadIdentifier.get_price_position,
    DragonHeadIdentifier.get_trend_strength,
    DragonHeadIdentifier.get_volume_ratio.
  cbv zeta. rewrite Hfeat.
  pose proof (amount_score_mono Hamount) as Ham.
  set (ama := if Qgtb (amount a) 1e9 then _ else _) in *.
  set (amb := if Qgtb (amount b) 1e9 then _ else _) in *.
  set (csa := Z.min (Z.of_nat (get_continuous_days a) * 25) 100).
  set (csb := Z.min (Z.of_nat (get_continuous_days b) * 25) 100).
  set (ts := Z.min _ 100).
  assert (Hcs : (csa <= csb)%Z) by (subst csa csb; lia).
  split.
  - apply round2_mono.
    assert (H1 : inject_Z csa <= inject_Z csb)
      by (rewrite <- Zle_Qle; exact Hcs).
    assert (H3 : inject_Z ama <= inject_Z amb)
      by (rewrite <- Zle_Qle; exact Ham).
    nra.
  - intros H4 Hbig.
    assert (Ea : csa = 100%Z) by (subst csa; lia).
    assert (Eb : csb = 100%Z) by (subst csb; lia).
    assert (Fa : ama = 100%Z).
    { subst ama. unfold Qgtb.
      destruct (Qltb 1e9 (amount a)) eqn:E; [reflexivity |].
      apply Qltb_ge in E. exfalso. lra. }
    assert (Fb : amb = 100%Z).
    { subst amb. unfold Qgtb.
      destruct (Qltb 1e9 (amount b)) eqn:E; [reflexivity |].
      apply Qltb_ge in E. exfalso. lra. }
    rewrite Ea, Eb, Fa, Fb. reflexivity.
Qed.

(** The comparison at the default weights, for a three-day and a five-day
    streak. *)
Lemma dragon_score_monotone_witness :
  DragonHeadIdentifier._calculate_dragon_score Samples.default_config
    Samples.sample_stock
  <= DragonHeadIdentifier._calculate_dragon_score Samples.default_config
       (set_streak_info 5 (Fin 0) [] Samples.sample_stock).
Proof.
  apply (@dragon_score_monotone Samples.default_config Samples.sample_stock
           (set_streak_info 5 (Fin 0) [] Samples.sample_stock)).
  - vm_compute. discriminate.
  - vm_compute. discriminate.
  - reflexivity.
  - vm_compute. lia.
  - vm_compute. discriminate.
Defined.

(** ** The stock strategies of a run *)

Lemma analysed_row_fields (config : Config)
    (historical_data : list (string * DataFrame)) (row : LimitUpRecord) :
  let s :=
    fst (LimitUpAnalyzer.mark_streak historical_data
           (LimitUpAnalyzer._analyze_single_stock config row
              historical_data)) in
  name s = match r_name row with
           | Some cell => cell
           | None => Str (r_code row)
           end
  /\ close s = match r_close row with Fin x => x | NaN => 0 end.
Proof.
  cbv zeta.
  unfold LimitUpAnalyzer.mark_streak, LimitUpAnalyzer._analyze_single_stock,
    LimitUpAnalyzer.float_or_zero.
  destruct (dict_get (r_code row) historical_data) as [df |] eqn:Edf.
  - destruct (5 <=? LimitUpAnalyzer.len df); cbn [code]; rewrite Edf;
      match goal with
      | |- context [if ?c then _ else _] => destruct c
      end; split; reflexivity.
  - cbn [code]. rewrite Edf. split; reflexivity.
Qed.

Lemma picked_origin (hash : string -> Z) (config : Config)
    (sector_data : list (string * SectorAnalysis)) (stocks : list Stock)
    (roles : Roles) (x : Stock) :
  DragonHeadIdentifier.identify_roles hash config stocks sector_data
  = Ok roles ->
  In x (leader roles ++ core roles ++ catch_up roles) ->
  exists s sec q, In s stocks /\ x = set_sector sec (set_score q s).
Proof.
  intros Hid Hx.
  destruct (identify_roles_groups _ _ _ _ Hid)
    as (groups & Hgr & HL & HC & HU & _).
  pose proof (group_by_sector_grouped _ _ _ Hgr) as (_ & Hall & _).
  rewrite HL, HC, HU in Hx.
  assert (Hx' : exists g,
             In g groups
             /\ In x (let c :=
                        DragonHeadIdentifier.assign_sector config
                          DragonHeadIdentifier._empty_roles g in
                      leader c ++ core c ++ catch_up c)).
  { cbv zeta. rewrite !in_app_iff, !sort_desc_In, !in_flat_map in Hx.
    destruct Hx as [(g & Hg' & Hx) | [(g & Hg' & Hx) | (g & Hg' & Hx)]];
      exists g; rewrite !in_app_iff; auto. }
  destruct Hx' as ([k ms] & Hin & Hx').
  apply contribution_picked in Hx'. cbn [fst snd] in Hx'.
  destruct Hx' as (_ & p & Hp & ->).
  apply scored_origin in Hp. destruct Hp as (s & Hs & ->).
  exists s, k, (DragonHeadIdentifier._calculate_dragon_score config s).
  split; [| reflexivity].
  apply (Permutation_in _ Hall). apply in_flat_map.
  exists (k, ms). split; [exact Hin | exact Hs].
Qed.

(** X18: every stock strategy of a run is about a row of the roster: it
    carries the row's code and the row's name cell (NaN included; the code
    when the frame has no name column). Its stop-loss and target are the
    two-decimal texts of the binary64 products of the row's closing price
    with 0.93 and 1.15 for a Leader, 0.95 and 1.10 for a Core, 0.92 and
    1.08 for a Catch-up, and both are "0.00" when the closing price is
    NaN.  The advice for a Leader is decided by the streak recorded for its
    code, with steps at 3 and 5 days; only a Catch-up entry has a note. *)
Theorem pipeline_strategies (hash : string -> Z) (config : Config)
    (now : string) (limit_up_df : list LimitUpRecord)
    (historical_data : list (string * DataFrame)) (report : StrategyReport)
    (st : StockStrategy) :
  Main.pipeline hash config now limit_up_df historical_data = Ok report ->
  In st (stock_strategies report) ->
  exists row,
    In row limit_up_df
    /\ st_code st = r_code row
    /\ st_name st = match r_name row with
                    | Some cell => cell
                    | None => Str (r_code row)
                    end
    /\ let price_text (factor : Q) :=
         match r_close row with
         | Fin price => format_product_2f price factor
         | NaN => "0.00"%string
         end in
       let days := recorded_streak config historical_data (r_code row) in
       (st_role st = "龙头"%string
        /\ st_advice st
           = (if 5 <=? days
              then "持有为主，断板时减仓，反包失败离场"%string
              else if 3 <=? days
              then "分歧时低吸，加速时持有，放量滞涨时减仓"%string
              else "确认龙头地位后加仓，关注板块梯队完整性"%string)
        /\ st_stop_loss st = price_text 0.93
        /\ st_target st = price_text 1.15
        /\ st_note st = None)
       \/ (st_role st = "中军"%string
           /\ st_stop_loss st = price_text 0.95
           /\ st_target st = price_text 1.10
           /\ st_note st = None)
       \/ (st_role st = "补涨"%string
           /\ st_stop_loss st = price_text 0.92
           /\ st_target st = price_text 1.08
           /\ st_note st = Some "快进快出，注意龙头走势"%string).
Proof.
  unfold Main.pipeline.
  destruct (DragonHeadIdentifier.identify_roles hash config _ _)
    as [roles0 | e] eqn:Hid; [| discriminate].
  unfold bind. intros [= <-].
  cbn [stock_strategies StrategyGenerator.generate_strategy].
  unfold StrategyGenerator._generate_stock_strategies. intros Hst.
  assert (Hx : exists x,
             In x (leader roles0 ++ core roles0 ++ catch_up roles0)
             /\ ((In x (leader roles0)
                  /\ st = StrategyGenerator.leader_strategy x)
                 \/ (In x (core roles0)
                     /\ st = StrategyGenerator.core_strategy x)
                 \/ (In x (catch_up roles0)
                     /\ st = StrategyGenerator.catch_up_strategy x))).
  { rewrite !in_app_iff, !in_map_iff in Hst.
    destruct Hst as [(x & <- & Hx) | [(x & <- & Hx) | (x & <- & Hx)]];
      exists x; rewrite !in_app_iff; auto 6. }
  destruct Hx as (x & Hin & Hcase).
  destruct (picked_origin _ _ _ _ _ Hid Hin) as (s & sec & q & Hs & ->).
  destruct (analysis_stocks config historical_data limit_up_df) as [Hstocks _].
  cbv zeta in Hstocks. rewrite Hstocks, map_map in Hs.
  apply in_map_iff in Hs. destruct Hs as (row & <- & Hrow).
  destruct (mark_analysed config historical_data row) as (Hcode & Hdays & _).
  destruct (analysed_row_fields config historical_data row) as (Hname & Hclose).
  cbv zeta in Hcode, Hdays, Hname, Hclose.
  exists row. split; [exact Hrow |].
  assert (Hzero : forall factor,
             In factor [0.93; 1.15; 0.95; 1.10; 0.92; 1.08] ->
             format_product_2f 0 factor = "0.00"%string).
  { intros factor Hf. cbn [In] in Hf.
    repeat (destruct Hf as [<- | Hf]; [vm_compute; reflexivity |]).
    destruct Hf. }
  destruct Hcase as [[_ ->] | [[_ ->] | [_ ->]]];
    unfold StrategyGenerator.leader_strategy, StrategyGenerator.core_strategy,
      StrategyGenerator.catch_up_strategy,
      StrategyGenerator._get_dragon_strategy;
    cbn [st_code st_name st_role st_advice st_stop_loss st_target st_note];
    cbn [code name close set_sector set_score];
    (split; [exact Hcode |]); (split; [exact Hname |]); rewrite Hclose.
  - left. unfold get_continuous_days in *.
    cbn [continuous_days set_sector set_score]. rewrite Hdays.
    destruct (r_close row); rewrite ?Hzero by (cbn; auto 7);
      repeat split; reflexivity.
  - right. left.
    destruct (r_close row); rewrite ?Hzero by (cbn; auto 7);
      repeat split; reflexivity.
  - right. right.
    destruct (r_close row); rewrite ?Hzero by (cbn; auto 7);
      repeat split; reflexivity.
Qed.

(** ** The trading suggestions of a run *)

(** X19: the trading suggestions of a run are two sentences chosen by the
    size of the roster, one pair above 80 rows, one pair up to 30 rows and
    one pair in between, followed, when the report has a theme, by one
    sentence that names the first theme and repeats its persistence
    verdict. *)
Theorem pipeline_suggestions (hash : string -> Z) (config : Config)
    (now : string) (limit_up_df : list LimitUpRecord)
    (historical_data : list (string * DataFrame)) (report : StrategyReport) :
  Main.pipeline hash config now limit_up_df historical_data = Ok report ->
  trading_suggestions report
  = (if 80 <? List.length limit_up_df
     then ["控制仓位，优先处理持仓，谨慎开新仓"%string;
           "关注低位首板或新题材机会"%string]
     else if 30 <? List.length limit_up_df
     then ["去弱留强，聚焦主线板块核心个股"%string;
           "龙头分歧时低吸，跟风股冲高减仓"%string]
     else ["小仓位试错，关注率先走强的板块"%string;
           "重点观察连板股能否打开空间"%string])
    ++ match themes report with
       | main_theme :: _ =>
           [("重点关注" ++ th_sector main_theme ++ "板块，"
               ++ th_persistence main_theme)%string]
       | [] => []
       end.
Proof.
  unfold Main.pipeline.
  destruct (DragonHeadIdentifier.identify_roles hash config _ _)
    as [roles0 | e]; [| discriminate].
  unfold bind. intros [= <-].
  cbn [trading_suggestions themes StrategyGenerator.generate_strategy].
  unfold StrategyGenerator._generate_trading_suggestions,
    StrategyGenerator._generate_market_summary,
    StrategyGenerator._assess_market_sentiment.
  cbn [ms_sentiment].
  rewrite (analysis_total_count config limit_up_df historical_data).
  destruct (StrategyGenerator._identify_main_themes config roles0)
    as [| main_theme rest];
    destruct (Nat.ltb_spec 80 (List.length limit_up_df));
    destruct (Nat.ltb_spec 50 (List.length limit_up_df));
    destruct (Nat.ltb_spec 30 (List.length limit_up_df));
    solve [exfalso; lia | reflexivity].
Qed.

(** ** The properties at the sample run *)

(** The index of a ten-day history that ends on a limit-up day. *)
Lemma rsi_within_bounds_witness :
  exists r,
    TechnicalIndicators._calculate_rsi
      (map bar_close (bars (Samples.frame 11 10))) 5 = Fin r
    /\ 0 <= r <= 100.
Proof.
  destruct (@rsi_within_bounds (map bar_close (bars (Samples.frame 11 10)))
              5%nat) as [H _].
  - lia.
  - exact H.
Defined.

(** The leaders of the sample run are in descending order of score. *)
Lemma role_members_witness :
  StronglySorted (fun a b => get_score b <= get_score a)
                 (leader Samples.roles3).
Proof.
  destruct (@role_members Samples.hash_seed1 Samples.default_config
              (SectorAnalyzer.analyze_sectors Samples.hash_seed1
                 Samples.roster3 Samples.history3)
              (stocks Samples.analysis3) Samples.roles3) as (H & _).
  - vm_compute. reflexivity.
  - exact H.
Defined.

(** The theme of the sample run counts three stocks and one leader. *)
Lemma pipeline_themes_witness :
  (1 <= th_count Samples.theme3 <= 3)%nat
  /\ (th_leaders Samples.theme3 <= 1)%nat.
Proof.
  destruct (@pipeline_themes Samples.hash_seed1 Samples.default_config
              EmptyString Samples.roster3 Samples.history3 Samples.report3
              Samples.theme3) as (_ & Hc & Hl & _).
  - vm_compute. reflexivity.
  - vm_compute. left. reflexivity.
  - split; [exact Hc | exact Hl].
Defined.

(** The sample run has a sector of three stocks, and its warnings do not
    include the one about a missing leader. *)
Lemma no_leader_warning_witness :
  ~ In "无明显龙头板块，市场主线不清晰，谨慎操作"%string
       (StrategyGenerator._generate_risk_warnings Samples.analysis3
          Samples.roles3).
Proof.
  intros Hin.
  assert (Hid : DragonHeadIdentifier.identify_roles Samples.hash_seed1
                  Samples.default_config (stocks Samples.analysis3)
                  (SectorAnalyzer.analyze_sectors Samples.hash_seed1
                     Samples.roster3 Samples.history3)
                = Ok Samples.roles3) by (vm_compute; reflexivity).
  pose proof (proj1 (@no_leader_warning Samples.hash_seed1
                       Samples.default_config _ Samples.analysis3 _ _ Hid)
                    Hin) as Hsmall.
  cbv zeta in Hsmall.
  specialize (Hsmall (hd Samples.sample_stock (stocks Samples.analysis3))).
  vm_compute in Hsmall. specialize (Hsmall (or_introl eq_refl)).
  discriminate Hsmall.
Defined.

(** The strategies of the sample run are about rows of its roster. *)
Lemma pipeline_strategies_witness :
  Forall (fun st =>
            exists row, In row Samples.roster3 /\ st_code st = r_code row)
         (stock_strategies Samples.report3).
Proof.
  apply Forall_forall. intros st Hst.
  destruct (@pipeline_strategies Samples.hash_seed1 Samples.default_config
              EmptyString Samples.roster3 Samples.history3 Samples.report3
              st) as (row & Hrow & Hcode & _).
  - vm_compute. reflexivity.
  - exact Hst.
  - exists row. split; assumption.
Defined.

(** The sample run has three rows and one theme, hence three suggestions. *)
Lemma pipeline_suggestions_witness :
  List.length (trading_suggestions Samples.report3) = 3%nat.
Proof.
  rewrite (@pipeline_suggestions Samples.hash_seed1 Samples.default_config
             EmptyString Samples.roster3 Samples.history3 Samples.report3).
  - vm_compute. reflexivity.
  - vm_compute. reflexivity.
Defined.
